(** * The bubble system contract: staking, withdrawal, settlement and the
      remote-contract relay (core/vm/bubble_contract.go)

    The handling logic [StakingToken], [WithdrewToken] and [SettleBubble],
    their entry points in the dispatch table, and [remoteDeploy],
    [remoteClear], [remoteCall] and [remoteCallExecutor].  Each Go function
    becomes a function that takes the receiver [bc] (the plugin store, the
    call object and the EVM) and returns the receiver after the call
    together with what the Go function returns.  The collaborators that the
    contract only consumes (the virtual machine, the ABI encoder, the size
    table, the gas schedule, the faults of the snapshot database) are the
    methods of the class [Host]. *)

From Stdlib Require Import ZArith NArith List String Lia Bool.
From stdpp Require Import gmap strings list fin_maps.

Set Default Proof Using "Type".

(** ** package common *)

(** [common.Address] (20 bytes) and [common.Hash] (32 bytes), as the
    numbers they spell. *)
Abbreviation Address := N.
Abbreviation Hash := N.
Abbreviation bytes := (list Byte.byte).

Definition ZeroHash : Hash := 0%N.
Definition Big0 : Z := 0%Z.

(** ** package bubble: the records the contract handles *)

Module bubble.

(** Modelled from the spec: the lifecycle states of x/bubble are not in
    src; section 4.1 gives them and their order
    (Created, Active, PreRelease, Released; ordinal, monotonic). *)
Inductive BubState := CreatedStatus | ActiveStatus | PreReleaseStatus | ReleasedStatus.

Definition ordinal (s : BubState) : N :=
  match s with
  | CreatedStatus => 0
  | ActiveStatus => 1
  | PreReleaseStatus => 2
  | ReleasedStatus => 3
  end%N.

#[export] Instance BubState_eq_dec : EqDecision BubState := ltac:(solve_decision).

(** [{TokenAddr, Balance}] *)
Record AccTokenAsset := mkToken { TokenAddr : Address; Balance : Z }.

(** The custody record of one account in one bubble.  A [big.Int] is a
    [Z]; the nil pointer that [var resetAsset AccountAsset] leaves in
    [NativeAmount] is the number 0, which is what it is stored as. *)
Record AccountAsset := mkAsset {
  Account : Address;
  NativeAmount : Z;
  TokenAssets : list AccTokenAsset
}.

Record SettlementInfo := mkSettle { AccAssets : list AccountAsset }.

Record ContractInfo := mkContractInfo {
  Creator : Address;
  CAddress : Address;
  Amount : Z
}.

(** One entry of [OperatorsL1] or of [OperatorsL2]; the contract reads
    [NodeId] and [OpAddr] of the former and [RPC] and [OpAddr] of the
    latter. *)
Record Operator := mkOperator { NodeId : N; RPC : string; OpAddr : Address }.

Record BubBasics := mkBasics {
  BubbleId : Z;
  Size : N;
  OperatorsL1 : list Operator;
  OperatorsL2 : list Operator
}.

(** What [GetBubStatus] returns. *)
Record BubStatus := mkStatus { State : BubState }.

(** What [GetBubbleInfo] returns: [bub.Basics] and [bub.State]. *)
Record Bubble := mkBubble { Basics : BubBasics; BState : BubState }.

Record SizeConfig := mkSizeConfig { MinStakingAmount : Z }.

Inductive BubTxType := StakingToken | WithdrewToken | SettleBubble.

Definition txTypeCode (t : BubTxType) : N :=
  match t with StakingToken => 0 | WithdrewToken => 1 | SettleBubble => 2 end%N.

(** The cross-chain tasks handed to the operator. *)
Inductive Task :=
| RemoteDeployTask (TxHash BlockHash : Hash) (BubbleID : Z) (Addr : Address)
    (Data : bytes) (RPC : string) (OpAddr : Address)
| RemoteCallTask (TxHash : Hash) (Caller : Address) (BubbleID : Z)
    (Contract : Address) (Data : bytes) (RPC : string) (OpAddr : Address)
| MintTokenTask (BubbleID : Z) (TxHash : Hash) (RPC : string) (OpAddr : Address)
    (AccAsset : AccountAsset).

(** Modelled from the spec: the error values of x/bubble are not in src.
    Section 7 makes each of them a business error: a value of
    [common.BizError], told from any other [error] by a type test. *)
Inductive BizCode :=
| ErrBubbleNotExist | ErrStakingAmountTooLow | ErrAccountNoEnough
| ErrBubbleIsPreRelease | ErrEmptyContractCode | ErrContractIsExist
| ErrSenderIsNotCreator | ErrContractNotExist | ErrSenderIsNotOperator
| ErrContractReturns | ErrStakingAccount | ErrBubbleIsRelease
| ErrERC20NoExist | ErrEncodeTransferData | ErrEVMExecERC20
| ErrBubbleIsNotRelease | ErrStoreAccAsset | ErrIsNotSubChainOpAddr
| ErrSettleAccListIncLength | ErrSettleAccNoExist | ErrStoreAccAssetToBub
| ErrStoreL2HashToL1Hash.

End bubble.

Import bubble.

(** [common.BizError]: a code and, after [Wrap], the wrapped message. *)
Record BizError := mkBiz { ErrCode : BizCode; Wrapped : option string }.

Coercion plainBiz (c : BizCode) : BizError := mkBiz c None.

Definition Wrap (e : BizError) (msg : string) : BizError := mkBiz (ErrCode e) (Some msg).

(** Go's [error]: a business error or anything else ([errors.New],
    [ErrOutOfGas], a database error). *)
Inductive error :=
| Biz (e : BizError)
| Plain (msg : string).

Definition ErrOutOfGas : error := Plain "out of gas".

(** What a Go function of the contract hands back:
    [return nil, nil], [return v, nil], [return nil, err], or a run-time
    panic (a nil dereference, an index out of range). *)
Inductive ret (A : Type) :=
| RNil
| RVal (v : A)
| RErr (e : error)
| RPanic (msg : string).
Arguments RNil {A}.
Arguments RVal {A} v.
Arguments RErr {A} e.
Arguments RPanic {A} msg.


(** ** package vm: state database, call object, EVM *)

(** Modelled from the spec: the state database is a collaborator (section 6:
    balance get/add/sub, code get); its code is not in src.  [storage] is
    the contracts' own storage, which only the virtual machine touches. *)
Record vmStateDB := mkStateDB {
  TxHash : Hash;
  balances : gmap N Z;
  codes : gmap N bytes;
  storage : gmap (N * N) Z
}.

Definition GetBalance (s : vmStateDB) (a : Address) : Z :=
  default 0%Z (balances s !! a).

Definition setBalance (s : vmStateDB) (a : Address) (v : Z) : vmStateDB :=
  mkStateDB (TxHash s) (<[a := v]> (balances s)) (codes s) (storage s).

Definition SubBalance (s : vmStateDB) (a : Address) (v : Z) : vmStateDB :=
  setBalance s a (GetBalance s a - v)%Z.

Definition AddBalance (s : vmStateDB) (a : Address) (v : Z) : vmStateDB :=
  setBalance s a (GetBalance s a + v)%Z.

Definition GetCode (s : vmStateDB) (a : Address) : bytes :=
  default [] (codes s !! a).

(** The call object [bc.Contract], which the contract rewrites in place
    before it re-enters the virtual machine.  [CodeHash] is left out: it is
    a function of [Code]. *)
Record vmContract := mkContract {
  caller : Address;
  CallerAddress : Address;
  self : Address;
  CodeAddr : option Address;
  Code : bytes;
  Gas : N
}.

(** Modelled from the spec: [UseGas] is not in src; section 5 has every
    operation reserve its metered cost up front and be rejected when the
    caller cannot pay it. *)
Definition UseGas (c : vmContract) (gas : N) : vmContract * bool :=
  if (Gas c <? gas)%N then (c, false)
  else (mkContract (caller c) (CallerAddress c) (self c) (CodeAddr c) (Code c) (Gas c - gas)%N, true).

Definition SetCallCode (c : vmContract) (addr : Address) (code : bytes) : vmContract :=
  mkContract (caller c) (CallerAddress c) (self c) (Some addr) code (Gas c).

Definition setSelf (c : vmContract) (a : Address) : vmContract :=
  mkContract (caller c) (CallerAddress c) a (CodeAddr c) (Code c) (Gas c).

Definition setCaller (c : vmContract) (a : Address) : vmContract :=
  mkContract a (CallerAddress c) (self c) (CodeAddr c) (Code c) (Gas c).

Definition setCallerAddress (c : vmContract) (a : Address) : vmContract :=
  mkContract (caller c) a (self c) (CodeAddr c) (Code c) (Gas c).

Record EVM := mkEVM {
  StateDB : vmStateDB;
  Origin : Address;
  BlockNumber : N;
  BlockHash : Hash
}.

Definition setStateDB (e : EVM) (s : vmStateDB) : EVM :=
  mkEVM s (Origin e) (BlockNumber e) (BlockHash e).

(** ** package plugin: the bubble store *)

(** Modelled from the spec: the plugin and its database are not in src.
    Section 3 gives the records: basics and status per bubble, the account
    list, one asset per (bubble, account), one contract per (bubble,
    address), the hash index (append-only) and the queue of posted tasks.
    The store is the view at the executing block, so the [blockHash]
    argument of every plugin call is left out. *)
Record BubblePlugin := mkPlugin {
  NodeID : N;
  basicsDB : gmap Z BubBasics;
  statusDB : gmap Z BubStatus;
  accListDB : gmap Z (list Address);
  accAssetDB : gmap (Z * N) AccountAsset;
  txHashDB : gmap (Z * N) (list Hash);
  l2HashDB : gmap (Z * N) Hash;
  contractDB : gmap (Z * N) ContractInfo;
  byteCodeDB : gmap N bytes;
  posted : list Task
}.

(** The plugin calls that reach the database or the task channel, each of
    which can fail. *)
Inductive DbOp :=
| OpGetBubBasics | OpGetBubStatus | OpGetBubbleInfo | OpGetAccListOfBub
| OpGetAccAssetOfBub | OpAddAccAssetToBub | OpStoreAccAssetToBub
| OpStoreTxHashToBub | OpStoreL2HashToL1Hash | OpGetBubContract
| OpStoreBubContract | OpDelBubContract | OpGetByteCode
| OpPostRemoteDeployEvent | OpPostRemoteCallEvent | OpPostMintTokenEvent.

Definition dbError : error := Plain "snapshotdb".
Definition notFound : error := Plain "not found".

(** One call into the virtual machine, as the trace keeps it. *)
Record VmCall := mkVmCall {
  vcCaller : Address;
  vcSelf : Address;
  vcInput : bytes
}.

(** The receiver.  [vmTrace] is a ghost field: the calls made to [RunEvm],
    oldest first. *)
Record BubbleContract := mkBC {
  Plugin : BubblePlugin;
  Contract : vmContract;
  Evm : EVM;
  vmTrace : list VmCall
}.

Definition setPlugin (bc : BubbleContract) (p : BubblePlugin) : BubbleContract :=
  mkBC p (Contract bc) (Evm bc) (vmTrace bc).

Definition setContract (bc : BubbleContract) (c : vmContract) : BubbleContract :=
  mkBC (Plugin bc) c (Evm bc) (vmTrace bc).

Definition setState (bc : BubbleContract) (s : vmStateDB) : BubbleContract :=
  mkBC (Plugin bc) (Contract bc) (setStateDB (Evm bc) s) (vmTrace bc).

(** The function codes of the dispatch table. *)
Definition TxAllotBubble : N := 8001.
Definition TxStakingToken : N := 8003.
Definition TxWithdrewToken : N := 8004.
Definition TxSettleBubble : N := 8005.
Definition TxRemoteDeploy : N := 8006.
Definition TxRemoteCall : N := 8007.
Definition TxRemoteCallExecutor : N := 8008.
Definition CallGetBubbleInfo : N := 8100.
Definition CallGetL1HashByL2Hash : N := 8101.
Definition CallGetBubTxHashList : N := 8102.

(** ** The result handlers *)

Inductive ResItem :=
| ResBig (z : Z)
| ResAddr (a : Address)
| ResHash (h : Hash)
| ResBytes (b : bytes)
| ResAsset (a : AccountAsset)
| ResSettle (s : SettlementInfo).

(** Modelled from the spec: [txResultHandler] and [txResultHandlerWithRes]
    are not in src.  Section 7: a business error is translated into a
    structured failure result with its error code and returned as a normal
    outcome; a success carries the results it was given. *)
Inductive Receipt :=
| Failure (fncode : N) (e : BizError)
| Success (fncode : N) (res : list ResItem).

Definition txResultHandler (fncode : N) (errCode : BizError) : ret Receipt :=
  RVal (Failure fncode errCode).

Definition txResultHandlerWithRes (fncode : N) (res : list ResItem) : ret Receipt :=
  RVal (Success fncode res).

(** ** What the contract does not define itself

    The virtual machine works on the EVM and the call object it is given:
    the code it runs is taken not to call back into the bubble contract, so
    a run leaves the plugin store alone. *)
Class Host := {
  (** [RunEvm(evm, contract, input)]: the EVM and the call object after the
      run, and the error message when the run fails. *)
  RunEvm : EVM -> vmContract -> bytes -> EVM * vmContract * option string;
  (** [encodeTransferFuncCall(to, amount)], [None] when encoding fails. *)
  encodeTransferFuncCall : Address -> Z -> option bytes;
  (** [bubble.GetSizeConfig(size)] *)
  GetSizeConfig : N -> error + SizeConfig;
  (** [vm.BubbleContractAddr], the custody address. *)
  BubbleContractAddr : Address;
  (** the gas schedule of package params *)
  StakingTokenGas : N;
  WithdrewTokenGas : N;
  SettleBubbleGas : N;
  RemoteDeployGas : N;
  RemoteCallGas : N;
  RemoteCallExecutorGas : N;
  (** which plugin calls fail in the database *)
  dbFault : DbOp -> bool
}.

Section Bubble.

Context `{Host}.

(** *** The plugin calls *)

Definition setAccAssetDB (p : BubblePlugin) (m : gmap (Z * N) AccountAsset) : BubblePlugin :=
  mkPlugin (NodeID p) (basicsDB p) (statusDB p) (accListDB p) m (txHashDB p)
    (l2HashDB p) (contractDB p) (byteCodeDB p) (posted p).

Definition setAccListDB (p : BubblePlugin) (m : gmap Z (list Address)) : BubblePlugin :=
  mkPlugin (NodeID p) (basicsDB p) (statusDB p) m (accAssetDB p) (txHashDB p)
    (l2HashDB p) (contractDB p) (byteCodeDB p) (posted p).

Definition setTxHashDB (p : BubblePlugin) (m : gmap (Z * N) (list Hash)) : BubblePlugin :=
  mkPlugin (NodeID p) (basicsDB p) (statusDB p) (accListDB p) (accAssetDB p) m
    (l2HashDB p) (contractDB p) (byteCodeDB p) (posted p).

Definition setL2HashDB (p : BubblePlugin) (m : gmap (Z * N) Hash) : BubblePlugin :=
  mkPlugin (NodeID p) (basicsDB p) (statusDB p) (accListDB p) (accAssetDB p) (txHashDB p)
    m (contractDB p) (byteCodeDB p) (posted p).

Definition setContractDB (p : BubblePlugin) (m : gmap (Z * N) ContractInfo) : BubblePlugin :=
  mkPlugin (NodeID p) (basicsDB p) (statusDB p) (accListDB p) (accAssetDB p) (txHashDB p)
    (l2HashDB p) m (byteCodeDB p) (posted p).

Definition setByteCodeDB (p : BubblePlugin) (m : gmap N bytes) : BubblePlugin :=
  mkPlugin (NodeID p) (basicsDB p) (statusDB p) (accListDB p) (accAssetDB p) (txHashDB p)
    (l2HashDB p) (contractDB p) m (posted p).

Definition setPosted (p : BubblePlugin) (l : list Task) : BubblePlugin :=
  mkPlugin (NodeID p) (basicsDB p) (statusDB p) (accListDB p) (accAssetDB p) (txHashDB p)
    (l2HashDB p) (contractDB p) (byteCodeDB p) l.

(** A read hands back the record (nil when there is none) and the error of
    the database, as the Go pair [(record, err)]. *)
Definition dbRead {A} (op : DbOp) (v : option A) : option A * option error :=
  if dbFault op then (None, Some dbError) else (v, None).

Definition dbWrite (op : DbOp) (p p' : BubblePlugin) : BubblePlugin * option error :=
  if dbFault op then (p, Some dbError) else (p', None).

Definition GetBubBasics (p : BubblePlugin) (bubbleID : Z) : option BubBasics * option error :=
  dbRead OpGetBubBasics (basicsDB p !! bubbleID).

Definition GetBubStatus (p : BubblePlugin) (bubbleID : Z) : option BubStatus * option error :=
  dbRead OpGetBubStatus (statusDB p !! bubbleID).

(** Modelled from the spec: section 4.1, a missing bubble or status is a
    read failure of the registry, so [GetBubbleInfo] has an error then. *)
Definition GetBubbleInfo (p : BubblePlugin) (bubbleID : Z) : option Bubble * option error :=
  if dbFault OpGetBubbleInfo then (None, Some dbError) else
  match basicsDB p !! bubbleID, statusDB p !! bubbleID with
  | Some b, Some s => (Some (mkBubble b (State s)), None)
  | _, _ => (None, Some notFound)
  end.

Definition GetAccListOfBub (p : BubblePlugin) (bubbleID : Z) : list Address * option error :=
  if dbFault OpGetAccListOfBub then ([], Some dbError)
  else (default [] (accListDB p !! bubbleID), None).

Definition GetAccAssetOfBub (p : BubblePlugin) (bubbleID : Z) (account : Address)
  : option AccountAsset * option error :=
  dbRead OpGetAccAssetOfBub (accAssetDB p !! (bubbleID, account)).

Definition StoreAccAssetToBub (p : BubblePlugin) (bubbleID : Z) (a : AccountAsset)
  : BubblePlugin * option error :=
  dbWrite OpStoreAccAssetToBub p
    (setAccAssetDB p (<[(bubbleID, Account a) := a]> (accAssetDB p))).

Fixpoint addToken (ts : list AccTokenAsset) (t : AccTokenAsset) : list AccTokenAsset :=
  match ts with
  | [] => [t]
  | x :: r =>
    if (TokenAddr x =? TokenAddr t)%N
    then mkToken (TokenAddr x) (Balance x + Balance t)%Z :: r
    else x :: addToken r t
  end.

(** Modelled from the spec: section 3, the record is created on the first
    stake, when the account also enters the account list of the bubble; a
    later stake adds to it (only withdrawal and settlement replace it). *)
Definition AddAccAssetToBub (p : BubblePlugin) (bubbleID : Z) (a : AccountAsset)
  : BubblePlugin * option error :=
  dbWrite OpAddAccAssetToBub p
    match accAssetDB p !! (bubbleID, Account a) with
    | None =>
      setAccListDB
        (setAccAssetDB p (<[(bubbleID, Account a) := a]> (accAssetDB p)))
        (<[bubbleID := default [] (accListDB p !! bubbleID) ++ [Account a]]> (accListDB p))
    | Some old =>
      setAccAssetDB p
        (<[(bubbleID, Account a) :=
             mkAsset (Account old) (NativeAmount old + NativeAmount a)%Z
               (fold_left addToken (TokenAssets a) (TokenAssets old))]> (accAssetDB p))
    end.

Definition GetTxHashListByBub (p : BubblePlugin) (bubbleID : Z) (txType : BubTxType)
  : list Hash :=
  default [] (txHashDB p !! (bubbleID, txTypeCode txType)).

Definition StoreTxHashToBub (p : BubblePlugin) (bubbleID : Z) (txHash : Hash)
  (txType : BubTxType) : BubblePlugin * option error :=
  dbWrite OpStoreTxHashToBub p
    (setTxHashDB p (<[(bubbleID, txTypeCode txType) :=
                        GetTxHashListByBub p bubbleID txType ++ [txHash]]> (txHashDB p))).

Definition GetL1HashByL2Hash (p : BubblePlugin) (bubbleID : Z) (L2TxHash : Hash)
  : option Hash :=
  l2HashDB p !! (bubbleID, L2TxHash).

Definition StoreL2HashToL1Hash (p : BubblePlugin) (bubbleID : Z) (L1TxHash L2TxHash : Hash)
  : BubblePlugin * option error :=
  dbWrite OpStoreL2HashToL1Hash p
    (setL2HashDB p (<[(bubbleID, L2TxHash) := L1TxHash]> (l2HashDB p))).

(** Modelled from the spec: section 3, one ContractInfo per (bubble,
    address), created by remote-deploy and destroyed by remote-clear; where
    there is none the read has no record and no error, which is what the
    existence check of [remoteDeploy] relies on. *)
Definition GetBubContract (p : BubblePlugin) (bubbleID : Z) (address : Address)
  : option ContractInfo * option error :=
  dbRead OpGetBubContract (contractDB p !! (bubbleID, address)).

Definition StoreBubContract (p : BubblePlugin) (bubbleID : Z) (c : ContractInfo)
  : BubblePlugin * option error :=
  dbWrite OpStoreBubContract p
    (setContractDB p (<[(bubbleID, CAddress c) := c]> (contractDB p))).

Definition DelBubContract (p : BubblePlugin) (bubbleID : Z) (address : Address)
  : BubblePlugin * option error :=
  dbWrite OpDelBubContract p
    (setContractDB p (delete (bubbleID, address) (contractDB p))).

(** The bubble-local code cache: an error where nothing is cached. *)
Definition GetByteCode (p : BubblePlugin) (address : Address) : bytes * option error :=
  if dbFault OpGetByteCode then ([], Some dbError) else
  match byteCodeDB p !! address with
  | Some c => (c, None)
  | None => ([], Some notFound)
  end.

Definition StoreByteCode (p : BubblePlugin) (address : Address) (byteCode : bytes)
  : BubblePlugin :=
  setByteCodeDB p (<[address := byteCode]> (byteCodeDB p)).

Definition postTask (op : DbOp) (p : BubblePlugin) (t : Task) : BubblePlugin * option error :=
  dbWrite op p (setPosted p (posted p ++ [t])).

Definition PostRemoteDeployEvent := postTask OpPostRemoteDeployEvent.
Definition PostRemoteCallEvent := postTask OpPostRemoteCallEvent.
Definition PostMintTokenEvent := postTask OpPostMintTokenEvent.

(** [RunEvm(bc.Evm, contract, input)] on the receiver: the call object is
    [bc.Contract] itself, and the call enters the trace. *)
Definition runEvm (bc : BubbleContract) (input : bytes) : BubbleContract * option string :=
  let '(evm, contract, err) := RunEvm (Evm bc) (Contract bc) input in
  (mkBC (Plugin bc) contract evm
     (vmTrace bc ++ [mkVmCall (caller (Contract bc)) (self (Contract bc)) input]),
   err).

(** *** The blocks the operations share *)

(** [if amount.Cmp(common.Big0) > 0 { state.SubBalance(from, amount);
    state.AddBalance(to, amount) }] *)
Definition moveNative (bc : BubbleContract) (from to : Address) (amount : Z) : BubbleContract :=
  if (amount >? Big0)%Z
  then setState bc (AddBalance (SubBalance (StateDB (Evm bc)) from amount) to amount)
  else bc.

(** The call object before a staking transfer: [contract.self] and the
    call code become the token's. *)
Definition enterToken (bc : BubbleContract) (erc20Addr : Address) (code : bytes)
  : BubbleContract :=
  setContract bc (SetCallCode (setSelf (Contract bc) erc20Addr) erc20Addr code).

(** The call object before a withdrawal transfer: as [enterToken], and the
    caller becomes the custody address. *)
Definition enterTokenAsCustody (bc : BubbleContract) (erc20Addr : Address) (code : bytes)
  : BubbleContract :=
  let contract := setSelf (Contract bc) erc20Addr in
  let contract := setCaller contract BubbleContractAddr in
  let contract := setCallerAddress contract BubbleContractAddr in
  setContract bc (SetCallCode contract erc20Addr code).

(** The manual switch of [remoteCallExecutor] to the EVM runtime. *)
Definition enterCallee (bc : BubbleContract) (caller_ contract : Address) : BubbleContract :=
  let c := setCaller (Contract bc) caller_ in
  let c := setCallerAddress c caller_ in
  let c := setSelf c contract in
  setContract bc (SetCallCode c contract (GetCode (StateDB (Evm bc)) contract)).

(** [bc.Contract.UseGas(gas)] when the gas is there. *)
Definition chargeGas (bc : BubbleContract) (gas : N) : BubbleContract :=
  setContract bc (fst (UseGas (Contract bc) gas)).

(** *** StakingToken *)

(** The loop over [stakingAsset.TokenAssets]: one transfer to the custody
    address per token, through the virtual machine. *)
Fixpoint stakingTransfers (isEstimateGas : bool) (bc : BubbleContract)
  (tokenAssets : list AccTokenAsset) : BubbleContract * option error :=
  match tokenAssets with
  | [] => (bc, None)
  | tokenAsset :: rest =>
    let erc20Addr := TokenAddr tokenAsset in
    let tokenAmount := Balance tokenAsset in
    let code := GetCode (StateDB (Evm bc)) erc20Addr in
    if (length code =? 0)%nat then (bc, Some (Biz ErrERC20NoExist)) else
    let bc := enterToken bc erc20Addr code in
    match encodeTransferFuncCall BubbleContractAddr tokenAmount with
    | None => (bc, Some (Biz ErrEncodeTransferData))
    | Some input =>
      match runEvm bc input with
      | (bc, Some err) =>
        let errMsg := ("Failed to Staking ERC20 Token, error:" ++ err)%string in
        if isEstimateGas then (bc, Some (Plain errMsg))
        else (bc, Some (Biz ErrEVMExecERC20))
      | (bc, None) => stakingTransfers isEstimateGas bc rest
      end
    end
  end.

Definition StakingToken (bc : BubbleContract) (bubbleID : Z) (stakingAsset : AccountAsset)
  : BubbleContract * ret bytes :=
  let from := CallerAddress (Contract bc) in
  if negb (from =? Account stakingAsset)%N then (bc, RErr (Biz ErrStakingAccount)) else
  match GetBubBasics (Plugin bc) bubbleID with
  | (Some basics, None) =>
    match GetBubStatus (Plugin bc) bubbleID with
    | (Some bubState, None) =>
      if decide (State bubState = ReleasedStatus) then (bc, RErr (Biz ErrBubbleIsRelease)) else
      let nativeAmount := NativeAmount stakingAsset in
      let origin := GetBalance (StateDB (Evm bc)) from in
      if (origin <? nativeAmount)%Z then (bc, RErr (Biz ErrAccountNoEnough)) else
      let bc := moveNative bc from BubbleContractAddr nativeAmount in
      let isEstimateGas := (TxHash (StateDB (Evm bc)) =? ZeroHash)%N in
      match stakingTransfers isEstimateGas bc (TokenAssets stakingAsset) with
      | (bc, Some err) => (bc, RErr err)
      | (bc, None) =>
        if isEstimateGas then (bc, RNil) else
        match AddAccAssetToBub (Plugin bc) bubbleID stakingAsset with
        | (_, Some err) => (bc, RErr err)
        | (p, None) =>
          let bc := setPlugin bc p in
          match StoreTxHashToBub (Plugin bc) bubbleID (TxHash (StateDB (Evm bc))) StakingToken with
          | (_, Some err) => (bc, RErr err)
          | (p, None) =>
            let bc := setPlugin bc p in
            match OperatorsL1 basics with
            | [] => (bc, RPanic "index out of range")
            | opL1 :: _ =>
              if (NodeID (Plugin bc) =? NodeId opL1)%N then
                match OperatorsL2 basics with
                | [] => (bc, RPanic "index out of range")
                | opL2 :: _ =>
                  let mintTokenTask :=
                    MintTokenTask bubbleID (TxHash (StateDB (Evm bc))) (RPC opL2)
                      (OpAddr opL1) stakingAsset in
                  match PostMintTokenEvent (Plugin bc) mintTokenTask with
                  | (_, Some err) => (bc, RErr err)
                  | (p, None) => (setPlugin bc p, RVal [Byte.x01])
                  end
                end
              else (bc, RVal [Byte.x01])
            end
          end
        end
      end
    | _ => (bc, RErr (Biz ErrBubbleNotExist))
    end
  | _ => (bc, RErr (Biz ErrBubbleNotExist))
  end.

(** *** WithdrewToken *)

(** The loop over the stored [accAsset.TokenAssets]: one transfer from the
    custody address to the caller per token; [resetTokens] is
    [resetAsset.TokenAssets] as built so far. *)
Fixpoint withdrewTransfers (isEstimateGas : bool) (from : Address) (bc : BubbleContract)
  (tokenAssets resetTokens : list AccTokenAsset)
  : BubbleContract * list AccTokenAsset * option error :=
  match tokenAssets with
  | [] => (bc, resetTokens, None)
  | tokenAsset :: rest =>
    let erc20Addr := TokenAddr tokenAsset in
    let tokenAmount := Balance tokenAsset in
    let code := GetCode (StateDB (Evm bc)) erc20Addr in
    if (length code =? 0)%nat then (bc, resetTokens, Some (Biz ErrERC20NoExist)) else
    let bc := enterTokenAsCustody bc erc20Addr code in
    match encodeTransferFuncCall from tokenAmount with
    | None => (bc, resetTokens, Some (Biz ErrEncodeTransferData))
    | Some input =>
      match runEvm bc input with
      | (bc, Some err) =>
        let errMsg := ("Failed to Withdrew ERC20 Token, error:" ++ err)%string in
        if isEstimateGas then (bc, resetTokens, Some (Plain errMsg))
        else (bc, resetTokens, Some (Biz ErrEVMExecERC20))
      | (bc, None) =>
        withdrewTransfers isEstimateGas from bc rest
          (resetTokens ++ [mkToken erc20Addr Big0])
      end
    end
  end.

Definition WithdrewToken (bc : BubbleContract) (bubbleID : Z)
  : BubbleContract * ret AccountAsset :=
  match GetBubBasics (Plugin bc) bubbleID with
  | (Some basics, None) =>
    match GetBubStatus (Plugin bc) bubbleID with
    | (Some bubStatus, None) =>
      if decide (State bubStatus <> ReleasedStatus)
      then (bc, RErr (Biz ErrBubbleIsNotRelease)) else
      let from := CallerAddress (Contract bc) in
      match GetAccAssetOfBub (Plugin bc) bubbleID from with
      | (_, Some err) => (bc, RErr err)
      | (None, None) => (bc, RNil)
      | (Some accAsset, None) =>
        let bc := moveNative bc BubbleContractAddr from (NativeAmount accAsset) in
        let isEstimateGas := (TxHash (StateDB (Evm bc)) =? ZeroHash)%N in
        match withdrewTransfers isEstimateGas from bc (TokenAssets accAsset) [] with
        | (bc, _, Some err) => (bc, RErr err)
        | (bc, resetTokens, None) =>
          (* [resetAsset.NativeAmount] is [common.Big0] or was left nil: 0 *)
          let resetAsset := mkAsset from Big0 resetTokens in
          if isEstimateGas then (bc, RNil) else
          match StoreAccAssetToBub (Plugin bc) bubbleID resetAsset with
          | (_, Some _) => (bc, RErr (Biz ErrStoreAccAsset))
          | (p, None) =>
            let bc := setPlugin bc p in
            match StoreTxHashToBub (Plugin bc) bubbleID (TxHash (StateDB (Evm bc))) WithdrewToken with
            | (_, Some err) => (bc, RErr err)
            | (p, None) => (setPlugin bc p, RVal accAsset)
            end
          end
        end
      end
    | _ => (bc, RErr (Biz ErrBubbleNotExist))
    end
  | _ => (bc, RErr (Biz ErrBubbleNotExist))
  end.

(** *** SettleBubble *)

(** The first loop of [SettleBubble]: every submitted account must have a
    stored asset; the snapshot is copied field by field into
    [newAccAssets]. *)
Fixpoint settleCollect (bp : BubblePlugin) (bubbleID : Z)
  (accAssets newAccAssets : list AccountAsset) : list AccountAsset * option error :=
  match accAssets with
  | [] => (newAccAssets, None)
  | accAsset :: rest =>
    let account := Account accAsset in
    match GetAccAssetOfBub bp bubbleID account with
    | (Some localAsset, None) =>
      let newAccAsset :=
        mkAsset account (NativeAmount accAsset)
          (fold_left (fun acc tokenAsset =>
                        acc ++ [mkToken (TokenAddr tokenAsset) (Balance tokenAsset)])
             (TokenAssets accAsset) []) in
      settleCollect bp bubbleID rest (newAccAssets ++ [newAccAsset])
    | _ => (newAccAssets, Some (Biz ErrSettleAccNoExist))
    end
  end.

(** The second loop: the snapshots are stored one by one. *)
Fixpoint settleStore (bp : BubblePlugin) (bubbleID : Z) (newAccAssets : list AccountAsset)
  : BubblePlugin * option error :=
  match newAccAssets with
  | [] => (bp, None)
  | newAccAsset :: rest =>
    match StoreAccAssetToBub bp bubbleID newAccAsset with
    | (bp, Some _) => (bp, Some (Biz ErrStoreAccAssetToBub))
    | (bp, None) => settleStore bp bubbleID rest
    end
  end.

Definition SettleBubble (bc : BubbleContract) (L2SettleTxHash : Hash) (bubbleID : Z)
  (settlementInfo : SettlementInfo) : BubbleContract * ret bytes :=
  let bp := Plugin bc in
  let from := CallerAddress (Contract bc) in
  match GetBubBasics bp bubbleID with
  | (Some basics, None) =>
    match GetBubStatus bp bubbleID with
    | (Some bubStatus, None) =>
      if decide (State bubStatus = ReleasedStatus) then (bc, RErr (Biz ErrBubbleIsRelease)) else
      match OperatorsL2 basics with
      | [] => (bc, RPanic "index out of range")
      | opL2 :: _ =>
        if negb (from =? OpAddr opL2)%N then (bc, RErr (Biz ErrIsNotSubChainOpAddr)) else
        let '(accList, _) := GetAccListOfBub bp bubbleID in
        if negb (length accList =? length (AccAssets settlementInfo))%nat
        then (bc, RErr (Biz ErrSettleAccListIncLength)) else
        match settleCollect bp bubbleID (AccAssets settlementInfo) [] with
        | (_, Some err) => (bc, RErr err)
        | (newAccAssets, None) =>
          if (TxHash (StateDB (Evm bc)) =? ZeroHash)%N then (bc, RNil) else
          match settleStore bp bubbleID newAccAssets with
          | (bp, Some err) => (setPlugin bc bp, RErr err)
          | (bp, None) =>
            let bc := setPlugin bc bp in
            match StoreL2HashToL1Hash (Plugin bc) bubbleID (TxHash (StateDB (Evm bc)))
                    L2SettleTxHash with
            | (_, Some _) => (bc, RErr (Biz ErrStoreL2HashToL1Hash))
            | (bp, None) =>
              let bc := setPlugin bc bp in
              match StoreTxHashToBub (Plugin bc) bubbleID (TxHash (StateDB (Evm bc)))
                      SettleBubble with
              | (_, Some err) => (bc, RErr err)
              | (bp, None) => (setPlugin bc bp, RVal [Byte.x01])
              end
            end
          end
        end
      end
    | _ => (bc, RErr (Biz ErrBubbleNotExist))
    end
  | _ => (bc, RErr (Biz ErrBubbleNotExist))
  end.

(** *** The entry points of the dispatch table *)

(** What each entry point does with the result of its handling logic. *)
Definition finish {A} (fncode : N) (res : A -> list ResItem) (r : ret A) : ret Receipt :=
  match r with
  | RNil => RNil
  | RErr (Biz bizErr) => txResultHandler fncode bizErr
  | RErr err => RErr err
  | RVal v => txResultHandlerWithRes fncode (res v)
  | RPanic msg => RPanic msg
  end.

Definition stakingToken (bc : BubbleContract) (bubbleID : Z) (stakingAsset : AccountAsset)
  : BubbleContract * ret Receipt :=
  match UseGas (Contract bc) StakingTokenGas with
  | (_, false) => (bc, RErr ErrOutOfGas)
  | (_, true) =>
    let '(bc, r) := StakingToken (chargeGas bc StakingTokenGas) bubbleID stakingAsset in
    (bc, finish TxStakingToken (fun _ => [ResBig bubbleID; ResAsset stakingAsset]) r)
  end.

Definition withdrewToken (bc : BubbleContract) (bubbleID : Z) : BubbleContract * ret Receipt :=
  match UseGas (Contract bc) WithdrewTokenGas with
  | (_, false) => (bc, RErr ErrOutOfGas)
  | (_, true) =>
    let '(bc, r) := WithdrewToken (chargeGas bc WithdrewTokenGas) bubbleID in
    (bc, finish TxWithdrewToken (fun accAsset => [ResBig bubbleID; ResAsset accAsset]) r)
  end.

Definition settleBubble (bc : BubbleContract) (L2SettleTxHash : Hash) (bubbleID : Z)
  (settlementInfo : SettlementInfo) : BubbleContract * ret Receipt :=
  match UseGas (Contract bc) SettleBubbleGas with
  | (_, false) => (bc, RErr ErrOutOfGas)
  | (_, true) =>
    let '(bc, r) := SettleBubble (chargeGas bc SettleBubbleGas) L2SettleTxHash bubbleID settlementInfo in
    (bc, finish TxSettleBubble
           (fun _ => [ResHash L2SettleTxHash; ResBig bubbleID; ResSettle settlementInfo]) r)
  end.

(** *** The remote-contract relay *)

(** [for _, operators := range bub.Basics.OperatorsL1]: the task is posted
    once for every operator entry that is the local node. *)
Fixpoint postToLocal (post : BubblePlugin -> Task -> BubblePlugin * option error)
  (bp : BubblePlugin) (operators : list Operator) (task : Task)
  : BubblePlugin * option error :=
  match operators with
  | [] => (bp, None)
  | op :: rest =>
    if (NodeId op =? NodeID bp)%N then
      match post bp task with
      | (bp, Some err) => (bp, Some err)
      | (bp, None) => postToLocal post bp rest task
      end
    else postToLocal post bp rest task
  end.

Definition remoteDeploy (bc : BubbleContract) (bubbleID : Z) (address : Address)
  (amount : Z) (data : bytes) : BubbleContract * ret Receipt :=
  let from := CallerAddress (Contract bc) in
  let txHash := TxHash (StateDB (Evm bc)) in
  let blockHash := BlockHash (Evm bc) in
  match UseGas (Contract bc) RemoteDeployGas with
  | (_, false) => (bc, RErr ErrOutOfGas)
  | (_, true) =>
    let bc := chargeGas bc RemoteDeployGas in
    match GetBubbleInfo (Plugin bc) bubbleID with
    | (_, Some _) => (bc, txResultHandler TxRemoteDeploy ErrBubbleNotExist)
    | (None, None) => (bc, RPanic "nil pointer dereference")
    | (Some bub, None) =>
      match GetSizeConfig (Size (Basics bub)) with
      | inl err => (bc, RErr err)
      | inr config =>
        if (amount <? MinStakingAmount config)%Z
        then (bc, txResultHandler TxAllotBubble ErrStakingAmountTooLow) else
        let origin := GetBalance (StateDB (Evm bc)) from in
        if (origin <? amount)%Z then (bc, RErr (Biz ErrAccountNoEnough)) else
        if (ordinal PreReleaseStatus <=? ordinal (BState bub))%N
        then (bc, txResultHandler TxRemoteDeploy ErrBubbleIsPreRelease) else
        let byteCode :=
          match GetByteCode (Plugin bc) address with
          | (_, Some _) => GetCode (StateDB (Evm bc)) address
          | (byteCode, None) => byteCode
          end in
        if (length byteCode =? 0)%nat
        then (bc, txResultHandler TxRemoteDeploy ErrEmptyContractCode) else
        match GetBubContract (Plugin bc) bubbleID address with
        | (_, Some err) => (bc, RErr err)
        | (Some _, None) => (bc, txResultHandler TxRemoteDeploy ErrContractIsExist)
        | (None, None) =>
          if (txHash =? ZeroHash)%N then (bc, RNil) else
          let bc := setState bc (AddBalance (SubBalance (StateDB (Evm bc)) from amount)
                                   BubbleContractAddr amount) in
          let bc := setPlugin bc (StoreByteCode (Plugin bc) address byteCode) in
          let contractInfo := mkContractInfo from address amount in
          match StoreBubContract (Plugin bc) bubbleID contractInfo with
          | (_, Some err) => (bc, RErr err)
          | (p, None) =>
            let bc := setPlugin bc p in
            match OperatorsL2 (Basics bub), OperatorsL1 (Basics bub) with
            | opL2 :: _, opL1 :: _ =>
              let task := RemoteDeployTask txHash blockHash bubbleID address data
                            (RPC opL2) (OpAddr opL1) in
              match postToLocal PostRemoteDeployEvent (Plugin bc)
                      (OperatorsL1 (Basics bub)) task with
              | (p, Some err) => (setPlugin bc p, RErr err)
              | (p, None) =>
                (setPlugin bc p,
                 txResultHandlerWithRes TxRemoteDeploy
                   [ResBig bubbleID; ResAddr address; ResBytes data])
              end
            | _, _ => (bc, RPanic "index out of range")
            end
          end
        end
      end
    end
  end.

Definition remoteClear (bc : BubbleContract) (bubbleID : Z) (address : Address)
  : BubbleContract * ret Receipt :=
  let from := CallerAddress (Contract bc) in
  let txHash := TxHash (StateDB (Evm bc)) in
  match GetBubContract (Plugin bc) bubbleID address with
  | (_, Some err) => (bc, RErr err)
  | (None, None) =>
    (* [contractInfo.Creator] with [contractInfo == nil] *)
    (bc, RPanic "nil pointer dereference")
  | (Some contractInfo, None) =>
    if negb (from =? Creator contractInfo)%N
    then (bc, txResultHandler TxRemoteDeploy ErrSenderIsNotCreator) else
    if (txHash =? ZeroHash)%N then (bc, RNil) else
    match DelBubContract (Plugin bc) bubbleID address with
    | (_, Some err) => (bc, RErr err)
    | (p, None) =>
      let bc := setPlugin bc p in
      let bc := setState bc (AddBalance (SubBalance (StateDB (Evm bc)) BubbleContractAddr
                                           (Amount contractInfo))
                               from (Amount contractInfo)) in
      (bc, txResultHandlerWithRes TxRemoteDeploy [])
    end
  end.

Definition remoteCall (bc : BubbleContract) (bubbleID : Z) (contract : Address) (data : bytes)
  : BubbleContract * ret Receipt :=
  let origin := Origin (Evm bc) in
  let from := CallerAddress (Contract bc) in
  let txHash := TxHash (StateDB (Evm bc)) in
  match UseGas (Contract bc) RemoteCallGas with
  | (_, false) => (bc, RErr ErrOutOfGas)
  | (_, true) =>
    let bc := chargeGas bc RemoteCallGas in
    match GetBubbleInfo (Plugin bc) bubbleID with
    | (_, Some _) => (bc, txResultHandler TxRemoteCall ErrBubbleNotExist)
    | (bub, None) =>
      match GetBubContract (Plugin bc) bubbleID contract with
      | (Some contractInfo, None) =>
        if (txHash =? ZeroHash)%N then (bc, RNil) else
        match bub with
        | None => (bc, RPanic "nil pointer dereference")
        | Some bub =>
          match OperatorsL2 (Basics bub), OperatorsL1 (Basics bub) with
          | opL2 :: _, opL1 :: _ =>
            let task := RemoteCallTask txHash origin bubbleID contract data
                          (RPC opL2) (OpAddr opL1) in
            match postToLocal PostRemoteCallEvent (Plugin bc)
                    (OperatorsL1 (Basics bub)) task with
            | (p, Some err) => (setPlugin bc p, RErr err)
            | (p, None) =>
              (setPlugin bc p,
               txResultHandlerWithRes TxRemoteCall
                 [ResAddr origin; ResAddr from; ResHash txHash; ResBig bubbleID;
                  ResAddr contract; ResBytes data])
            end
          | _, _ => (bc, RPanic "index out of range")
          end
        end
      | _ => (bc, txResultHandler TxRemoteCall ErrContractNotExist)
      end
    end
  end.

Definition remoteCallExecutor (bc : BubbleContract) (caller_ : Address) (remoteTxHash : Hash)
  (bubbleID : Z) (contract : Address) (data : bytes) : BubbleContract * ret Receipt :=
  let from := CallerAddress (Contract bc) in
  let txHash := TxHash (StateDB (Evm bc)) in
  match UseGas (Contract bc) RemoteCallExecutorGas with
  | (_, false) => (bc, RErr ErrOutOfGas)
  | (_, true) =>
    let bc := chargeGas bc RemoteCallExecutorGas in
    match GetBubbleInfo (Plugin bc) bubbleID with
    | (_, Some _) => (bc, txResultHandler TxRemoteCallExecutor ErrBubbleNotExist)
    | (None, None) => (bc, RPanic "nil pointer dereference")
    | (Some bub, None) =>
      match OperatorsL2 (Basics bub) with
      | [] => (bc, RPanic "index out of range")
      | opL2 :: _ =>
        if negb (from =? OpAddr opL2)%N
        then (bc, txResultHandler TxRemoteCallExecutor ErrSenderIsNotOperator) else
        if (length (GetCode (StateDB (Evm bc)) contract) =? 0)%nat
        then (bc, txResultHandler TxRemoteCallExecutor ErrEmptyContractCode) else
        let bc := enterCallee bc caller_ contract in
        let isEstimateGas := (txHash =? ZeroHash)%N in
        match runEvm bc data with
        | (bc, Some err) =>
          if isEstimateGas
          then (bc, RErr (Plain ("call contract error: " ++ err)%string))
          else (bc, txResultHandler TxRemoteCallExecutor (Wrap ErrContractReturns err))
        | (bc, None) =>
          (bc, txResultHandlerWithRes TxRemoteCallExecutor
                 [ResBig bubbleID; ResAddr caller_; ResHash remoteTxHash;
                  ResAddr contract; ResBytes data])
        end
      end
    end
  end.

(** *** The predicates of the statements *)

(** An operation is rejected when it fails with a business error and hands
    the receiver back as it got it: no balance, record or task has moved. *)
Definition rejected {A} (bc : BubbleContract) (out : BubbleContract * ret A) : Prop :=
  exists e : BizError, out = (bc, RErr (Biz e)).

(** The same at an entry point, where the business error has become a
    failure receipt and only the gas of the call has been charged. *)
Definition rejectedReceipt (bc : BubbleContract) (gas : N)
  (out : BubbleContract * ret Receipt) : Prop :=
  exists fncode (e : BizError), out = (chargeGas bc gas, RVal (Failure fncode e)).

Definition isSuccess (r : ret Receipt) : Prop :=
  exists fncode res, r = RVal (Success fncode res).

(** [call] is the transfer of [t]'s balance to [to], made to [t]'s token. *)
Definition isTransferCall (to : Address) (call : VmCall) (t : AccTokenAsset) : Prop :=
  vcSelf call = TokenAddr t
  /\ encodeTransferFuncCall to (Balance t) = Some (vcInput call).

(** The virtual machine leaves the native balance of [x] alone. *)
Definition vmKeepsBalance (x : Address) : Prop :=
  forall evm c input,
    GetBalance (StateDB (fst (fst (RunEvm evm c input)))) x = GetBalance (StateDB evm) x.

(** The transfer of [t]'s balance to [to], attempted on the receiver [bc1]
    after the switch [enter] of the call object, fails in the virtual
    machine with [err] and leaves the receiver [bc2]. *)
Definition vmFailsAt (enter : BubbleContract -> Address -> bytes -> BubbleContract)
  (to : Address) (bc1 : BubbleContract) (t : AccTokenAsset)
  (bc2 : BubbleContract) (err : string) : Prop :=
  GetCode (StateDB (Evm bc1)) (TokenAddr t) <> []
  /\ exists input,
       encodeTransferFuncCall to (Balance t) = Some input
       /\ runEvm (enter bc1 (TokenAddr t) (GetCode (StateDB (Evm bc1)) (TokenAddr t))) input
          = (bc2, Some err).

End Bubble.

(** ** Further predicates *)

(** The entries of an operator list that are the node [nodeID]. *)
Definition localEntries (nodeID : N) (operators : list Operator) : nat :=
  length (List.filter (fun op => (NodeId op =? nodeID)%N) operators).

(** The two state databases hold the same native balance for every
    account. *)
Definition sameBalances (s1 s2 : vmStateDB) : Prop :=
  forall x : Address, GetBalance s1 x = GetBalance s2 x.

Section Further.

Context `{Host}.

(** The code [remoteDeploy] deploys: the one cached for the bubble, or,
    where the cache has an error, the one of the state database. *)
Definition deployedCode (bc : BubbleContract) (address : Address) : bytes :=
  match GetByteCode (Plugin bc) address with
  | (_, Some _) => GetCode (StateDB (Evm bc)) address
  | (byteCode, None) => byteCode
  end.

(** The token contract at [token] moves no native coin of [x]: a run of the
    virtual machine in that contract ([contract.self] is [token]) leaves the
    native balance of [x] alone. *)
Definition tokenKeepsBalance (token x : Address) : Prop :=
  forall evm c input,
    self c = token ->
    GetBalance (StateDB (fst (fst (RunEvm evm c input)))) x = GetBalance (StateDB evm) x.

(** The same of the token contract of every token of an asset. *)
Definition tokensKeepBalance (tokenAssets : list AccTokenAsset) (x : Address) : Prop :=
  Forall (fun t => tokenKeepsBalance (TokenAddr t) x) tokenAssets.

(** Every transfer passes: from the receiver [bc], each token of the list
    in turn has code, its transfer to [to] is encoded, and the run of it in
    the virtual machine, after the switch [enter] of the call object, ends
    without an error; [bc2] is the receiver after the last run. *)
Inductive transfersPass
  (enter : BubbleContract -> Address -> bytes -> BubbleContract) (to : Address)
  : BubbleContract -> list AccTokenAsset -> BubbleContract -> Prop :=
| transfersPass_nil bc : transfersPass enter to bc [] bc
| transfersPass_cons bc t rest input bc1 bc2 :
    GetCode (StateDB (Evm bc)) (TokenAddr t) <> [] ->
    encodeTransferFuncCall to (Balance t) = Some input ->
    runEvm (enter bc (TokenAddr t) (GetCode (StateDB (Evm bc)) (TokenAddr t))) input
    = (bc1, None) ->
    transfersPass enter to bc1 rest bc2 ->
    transfersPass enter to bc (t :: rest) bc2.

End Further.

(** The last snapshot a batch holds for the account [x]. *)
Definition lastFor (x : Address) (batch : list AccountAsset) : option AccountAsset :=
  last (List.filter (fun a => (Account a =? x)%N) batch).

(** ** package bubble: the keys of the database (x/bubble/bubble_db_key.go) *)

(** The byte of a number below 256. *)
Definition byteOfN (x : N) : Byte.byte :=
  match Byte.of_N x with
  | Some b => b
  | None => Byte.x00
  end.

(** The [n] low bytes of [x], least significant first. *)
Fixpoint bytesLE (n : nat) (x : N) : bytes :=
  match n with
  | O => []
  | S n => byteOfN (x mod 256) :: bytesLE n (x / 256)
  end.

(** [account.Bytes()] and [txHash.Bytes()]: the 20 and the 32 bytes of the
    array, most significant first. *)
Definition AddressBytes (a : Address) : bytes := rev (bytesLE 20 a).
Definition HashBytes (h : Hash) : bytes := rev (bytesLE 32 h).

(** [rlp.EncodeToBytes(bubbleID)], which is not in src: [None] is its
    error. *)
Class Rlp := { EncodeToBytes : Z -> option bytes }.

Section Keys.

Context `{Rlp}.

Definition bubbleKeyPrefix : bytes := list_byte_of_string "Bubble".
Definition AccListKeyPrefix : bytes := list_byte_of_string "AccList".
Definition AccAssetKeyPrefix : bytes := list_byte_of_string "AccAsset".
Definition TxHashKeyPrefix : bytes := list_byte_of_string "TxHash".

(** A key is a slice; the nil slice of the error case is the empty list
    (a key that is made is never empty).  [append(prefix, bid...)] is taken
    for its value: the prefix followed by [bid]. *)
Definition GetBubbleKey (bubbleID : Z) : bytes :=
  match EncodeToBytes bubbleID with
  | None => []
  | Some bid => bubbleKeyPrefix ++ bid
  end.

Definition AccListByBubKey (bubbleID : Z) : bytes :=
  match EncodeToBytes bubbleID with
  | None => []
  | Some bid => AccListKeyPrefix ++ bid
  end.

Definition AccAssetByBubKey (bubbleID : Z) (account : Address) : bytes :=
  match EncodeToBytes bubbleID with
  | None => []
  | Some bid =>
    let key := AccAssetKeyPrefix ++ bid in
    key ++ AddressBytes account
  end.

Definition TxHashByBubKey (bubbleID : Z) (txHash : Hash) : bytes :=
  match EncodeToBytes bubbleID with
  | None => []
  | Some bid =>
    let key := TxHashKeyPrefix ++ bid in
    key ++ HashBytes txHash
  end.

(** The encoder gives different bubbles different encodings. *)
Definition encoderInjective : Prop :=
  forall i j bid, EncodeToBytes i = Some bid -> EncodeToBytes j = Some bid -> i = j.

End Keys.

(** ** package eth: answering the queries of a peer

    The functions [answerGetBlockHeadersQuery], [answerGetBlockBodiesQuery],
    [answerGetNodeDataQuery], [answerGetReceiptsQuery] and
    [answerGetPooledTransactions] of the protocol handlers.  The chain, the
    state bloom, the transaction pool, the encoder and the limits of the
    protocol are the methods of the class [Backend]; the chain does not move
    while a query is answered. *)

Module eth.

(** A block header, for what the handlers read of it: [Number] (a big
    integer), the value of [Hash()] and [ReceiptHash]. *)
Record Header := mkHeader {
  Number : N;
  HeaderHash : Hash;
  ReceiptHash : Hash
}.

(** [x.Uint64()], and the arithmetic of [uint64]. *)
Definition Uint64 (x : N) : N := (x mod 2 ^ 64)%N.

(** [int(x)] for a [uint64] [x], with [int] of 64 bits. *)
Definition intOfUint64 (x : N) : Z :=
  if (x <? 2 ^ 63)%N then Z.of_N x else (Z.of_N x - 2 ^ 64)%Z.

(** [GetBlockHeadersPacket]: [Origin.Hash], [Origin.Number], [Amount],
    [Skip], [Reverse]. *)
Record GetBlockHeadersPacket := mkQuery {
  OriginHash : Hash;
  OriginNumber : N;
  Amount : N;
  Skip : N;
  Reverse : bool
}.

Class Backend := {
  (** a receipt of the chain and a transaction of the pool *)
  Receipt : Type;
  Transaction : Type;
  (** [backend.Chain()] *)
  GetHeaderByHash : Hash -> option Header;
  GetHeader : Hash -> N -> option Header;
  GetHeaderByNumber : N -> option Header;
  (** [GetAncestor(hash, number, ancestor, &maxNonCanonical)]: the hash, the
      number, and [maxNonCanonical] after the call *)
  GetAncestor : Hash -> N -> N -> N -> Hash * N * N;
  GetBodyRLP : Hash -> bytes;
  (** [(entry, err)], the boolean telling an error *)
  TrieNode : Hash -> bytes * bool;
  ContractCodeWithPrefix : Hash -> bytes * bool;
  (** nil where the receipts are not known *)
  GetReceiptsByHash : Hash -> option (list Receipt);
  (** [backend.StateBloom()], nil or the test [Contains] *)
  StateBloom : option (Hash -> bool);
  (** [backend.TxPool().Get(hash)] *)
  TxPoolGet : Hash -> option Transaction;
  (** [rlp.EncodeToBytes], [None] its error *)
  EncodeReceipts : list Receipt -> option bytes;
  EncodeTransaction : Transaction -> option bytes;
  EmptyRootHash : Hash;
  (** the limits of the protocol *)
  softResponseLimit : Z;
  estHeaderSize : Z;
  maxHeadersServe : Z;
  maxBodiesServe : Z;
  maxNodeDataServe : Z;
  maxReceiptsServe : Z
}.

Section Answers.

Context `{Backend}.

(** *** answerGetBlockHeadersQuery *)

(** The variables of the loop: the origin of the query (which the loop
    moves), [first], [maxNonCanonical], [bytes] (a size counted in whole
    bytes), [headers], [unknown] and [lookups]. *)
Record HeadersState := mkHeadersState {
  qHash : Hash;
  qNumber : N;
  first : bool;
  maxNonCanonical : N;
  hbytes : Z;
  headers : list Header;
  unknown : bool;
  lookups : Z
}.

(** The condition of the [for]. *)
Definition headersCond (query : GetBlockHeadersPacket) (st : HeadersState) : bool :=
  negb (unknown st)
  && (Z.of_nat (length (headers st)) <? intOfUint64 (Amount query))%Z
  && (hbytes st <? softResponseLimit)%Z
  && (Z.of_nat (length (headers st)) <? maxHeadersServe)%Z
  && (lookups st <? 2 * maxHeadersServe)%Z.

(** One turn of the loop; [None] is the [break] on an unknown header. *)
Definition headersBody (hashMode : bool) (query : GetBlockHeadersPacket)
  (st : HeadersState) : option HeadersState :=
  let lookups := (lookups st + 1)%Z in
  (* Retrieve the next header satisfying the query *)
  let '(origin, first, qNumber) :=
    if hashMode then
      if first st then
        let origin := GetHeaderByHash (qHash st) in
        (origin, false,
         match origin with
         | Some o => Uint64 (Number o)
         | None => qNumber st
         end)
      else (GetHeader (qHash st) (qNumber st), first st, qNumber st)
    else (GetHeaderByNumber (qNumber st), first st, qNumber st) in
  match origin with
  | None => None
  | Some origin =>
    let headers := headers st ++ [origin] in
    let bytes := (hbytes st + estHeaderSize)%Z in
    (* Advance to the next header of the query *)
    if hashMode && Reverse query then
      (* Hash based traversal towards the genesis block *)
      let ancestor := Uint64 (Skip query + 1) in
      if (ancestor =? 0)%N then
        Some (mkHeadersState (qHash st) qNumber first (maxNonCanonical st) bytes headers
                true lookups)
      else
        let '(h, n, m) := GetAncestor (qHash st) qNumber ancestor (maxNonCanonical st) in
        Some (mkHeadersState h n first m bytes headers (h =? ZeroHash)%N lookups)
    else if hashMode && negb (Reverse query) then
      (* Hash based traversal towards the leaf block *)
      let current := Uint64 (Number origin) in
      let next := Uint64 (current + Skip query + 1) in
      if (next <=? current)%N then
        Some (mkHeadersState (qHash st) qNumber first (maxNonCanonical st) bytes headers
                true lookups)
      else
        match GetHeaderByNumber next with
        | Some header =>
          let nextHash := HeaderHash header in
          let '(expOldHash, _, m) :=
            GetAncestor nextHash next (Uint64 (Skip query + 1)) (maxNonCanonical st) in
          if (expOldHash =? qHash st)%N then
            Some (mkHeadersState nextHash next first m bytes headers (unknown st) lookups)
          else
            Some (mkHeadersState (qHash st) qNumber first m bytes headers true lookups)
        | None =>
          Some (mkHeadersState (qHash st) qNumber first (maxNonCanonical st) bytes headers
                  true lookups)
        end
    else if Reverse query then
      (* Number based traversal towards the genesis block *)
      if (Uint64 (Skip query + 1) <=? qNumber)%N then
        Some (mkHeadersState (qHash st) (qNumber - Uint64 (Skip query + 1)) first
                (maxNonCanonical st) bytes headers (unknown st) lookups)
      else
        Some (mkHeadersState (qHash st) qNumber first (maxNonCanonical st) bytes headers
                true lookups)
    else
      (* Number based traversal towards the leaf block *)
      Some (mkHeadersState (qHash st) (Uint64 (qNumber + (Skip query + 1))) first
              (maxNonCanonical st) bytes headers (unknown st) lookups)
  end.

(** The loop, with the turns it has left: [lookups] grows by one per turn
    and the condition stops it at [2*maxHeadersServe]. *)
Fixpoint headersLoop (turns : nat) (hashMode : bool) (query : GetBlockHeadersPacket)
  (st : HeadersState) : list Header :=
  match turns with
  | O => headers st
  | S turns =>
    if headersCond query st then
      match headersBody hashMode query st with
      | None => headers st
      | Some st => headersLoop turns hashMode query st
      end
    else headers st
  end.

Definition answerGetBlockHeadersQuery (query : GetBlockHeadersPacket) : list Header :=
  let hashMode := negb (OriginHash query =? ZeroHash)%N in
  headersLoop (Z.to_nat (2 * maxHeadersServe)) hashMode query
    (mkHeadersState (OriginHash query) (OriginNumber query) true 100 0 [] false 0).

(** The number of the [k]-th header of a traversal by number towards the
    leaf block, and towards the genesis block. *)
Definition numberUp (query : GetBlockHeadersPacket) (k : nat) : N :=
  Uint64 (OriginNumber query + N.of_nat k * (Skip query + 1)).

Definition numberDown (query : GetBlockHeadersPacket) (k : nat) : N :=
  (OriginNumber query - N.of_nat k * Uint64 (Skip query + 1))%N.

(** Whether the limits of the loop leave room for one more header after
    [n] headers. *)
Definition headersAllowed (query : GetBlockHeadersPacket) (n : nat) : bool :=
  (Z.of_nat n <? intOfUint64 (Amount query))%Z
  && (Z.of_nat n * estHeaderSize <? softResponseLimit)%Z
  && (Z.of_nat n <? maxHeadersServe)%Z.

(** *** answerGetBlockBodiesQuery *)

(** [for lookups, hash := range query], from the turn [lookups] on. *)
Fixpoint bodiesLoop (query : list Hash) (lookups nbytes : Z) (bodies : list bytes)
  : list bytes :=
  match query with
  | [] => bodies
  | hash :: rest =>
    if (softResponseLimit <=? nbytes)%Z
       || (maxBodiesServe <=? Z.of_nat (length bodies))%Z
       || (2 * maxBodiesServe <=? lookups)%Z
    then bodies
    else
      let data := GetBodyRLP hash in
      if negb (length data =? 0)%nat
      then bodiesLoop rest (lookups + 1) (nbytes + Z.of_nat (length data)) (bodies ++ [data])
      else bodiesLoop rest (lookups + 1) nbytes bodies
  end.

Definition answerGetBlockBodiesQuery (query : list Hash) : list bytes :=
  bodiesLoop query 0 0 [].

(** *** answerGetNodeDataQuery *)

(** What one turn finds for [hash]: nothing where the bloom rules the
    hash out; else the trie node, or, where that is empty or an error, the
    contract code; kept when there is no error and it is not empty. *)
Definition nodeData (hash : Hash) : option bytes :=
  if match StateBloom with
     | Some contains => negb (contains hash)
     | None => false
     end
  then None
  else
    let '(entry, err) := TrieNode hash in
    let '(entry, err) :=
      if (length entry =? 0)%nat || err then ContractCodeWithPrefix hash else (entry, err) in
    if negb err && (0 <? length entry)%nat then Some entry else None.

Fixpoint nodeDataLoop (query : list Hash) (lookups nbytes : Z) (nodes : list bytes)
  : list bytes :=
  match query with
  | [] => nodes
  | hash :: rest =>
    if (softResponseLimit <=? nbytes)%Z
       || (maxNodeDataServe <=? Z.of_nat (length nodes))%Z
       || (2 * maxNodeDataServe <=? lookups)%Z
    then nodes
    else
      match nodeData hash with
      | Some entry =>
        nodeDataLoop rest (lookups + 1) (nbytes + Z.of_nat (length entry)) (nodes ++ [entry])
      | None => nodeDataLoop rest (lookups + 1) nbytes nodes
      end
  end.

Definition answerGetNodeDataQuery (query : list Hash) : list bytes :=
  nodeDataLoop query 0 0 [].

(** *** answerGetReceiptsQuery *)

(** What one turn finds for [hash]: the encoded receipts of the block;
    where the receipts are not known, the encoding of none for a known block
    whose receipt root is the empty one, and nothing otherwise; nothing
    where the encoder fails. *)
Definition receiptsData (hash : Hash) : option bytes :=
  match GetReceiptsByHash hash with
  | Some results => EncodeReceipts results
  | None =>
    match GetHeaderByHash hash with
    | Some header =>
      if negb (ReceiptHash header =? EmptyRootHash)%N then None
      else EncodeReceipts []
    | None => None
    end
  end.

Fixpoint receiptsLoop (query : list Hash) (lookups nbytes : Z) (receipts : list bytes)
  : list bytes :=
  match query with
  | [] => receipts
  | hash :: rest =>
    if (softResponseLimit <=? nbytes)%Z
       || (maxReceiptsServe <=? Z.of_nat (length receipts))%Z
       || (2 * maxReceiptsServe <=? lookups)%Z
    then receipts
    else
      match receiptsData hash with
      | Some encoded =>
        receiptsLoop rest (lookups + 1) (nbytes + Z.of_nat (length encoded))
          (receipts ++ [encoded])
      | None => receiptsLoop rest (lookups + 1) nbytes receipts
      end
  end.

Definition answerGetReceiptsQuery (query : list Hash) : list bytes :=
  receiptsLoop query 0 0 [].

(** *** answerGetPooledTransactions *)

Fixpoint pooledLoop (query : list Hash) (nbytes : Z) (hashes : list Hash) (txs : list bytes)
  : list Hash * list bytes :=
  match query with
  | [] => (hashes, txs)
  | hash :: rest =>
    if (softResponseLimit <=? nbytes)%Z then (hashes, txs)
    else
      match TxPoolGet hash with
      | None => pooledLoop rest nbytes hashes txs
      | Some tx =>
        match EncodeTransaction tx with
        | None => pooledLoop rest nbytes hashes txs
        | Some encoded =>
          pooledLoop rest (nbytes + Z.of_nat (length encoded)) (hashes ++ [hash])
            (txs ++ [encoded])
        end
      end
  end.

Definition answerGetPooledTransactions (query : list Hash) : list Hash * list bytes :=
  pooledLoop query 0 [] [].

(** *** What a peer is served *)

(** The loops over the hashes of a query share their shape: [served] is
    what is kept of a list of hashes when [find] says what each hash gives. *)
Definition served (find : Hash -> option bytes) (query : list Hash) : list bytes :=
  omap find query.

(** The size of an answer. *)
Definition totalSize (items : list bytes) : Z :=
  fold_right (fun item sum => (Z.of_nat (length item) + sum)%Z) 0%Z items.

(** The hashes of a query for which [find] gives something. *)
Definition known (find : Hash -> option bytes) (query : list Hash) : list Hash :=
  List.filter (fun hash => match find hash with Some _ => true | None => false end) query.

(** The shape the loops over the bodies, the node data and the receipts
    share, with the finder and the limit of the count left open. *)
Fixpoint serveLoop (find : Hash -> option bytes) (maxServe : Z) (query : list Hash)
  (lookups nbytes : Z) (items : list bytes) : list bytes :=
  match query with
  | [] => items
  | hash :: rest =>
    if (softResponseLimit <=? nbytes)%Z
       || (maxServe <=? Z.of_nat (length items))%Z
       || (2 * maxServe <=? lookups)%Z
    then items
    else
      match find hash with
      | Some item =>
        serveLoop find maxServe rest (lookups + 1) (nbytes + Z.of_nat (length item))
          (items ++ [item])
      | None => serveLoop find maxServe rest (lookups + 1) nbytes items
      end
  end.

(** [GetBodyRLP] as a finder: an empty body is no body. *)
Definition bodyData (hash : Hash) : option bytes :=
  let data := GetBodyRLP hash in
  if negb (length data =? 0)%nat then Some data else None.

(** What the pool gives for a hash: the encoded transaction. *)
Definition pooledData (hash : Hash) : option bytes :=
  match TxPoolGet hash with
  | None => None
  | Some tx => EncodeTransaction tx
  end.

End Answers.

End eth.

(** ** A concrete host and a concrete chain state

    The virtual machine of the host runs a token ledger: the input names the
    payee and the amount, the call object names the payer ([caller]) and
    the token ([self]); a transfer fails when the payer's slot is short. *)

(** The accounts of Alice, Bob and Carol, and the custody address. *)
Definition alice : Address := 10%N.
Definition bob : Address := 11%N.
Definition carol : Address := 12%N.
Definition custody : Address := 200%N.

Definition ledgerEncode (to : Address) (amount : Z) : option bytes :=
  match Byte.of_N to, Byte.of_N (Z.to_N amount) with
  | Some a, Some b => Some [a; b]
  | _, _ => None
  end.

Definition ledgerRun (evm : EVM) (c : vmContract) (input : bytes)
  : EVM * vmContract * option string :=
  match input with
  | [a; b] =>
    let s := StateDB evm in
    let payer := (self c, caller c) in
    let payee := (self c, Byte.to_N a) in
    let amount := Z.of_N (Byte.to_N b) in
    let have := default 0%Z (storage s !! payer) in
    if (have <? amount)%Z then (evm, c, Some "transfer amount exceeds balance"%string)
    else
      let st := <[payer := (have - amount)%Z]> (storage s) in
      let st := <[payee := (default 0%Z (st !! payee) + amount)%Z]> st in
      (setStateDB evm (mkStateDB (TxHash s) (balances s) (codes s) st), c, None)
  | _ => (evm, c, Some "bad input"%string)
  end.

Definition ledgerHost : Host := {|
  RunEvm := ledgerRun;
  encodeTransferFuncCall := ledgerEncode;
  GetSizeConfig := fun size =>
    if (size =? 1)%N then inr (mkSizeConfig 50) else inl (Plain "unknown size");
  BubbleContractAddr := custody;
  StakingTokenGas := 10%N;
  WithdrewTokenGas := 10%N;
  SettleBubbleGas := 10%N;
  RemoteDeployGas := 10%N;
  RemoteCallGas := 10%N;
  RemoteCallExecutorGas := 10%N;
  dbFault := fun _ => false
|}.

(** The L1 operator is node 7 at address 21, the L2 operator node 8 at
    address 31; the token contract is at 100.  Bubble 1 is active, bubble 2
    released, bubble 3 in pre-release.  The local node is node 7. *)
Definition operatorL1 : Operator := mkOperator 7 "l1" 21.
Definition operatorL2 : Operator := mkOperator 8 "http://l2" 31.
Definition token : Address := 100%N.

Definition basics1 : BubBasics := mkBasics 1 1 [operatorL1] [operatorL2].
Definition basics2 : BubBasics := mkBasics 2 1 [operatorL1] [operatorL2].
Definition basics3 : BubBasics := mkBasics 3 1 [operatorL1] [operatorL2].

Definition aliceIn2 : AccountAsset := mkAsset alice 40 [mkToken token 5].
Definition bobIn2 : AccountAsset := mkAsset bob 0 [mkToken token 9].

Definition plugin0 : BubblePlugin := {|
  NodeID := 7%N;
  basicsDB := {[ 1%Z := basics1; 2%Z := basics2; 3%Z := basics3 ]};
  statusDB := {[ 1%Z := mkStatus ActiveStatus; 2%Z := mkStatus ReleasedStatus;
                 3%Z := mkStatus PreReleaseStatus ]};
  accListDB := {[ 1%Z := [alice]; 2%Z := [alice; bob] ]};
  accAssetDB := {[ (1%Z, alice) := mkAsset alice 0 [];
                   (2%Z, alice) := aliceIn2; (2%Z, bob) := bobIn2 ]};
  txHashDB := {[ (2%Z, 1%N) := [4%N] ]};
  l2HashDB := ∅;
  contractDB := {[ (1%Z, 150%N) := mkContractInfo alice 150 60 ]};
  byteCodeDB := ∅;
  posted := []
|}.

(** Alice holds 100 coins and 20 tokens, the custody account 1000 coins and
    5 tokens. *)
Definition state0 (txHash : Hash) : vmStateDB := {|
  TxHash := txHash;
  balances := {[ alice := 100%Z; bob := 3%Z; custody := 1000%Z ]};
  codes := {[ token := [Byte.x60]; 150%N := [Byte.x60] ]};
  storage := {[ (token, alice) := 20%Z; (token, custody) := 5%Z ]}
|}.

(** The receiver of a call from [sender] in the transaction [txHash]. *)
Definition chain0 (sender : Address) (txHash : Hash) : BubbleContract := {|
  Plugin := plugin0;
  Contract := mkContract sender sender custody None [] 1000;
  Evm := mkEVM (state0 txHash) sender 5 77;
  vmTrace := []
|}.

(** Stakes of Alice: 5 coins and 3 tokens; 5 coins and 30 tokens (more than
    she holds); 500 coins (more than she holds). *)
Definition stake3 : AccountAsset := mkAsset alice 5 [mkToken token 3].
Definition stake30 : AccountAsset := mkAsset alice 5 [mkToken token 30].

(** *** Further concrete states *)

(** The receiver of a call that holds 5 gas, less than any cost. *)
Definition chainLow (sender : Address) (txHash : Hash) : BubbleContract :=
  setContract (chain0 sender txHash) (mkContract sender sender custody None [] 5).

(** The store with Bob in the account list of bubble 1, where he has no
    asset, and the receiver over it. *)
Definition plugin1 : BubblePlugin :=
  setAccListDB plugin0 (<[1%Z := [alice; bob]]> (accListDB plugin0)).

Definition chain1 (sender : Address) (txHash : Hash) : BubbleContract :=
  setPlugin (chain0 sender txHash) plugin1.

(** A batch of two snapshots, both of Alice. *)
Definition batchTwice : SettlementInfo :=
  mkSettle [mkAsset alice 7 []; mkAsset alice 9 [mkToken token 2]].

(** An encoder of the bubble ids below 256, one byte each, which fails on
    the others. *)
Definition byteRlp : Rlp := {|
  EncodeToBytes := fun i =>
    if ((0 <=? i) && (i <? 256))%Z then Some [byteOfN (Z.to_N i)] else None
|}.

(** A chain of the six blocks 0 to 5, the block [n] with the hash
    [1000+n]; block 3 has the empty receipt root, block 1 one receipt.  The
    state holds a trie node at 2000 and contract code at 2001, and the bloom
    knows the hashes from 2000 on.  The pool holds the transactions below
    10, of which 4 cannot be encoded.  The limits are those of the
    protocol. *)
Definition demoHeader (n : N) : eth.Header :=
  eth.mkHeader n (1000 + n) (if (n =? 3)%N then 0%N else 1%N).

Definition demoBackend : eth.Backend := {|
  eth.Receipt := N;
  eth.Transaction := N;
  eth.GetHeaderByHash := fun h =>
    if ((1000 <=? h) && (h <=? 1005))%N then Some (demoHeader (h - 1000)) else None;
  eth.GetHeader := fun h n =>
    if ((h =? 1000 + n) && (n <=? 5))%N then Some (demoHeader n) else None;
  eth.GetHeaderByNumber := fun n => if (n <=? 5)%N then Some (demoHeader n) else None;
  eth.GetAncestor := fun h n ancestor maxNonCanonical =>
    if ((ancestor <=? n) && (h =? 1000 + n))%N
    then ((1000 + (n - ancestor))%N, (n - ancestor)%N, maxNonCanonical)
    else (ZeroHash, 0%N, maxNonCanonical);
  eth.GetBodyRLP := fun h =>
    if ((1000 <=? h) && (h <=? 1005))%N then [byteOfN (h - 1000); Byte.x01] else [];
  eth.TrieNode := fun h => if (h =? 2000)%N then ([Byte.x02], false) else ([], true);
  eth.ContractCodeWithPrefix := fun h =>
    if (h =? 2001)%N then ([Byte.x03; Byte.x04], false) else ([], false);
  eth.GetReceiptsByHash := fun h => if (h =? 1001)%N then Some [7%N] else None;
  eth.StateBloom := Some (fun h => (2000 <=? h)%N);
  eth.TxPoolGet := fun h => if (h <? 10)%N then Some h else None;
  eth.EncodeReceipts := fun receipts => Some (map byteOfN receipts);
  eth.EncodeTransaction := fun tx => if (tx =? 4)%N then None else Some [byteOfN tx];
  eth.EmptyRootHash := 0%N;
  eth.softResponseLimit := 2 * 1024 * 1024;
  eth.estHeaderSize := 500;
  eth.maxHeadersServe := 1024;
  eth.maxBodiesServe := 1024;
  eth.maxNodeDataServe := 1024;
  eth.maxReceiptsServe := 1024
|}.

(** Queries for the headers: three headers from block 1 on, every second
    one; five headers from block 4 down, every second one; five headers
    from the hash of block 2 down with a skip of 2^64-1; and 2^63 headers. *)
Definition queryUp : eth.GetBlockHeadersPacket := eth.mkQuery ZeroHash 1 3 1 false.
Definition queryDown : eth.GetBlockHeadersPacket := eth.mkQuery ZeroHash 4 5 1 true.
Definition queryWrap : eth.GetBlockHeadersPacket :=
  eth.mkQuery 1002 0 5 (2 ^ 64 - 1) true.
Definition queryHuge : eth.GetBlockHeadersPacket := eth.mkQuery ZeroHash 1 (2 ^ 63) 0 false.

(** ** Properties *)

Section Properties.

Context `{Host}.

Lemma UseGas_enough c gas :
  (gas <= Gas c)%N -> snd (UseGas c gas) = true.
Proof.
  intros Hg. unfold UseGas.
  destruct (Gas c <? gas)%N eqn:E; [apply N.ltb_lt in E; lia | reflexivity].
Qed.

Lemma UseGas_split c gas :
  (gas <= Gas c)%N -> UseGas c gas = (fst (UseGas c gas), true).
Proof.
  intros Hg. rewrite <- (UseGas_enough c gas Hg). now destruct (UseGas c gas).
Qed.

Lemma chargeGas_Plugin bc gas : Plugin (chargeGas bc gas) = Plugin bc.
Proof. reflexivity. Qed.

Lemma chargeGas_Evm bc gas : Evm (chargeGas bc gas) = Evm bc.
Proof. reflexivity. Qed.

Lemma chargeGas_CallerAddress bc gas :
  CallerAddress (Contract (chargeGas bc gas)) = CallerAddress (Contract bc).
Proof. unfold chargeGas, UseGas. now destruct (Gas (Contract bc) <? gas)%N. Qed.

(** A rejection by the handling logic is a failure receipt of the entry
    point, when the gas of the call is there. *)
Lemma stakingToken_rejected bc bubbleID stakingAsset :
  (StakingTokenGas <= Gas (Contract bc))%N ->
  rejected (chargeGas bc StakingTokenGas)
    (StakingToken (chargeGas bc StakingTokenGas) bubbleID stakingAsset) ->
  rejectedReceipt bc StakingTokenGas (stakingToken bc bubbleID stakingAsset).
Proof.
  intros Hgas [e He]. unfold rejectedReceipt, stakingToken.
  rewrite (UseGas_split _ _ Hgas), He. simpl. unfold txResultHandler. eauto.
Qed.

Lemma withdrewToken_rejected bc bubbleID :
  (WithdrewTokenGas <= Gas (Contract bc))%N ->
  rejected (chargeGas bc WithdrewTokenGas)
    (WithdrewToken (chargeGas bc WithdrewTokenGas) bubbleID) ->
  rejectedReceipt bc WithdrewTokenGas (withdrewToken bc bubbleID).
Proof.
  intros Hgas [e He]. unfold rejectedReceipt, withdrewToken.
  rewrite (UseGas_split _ _ Hgas), He. simpl. unfold txResultHandler. eauto.
Qed.

Lemma settleBubble_rejected bc L2SettleTxHash bubbleID settlementInfo :
  (SettleBubbleGas <= Gas (Contract bc))%N ->
  rejected (chargeGas bc SettleBubbleGas)
    (SettleBubble (chargeGas bc SettleBubbleGas) L2SettleTxHash bubbleID settlementInfo) ->
  rejectedReceipt bc SettleBubbleGas (settleBubble bc L2SettleTxHash bubbleID settlementInfo).
Proof.
  intros Hgas [e He]. unfold rejectedReceipt, settleBubble.
  rewrite (UseGas_split _ _ Hgas), He. simpl. unfold txResultHandler. eauto.
Qed.

Lemma StakingToken_released bc bubbleID st stakingAsset :
  GetBubStatus (Plugin bc) bubbleID = (Some st, None) ->
  State st = ReleasedStatus ->
  rejected bc (StakingToken bc bubbleID stakingAsset).
Proof.
  intros Hst Hrel. unfold rejected, StakingToken. rewrite Hst.
  repeat case_match; try contradiction; eauto.
Qed.

Lemma SettleBubble_released bc bubbleID st L2SettleTxHash settlementInfo :
  GetBubStatus (Plugin bc) bubbleID = (Some st, None) ->
  State st = ReleasedStatus ->
  rejected bc (SettleBubble bc L2SettleTxHash bubbleID settlementInfo).
Proof.
  intros Hst Hrel. unfold rejected, SettleBubble. rewrite Hst.
  repeat case_match; try contradiction; eauto.
Qed.

Lemma WithdrewToken_not_released bc bubbleID st :
  GetBubStatus (Plugin bc) bubbleID = (Some st, None) ->
  State st <> ReleasedStatus ->
  rejected bc (WithdrewToken bc bubbleID).
Proof.
  intros Hst Hrel. unfold rejected, WithdrewToken. rewrite Hst.
  repeat case_match; try contradiction; eauto.
Qed.

(** C3. The lifecycle guards: on a bubble whose status is Released,
    StakingToken and SettleBubble fail with a business error; on a bubble
    whose status is anything else, WithdrewToken fails with a business
    error; each of them before anything has been changed.  At the entry
    points stakingToken, settleBubble and withdrewToken the business error
    is a failure receipt, when the gas of the call is there. *)
Theorem lifecycle_guards (bc : BubbleContract) (bubbleID : Z) (st : BubStatus) :
  GetBubStatus (Plugin bc) bubbleID = (Some st, None) ->
  (State st = ReleasedStatus ->
     (forall stakingAsset,
        rejected bc (StakingToken bc bubbleID stakingAsset)
        /\ ((StakingTokenGas <= Gas (Contract bc))%N ->
            rejectedReceipt bc StakingTokenGas (stakingToken bc bubbleID stakingAsset)))
     /\ (forall L2SettleTxHash settlementInfo,
           rejected bc (SettleBubble bc L2SettleTxHash bubbleID settlementInfo)
           /\ ((SettleBubbleGas <= Gas (Contract bc))%N ->
               rejectedReceipt bc SettleBubbleGas
                 (settleBubble bc L2SettleTxHash bubbleID settlementInfo))))
  /\ (State st <> ReleasedStatus ->
      rejected bc (WithdrewToken bc bubbleID)
      /\ ((WithdrewTokenGas <= Gas (Contract bc))%N ->
          rejectedReceipt bc WithdrewTokenGas (withdrewToken bc bubbleID))).
Proof.
  intros Hst. split; [intros Hrel; split; intros; split | intros Hrel; split].
  - now apply (StakingToken_released bc bubbleID st).
  - intros Hgas. apply stakingToken_rejected; [exact Hgas |].
    now apply (StakingToken_released _ bubbleID st).
  - now apply (SettleBubble_released bc bubbleID st).
  - intros Hgas. apply settleBubble_rejected; [exact Hgas |].
    now apply (SettleBubble_released _ bubbleID st).
  - now apply (WithdrewToken_not_released bc bubbleID st).
  - intros Hgas. apply withdrewToken_rejected; [exact Hgas |].
    now apply (WithdrewToken_not_released _ bubbleID st).
Qed.

(** C10. A caller without a stored asset in a Released bubble: the read
    hands back no record and no error, and withdrewToken returns the null
    result with no error, the receiver untouched but for the gas of the
    call: no balance moved, no record written, nothing appended to the
    withdrawal history. *)
Theorem withdraw_without_asset (bc : BubbleContract) (bubbleID : Z)
  (basics : BubBasics) (st : BubStatus) :
  (WithdrewTokenGas <= Gas (Contract bc))%N ->
  GetBubBasics (Plugin bc) bubbleID = (Some basics, None) ->
  GetBubStatus (Plugin bc) bubbleID = (Some st, None) ->
  State st = ReleasedStatus ->
  GetAccAssetOfBub (Plugin bc) bubbleID (CallerAddress (Contract bc)) = (None, None) ->
  WithdrewToken bc bubbleID = (bc, RNil)
  /\ withdrewToken bc bubbleID = (chargeGas bc WithdrewTokenGas, RNil).
Proof.
  intros Hgas Hb Hs Hrel Hasset.
  assert (Hin : forall b, Plugin b = Plugin bc ->
                  CallerAddress (Contract b) = CallerAddress (Contract bc) ->
                  WithdrewToken b bubbleID = (b, RNil)).
  { intros b Hp Hc. unfold WithdrewToken. rewrite Hp, Hc, Hb, Hs, Hasset.
    destruct (decide (State st <> ReleasedStatus)); [contradiction | reflexivity]. }
  split; [now apply Hin |].
  unfold withdrewToken. rewrite (UseGas_split _ _ Hgas).
  rewrite (Hin (chargeGas bc WithdrewTokenGas)
             (chargeGas_Plugin _ _) (chargeGas_CallerAddress _ _)).
  reflexivity.
Qed.

(** C9. Where no ContractInfo is registered for (bubbleID, address), the
    registry read hands back a nil record and no error, and remoteClear
    dereferences it: the call ends in a nil-pointer panic instead of a
    result. *)
Theorem remoteClear_nil_record (bc : BubbleContract) (bubbleID : Z) (address : Address) :
  contractDB (Plugin bc) !! (bubbleID, address) = None ->
  dbFault OpGetBubContract = false ->
  GetBubContract (Plugin bc) bubbleID address = (None, None)
  /\ remoteClear bc bubbleID address = (bc, RPanic "nil pointer dereference").
Proof.
  intros Hnone Hok.
  assert (Hread : GetBubContract (Plugin bc) bubbleID address = (None, None)).
  { unfold GetBubContract, dbRead. now rewrite Hok, Hnone. }
  split; [exact Hread |].
  unfold remoteClear. now rewrite Hread.
Qed.

(** C5. On an existing bubble whose first L2 operator is [op]: a sender
    other than [op]'s address has SettleBubble fail with a business error
    and has remoteCallExecutor answer with a failure receipt; the sender
    [op]'s address is never turned away as a non-operator by
    remoteCallExecutor, and gets the success receipt when the contract has
    code and its run succeeds. *)
Theorem primary_operator_only (bc : BubbleContract) (bubbleID : Z)
  (basics : BubBasics) (op : Operator) (others : list Operator) :
  basicsDB (Plugin bc) !! bubbleID = Some basics ->
  OperatorsL2 basics = op :: others ->
  (RemoteCallExecutorGas <= Gas (Contract bc))%N ->
  (CallerAddress (Contract bc) <> OpAddr op ->
     (forall L2SettleTxHash settlementInfo,
        rejected bc (SettleBubble bc L2SettleTxHash bubbleID settlementInfo))
     /\ (forall caller_ remoteTxHash contract data,
           rejectedReceipt bc RemoteCallExecutorGas
             (remoteCallExecutor bc caller_ remoteTxHash bubbleID contract data)))
  /\ (CallerAddress (Contract bc) = OpAddr op ->
      forall caller_ remoteTxHash contract data,
        (forall fncode e, ErrCode e = ErrSenderIsNotOperator ->
           snd (remoteCallExecutor bc caller_ remoteTxHash bubbleID contract data)
           <> RVal (Failure fncode e))
        /\ (forall bub bc',
              GetBubbleInfo (Plugin bc) bubbleID = (Some bub, None) ->
              GetCode (StateDB (Evm bc)) contract <> [] ->
              runEvm (enterCallee (chargeGas bc RemoteCallExecutorGas) caller_ contract) data
              = (bc', None) ->
              remoteCallExecutor bc caller_ remoteTxHash bubbleID contract data
              = (bc', RVal (Success TxRemoteCallExecutor
                              [ResBig bubbleID; ResAddr caller_; ResHash remoteTxHash;
                               ResAddr contract; ResBytes data])))).
Proof.
  intros Hb Hops Hgas.
  assert (Hinfo : forall bub, GetBubbleInfo (Plugin bc) bubbleID = (Some bub, None) ->
                    Basics bub = basics).
  { intros bub. unfold GetBubbleInfo. rewrite Hb.
    repeat case_match; intros; simplify_eq; reflexivity. }
  split.
  - intros Hne. apply N.eqb_neq in Hne. split.
    + intros. unfold rejected, SettleBubble, GetBubBasics, dbRead. rewrite Hb.
      destruct (dbFault OpGetBubBasics); [eauto |].
      destruct (GetBubStatus (Plugin bc) bubbleID) as [[s|] [e|]]; eauto.
      destruct (decide (State s = ReleasedStatus)); [eauto |].
      rewrite Hops, Hne. simpl. eauto.
    + intros. unfold rejectedReceipt, remoteCallExecutor.
      rewrite (UseGas_split _ _ Hgas), chargeGas_Plugin.
      destruct (GetBubbleInfo (Plugin bc) bubbleID) as [[bub|] [e|]] eqn:E;
        unfold txResultHandler; eauto.
      * rewrite (Hinfo _ eq_refl), Hops, Hne. simpl. eauto.
      * exfalso. revert E. unfold GetBubbleInfo. repeat case_match; discriminate.
  - intros Heq caller_ remoteTxHash contract data. split.
    + intros fncode e He. unfold remoteCallExecutor.
      rewrite (UseGas_split _ _ Hgas), chargeGas_Plugin.
      destruct (GetBubbleInfo (Plugin bc) bubbleID) as [[bub|] [e'|]] eqn:E;
        unfold txResultHandler, txResultHandlerWithRes; simpl;
        try (intros ?; simplify_eq; discriminate).
      rewrite (Hinfo _ eq_refl), Hops, Heq, N.eqb_refl. simpl.
      repeat case_match; simpl; intros ?; simplify_eq; discriminate.
    + intros bub bc' E Hcode Hrun. unfold remoteCallExecutor.
      rewrite (UseGas_split _ _ Hgas), chargeGas_Plugin, E.
      rewrite (Hinfo _ E), Hops, Heq, N.eqb_refl. simpl negb. cbv iota.
      rewrite chargeGas_Evm.
      destruct (GetCode (StateDB (Evm bc)) contract) eqn:Ec; [contradiction |].
      simpl length. simpl Nat.eqb. cbv iota.
      rewrite Hrun. reflexivity.
Qed.

(** C6. remoteDeploy on an existing bubble whose size class has the
    minimum [MinStakingAmount config]: an amount below the minimum is
    answered with the failure receipt for a staking amount too low; an
    amount equal to the minimum is never answered so; and on a bubble whose
    status is PreRelease or beyond the deploy is turned away (too low an
    amount, too small a balance, or the bubble being pre-release), with
    nothing changed but the gas of the call. *)
Theorem remoteDeploy_minimum_and_status (bc : BubbleContract) (bubbleID : Z)
  (bub : Bubble) (config : SizeConfig) (address : Address) (amount : Z) (data : bytes) :
  (RemoteDeployGas <= Gas (Contract bc))%N ->
  GetBubbleInfo (Plugin bc) bubbleID = (Some bub, None) ->
  GetSizeConfig (Size (Basics bub)) = inr config ->
  let out := remoteDeploy bc bubbleID address amount data in
  ((amount < MinStakingAmount config)%Z ->
     out = (chargeGas bc RemoteDeployGas,
            RVal (Failure TxAllotBubble ErrStakingAmountTooLow)))
  /\ (amount = MinStakingAmount config ->
      forall fncode e, ErrCode e = ErrStakingAmountTooLow ->
        snd out <> RVal (Failure fncode e))
  /\ ((ordinal PreReleaseStatus <= ordinal (BState bub))%N ->
      fst out = chargeGas bc RemoteDeployGas
      /\ (snd out = RVal (Failure TxAllotBubble ErrStakingAmountTooLow)
          \/ snd out = RErr (Biz ErrAccountNoEnough)
          \/ snd out = RVal (Failure TxRemoteDeploy ErrBubbleIsPreRelease))).
Proof.
  intros Hgas Hinfo Hcfg out. subst out. unfold remoteDeploy.
  rewrite (UseGas_split _ _ Hgas), chargeGas_Plugin, chargeGas_Evm, Hinfo, Hcfg.
  unfold txResultHandler, txResultHandlerWithRes.
  split; [| split].
  - intros Hlow. apply Z.ltb_lt in Hlow. now rewrite Hlow.
  - intros Heq fncode e He. subst amount. rewrite Z.ltb_irrefl.
    repeat case_match; simpl; intros ?; simplify_eq; discriminate.
  - intros Hpre. apply N.leb_le in Hpre. rewrite Hpre.
    repeat case_match; simpl; auto.
Qed.

(** *** The transfer loops *)

Lemma runEvm_Plugin bc input : Plugin (fst (runEvm bc input)) = Plugin bc.
Proof. unfold runEvm. now destruct (RunEvm _ _ _) as [[? ?] ?]. Qed.

Lemma runEvm_vmTrace bc input :
  vmTrace (fst (runEvm bc input))
  = vmTrace bc ++ [mkVmCall (caller (Contract bc)) (self (Contract bc)) input].
Proof. unfold runEvm. now destruct (RunEvm _ _ _) as [[? ?] ?]. Qed.

Lemma runEvm_Evm bc input :
  Evm (fst (runEvm bc input)) = fst (fst (RunEvm (Evm bc) (Contract bc) input)).
Proof. unfold runEvm. now destruct (RunEvm _ _ _) as [[? ?] ?]. Qed.

(** Whatever holds of the receiver and survives the switch of the call
    object and a run of the virtual machine holds after the staking loop. *)
Lemma stakingTransfers_inv (R : BubbleContract -> Prop) :
  (forall bc a code, R bc -> R (enterToken bc a code)) ->
  (forall bc input, R bc -> R (fst (runEvm bc input))) ->
  forall est l bc, R bc -> R (fst (stakingTransfers est bc l)).
Proof.
  intros Henter Hrun est l. induction l as [|t l IH]; intros bc HR; simpl; [exact HR |].
  destruct (length _ =? 0)%nat; [exact HR |].
  destruct (encodeTransferFuncCall _ _) as [input|]; [| now apply Henter].
  specialize (Hrun _ input (Henter bc (TokenAddr t) (GetCode (StateDB (Evm bc)) (TokenAddr t)) HR)).
  destruct (runEvm _ input) as [bc1 [err|]]; simpl in Hrun.
  - now destruct est.
  - now apply IH.
Qed.

Lemma withdrewTransfers_inv (R : BubbleContract -> Prop) :
  (forall bc a code, R bc -> R (enterTokenAsCustody bc a code)) ->
  (forall bc input, R bc -> R (fst (runEvm bc input))) ->
  forall est from l bc acc, R bc -> R (fst (fst (withdrewTransfers est from bc l acc))).
Proof.
  intros Henter Hrun est from l. induction l as [|t l IH]; intros bc acc HR; simpl; [exact HR |].
  destruct (length _ =? 0)%nat; [exact HR |].
  destruct (encodeTransferFuncCall _ _) as [input|]; [| now apply Henter].
  specialize (Hrun _ input (Henter bc (TokenAddr t) (GetCode (StateDB (Evm bc)) (TokenAddr t)) HR)).
  destruct (runEvm _ input) as [bc1 [err|]]; simpl in Hrun.
  - now destruct est.
  - now apply IH.
Qed.

Lemma stakingTransfers_Plugin est l bc :
  Plugin (fst (stakingTransfers est bc l)) = Plugin bc.
Proof.
  apply (stakingTransfers_inv (fun b => Plugin b = Plugin bc)); auto.
  intros b input Hb. now rewrite runEvm_Plugin.
Qed.

Lemma withdrewTransfers_Plugin est from l bc acc :
  Plugin (fst (fst (withdrewTransfers est from bc l acc))) = Plugin bc.
Proof.
  apply (withdrewTransfers_inv (fun b => Plugin b = Plugin bc)); auto.
  intros b input Hb. now rewrite runEvm_Plugin.
Qed.

(** A staking loop that comes to its end has made one transfer call per
    token, in order, whatever the mode. *)
Lemma stakingTransfers_calls est l : forall bc bc',
  stakingTransfers est bc l = (bc', None) ->
  exists calls, vmTrace bc' = vmTrace bc ++ calls
                /\ Forall2 (isTransferCall BubbleContractAddr) calls l.
Proof.
  induction l as [|t l IH]; intros bc bc'; simpl.
  - intros [= <-]. exists []. now rewrite app_nil_r.
  - destruct (length _ =? 0)%nat; [discriminate |].
    destruct (encodeTransferFuncCall _ _) as [input|] eqn:Eenc; [| discriminate].
    pose proof (runEvm_vmTrace (enterToken bc (TokenAddr t)
                                  (GetCode (StateDB (Evm bc)) (TokenAddr t))) input) as Htr.
    destruct (runEvm _ input) as [bc1 [err|]]; simpl in Htr.
    + now destruct est.
    + intros Hrest. destruct (IH _ _ Hrest) as (calls & Hcalls & Hall).
      eexists (_ :: calls). split.
      * rewrite Hcalls, Htr, <- app_assoc. reflexivity.
      * constructor; [| exact Hall]. split; [reflexivity | exact Eenc].
Qed.

Lemma withdrewTransfers_calls est from l : forall bc acc bc' reset,
  withdrewTransfers est from bc l acc = (bc', reset, None) ->
  reset = acc ++ map (fun t => mkToken (TokenAddr t) Big0) l
  /\ exists calls, vmTrace bc' = vmTrace bc ++ calls
                   /\ Forall2 (isTransferCall from) calls l
                   /\ Forall (fun call => vcCaller call = BubbleContractAddr) calls.
Proof.
  induction l as [|t l IH]; intros bc acc bc' reset; simpl.
  - intros [= <- <-]. split; [now rewrite app_nil_r |].
    exists []. now rewrite app_nil_r.
  - destruct (length _ =? 0)%nat; [discriminate |].
    destruct (encodeTransferFuncCall _ _) as [input|] eqn:Eenc; [| discriminate].
    pose proof (runEvm_vmTrace (enterTokenAsCustody bc (TokenAddr t)
                                  (GetCode (StateDB (Evm bc)) (TokenAddr t))) input) as Htr.
    destruct (runEvm _ input) as [bc1 [err|]]; simpl in Htr.
    + now destruct est.
    + intros Hrest. destruct (IH _ _ _ _ Hrest) as (Hreset & calls & Hcalls & Hall & Hfrom).
      split; [now rewrite Hreset, <- app_assoc |].
      eexists (_ :: calls). split; [| split].
      * rewrite Hcalls, Htr, <- app_assoc. reflexivity.
      * constructor; [| exact Hall]. split; [reflexivity | exact Eenc].
      * constructor; [reflexivity | exact Hfrom].
Qed.

(** The loops come to their end in estimation mode exactly when they do in
    a real transaction, and leave the same receiver. *)
Lemma stakingTransfers_mode est est' l : forall bc bc',
  stakingTransfers est bc l = (bc', None) ->
  stakingTransfers est' bc l = (bc', None).
Proof.
  induction l as [|t l IH]; intros bc bc'; simpl; [auto |].
  destruct (length _ =? 0)%nat; [discriminate |].
  destruct (encodeTransferFuncCall _ _) as [input|]; [| discriminate].
  destruct (runEvm _ input) as [bc1 [err|]]; [now destruct est | apply IH].
Qed.

Lemma withdrewTransfers_mode est est' from l : forall bc acc bc' reset,
  withdrewTransfers est from bc l acc = (bc', reset, None) ->
  withdrewTransfers est' from bc l acc = (bc', reset, None).
Proof.
  induction l as [|t l IH]; intros bc acc bc' reset; simpl; [auto |].
  destruct (length _ =? 0)%nat; [discriminate |].
  destruct (encodeTransferFuncCall _ _) as [input|]; [| discriminate].
  destruct (runEvm _ input) as [bc1 [err|]]; [now destruct est | apply IH].
Qed.

(** *** Estimation mode *)

Lemma moveNative_TxHash bc from to amount :
  TxHash (StateDB (Evm (moveNative bc from to amount))) = TxHash (StateDB (Evm bc)).
Proof. unfold moveNative. now destruct (amount >? Big0)%Z. Qed.

Lemma moveNative_Plugin bc from to amount :
  Plugin (moveNative bc from to amount) = Plugin bc.
Proof. unfold moveNative. now destruct (amount >? Big0)%Z. Qed.

Lemma moveNative_vmTrace bc from to amount :
  vmTrace (moveNative bc from to amount) = vmTrace bc.
Proof. unfold moveNative. now destruct (amount >? Big0)%Z. Qed.

Lemma finish_RNil {A} fncode res (r : ret A) :
  finish fncode res r = RNil -> r = RNil.
Proof. destruct r as [| |[]|]; simpl; unfold txResultHandler, txResultHandlerWithRes; congruence. Qed.

Lemma finish_isSuccess {A} fncode res (r : ret A) :
  isSuccess (finish fncode res r) -> exists v, r = RVal v.
Proof.
  intros (f & rs & Hr). destruct r as [|v|[]|]; simpl in Hr;
    unfold txResultHandler, txResultHandlerWithRes in Hr; try discriminate.
  now exists v.
Qed.

(** StakingToken on the zero transaction hash: the store is as it was, no
    value is returned, and a nil result comes after one transfer call per
    declared token. *)
Lemma StakingToken_estimate bc bubbleID stakingAsset :
  TxHash (StateDB (Evm bc)) = ZeroHash ->
  let out := StakingToken bc bubbleID stakingAsset in
  Plugin (fst out) = Plugin bc
  /\ (forall v, snd out <> RVal v)
  /\ (snd out = RNil ->
      exists calls, vmTrace (fst out) = vmTrace bc ++ calls
                    /\ Forall2 (isTransferCall BubbleContractAddr) calls
                         (TokenAssets stakingAsset)).
Proof.
  intros Hzero. unfold StakingToken.
  destruct (negb _); [now repeat split |].
  destruct (GetBubBasics _ _) as [[basics|] [e|]]; try now repeat split.
  destruct (GetBubStatus _ _) as [[st|] [e|]]; try now repeat split.
  destruct (decide _); [now repeat split |].
  destruct (_ <? _)%Z; [now repeat split |].
  rewrite moveNative_TxHash, Hzero. simpl (ZeroHash =? ZeroHash)%N.
  set (bc1 := moveNative bc _ _ _).
  pose proof (stakingTransfers_Plugin true (TokenAssets stakingAsset) bc1) as Hp.
  destruct (stakingTransfers true bc1 _) as [bc2 [err|]] eqn:Eloop; simpl in *.
  - rewrite Hp. unfold bc1. rewrite moveNative_Plugin. now repeat split.
  - rewrite Hp. unfold bc1. rewrite moveNative_Plugin. repeat split; [discriminate |].
    intros _. destruct (stakingTransfers_calls _ _ _ _ Eloop) as (calls & Htr & Hall).
    exists calls. split; [| exact Hall].
    rewrite Htr. unfold bc1. now rewrite moveNative_vmTrace.
Qed.

Lemma WithdrewToken_estimate bc bubbleID :
  TxHash (StateDB (Evm bc)) = ZeroHash ->
  let out := WithdrewToken bc bubbleID in
  let from := CallerAddress (Contract bc) in
  Plugin (fst out) = Plugin bc
  /\ (forall v, snd out <> RVal v)
  /\ (forall accAsset,
        snd out = RNil ->
        GetAccAssetOfBub (Plugin bc) bubbleID from = (Some accAsset, None) ->
        exists calls, vmTrace (fst out) = vmTrace bc ++ calls
                      /\ Forall2 (isTransferCall from) calls (TokenAssets accAsset)).
Proof.
  intros Hzero. unfold WithdrewToken.
  destruct (GetBubBasics _ _) as [[basics|] [e|]]; try now repeat split.
  destruct (GetBubStatus _ _) as [[st|] [e|]]; try now repeat split.
  destruct (decide _); [now repeat split |].
  destruct (GetAccAssetOfBub _ _ _) as [[accAsset|] [e|]]; try now repeat split.
  rewrite moveNative_TxHash, Hzero. simpl (ZeroHash =? ZeroHash)%N.
  set (from := CallerAddress (Contract bc)).
  set (bc1 := moveNative bc _ _ _).
  pose proof (withdrewTransfers_Plugin true from (TokenAssets accAsset) bc1 []) as Hp.
  destruct (withdrewTransfers true from bc1 _ _) as [[bc2 reset] [err|]] eqn:Eloop; simpl in *.
  - rewrite Hp. unfold bc1. rewrite moveNative_Plugin. now repeat split.
  - rewrite Hp. unfold bc1. rewrite moveNative_Plugin. repeat split; [discriminate |].
    intros a _ [= <-].
    destruct (withdrewTransfers_calls _ _ _ _ _ _ _ Eloop) as (_ & calls & Htr & Hall & _).
    exists calls. split; [| exact Hall].
    rewrite Htr. unfold bc1. now rewrite moveNative_vmTrace.
Qed.

Lemma SettleBubble_estimate bc L2SettleTxHash bubbleID settlementInfo :
  TxHash (StateDB (Evm bc)) = ZeroHash ->
  let out := SettleBubble bc L2SettleTxHash bubbleID settlementInfo in
  fst out = bc /\ (forall v, snd out <> RVal v).
Proof.
  intros Hzero. unfold SettleBubble. rewrite Hzero. simpl (ZeroHash =? ZeroHash)%N.
  repeat case_match; now split.
Qed.

(** The loops come to their end, in either mode, exactly when every
    transfer passes. *)
Lemma stakingTransfers_pass est l bc bc2 :
  transfersPass enterToken BubbleContractAddr bc l bc2 ->
  stakingTransfers est bc l = (bc2, None).
Proof.
  intros Hpass.
  induction Hpass as [bc | bc t rest input bc1 bc2 Hcode Henc Hrun _ IH]; simpl;
    [reflexivity |].
  assert (Hlen : (length (GetCode (StateDB (Evm bc)) (TokenAddr t)) =? 0)%nat = false)
    by (destruct (GetCode _ _); [congruence | reflexivity]).
  rewrite Hlen, Henc, Hrun. exact IH.
Qed.

Lemma stakingTransfers_passed est l : forall bc bc2,
  stakingTransfers est bc l = (bc2, None) ->
  transfersPass enterToken BubbleContractAddr bc l bc2.
Proof.
  induction l as [|t l IH]; intros bc bc2; simpl.
  - intros [= <-]. constructor.
  - destruct (length _ =? 0)%nat eqn:Elen; [discriminate |].
    destruct (encodeTransferFuncCall _ _) as [input|] eqn:Eenc; [| discriminate].
    destruct (runEvm _ input) as [bc1 [err|]] eqn:Erun; [now destruct est |].
    intros Hrest. econstructor; [| exact Eenc | exact Erun | exact (IH _ _ Hrest)].
    intros Hnil. rewrite Hnil in Elen. discriminate.
Qed.

Lemma withdrewTransfers_pass est from l bc bc2 :
  transfersPass enterTokenAsCustody from bc l bc2 ->
  forall acc,
    withdrewTransfers est from bc l acc
    = (bc2, acc ++ map (fun t => mkToken (TokenAddr t) Big0) l, None).
Proof.
  intros Hpass.
  induction Hpass as [bc | bc t rest input bc1 bc2 Hcode Henc Hrun _ IH]; intros acc; simpl.
  - now rewrite app_nil_r.
  - assert (Hlen : (length (GetCode (StateDB (Evm bc)) (TokenAddr t)) =? 0)%nat = false)
      by (destruct (GetCode _ _); [congruence | reflexivity]).
    rewrite Hlen, Henc, Hrun, IH, <- app_assoc. reflexivity.
Qed.

Lemma withdrewTransfers_passed est from l : forall bc acc bc2 reset,
  withdrewTransfers est from bc l acc = (bc2, reset, None) ->
  transfersPass enterTokenAsCustody from bc l bc2.
Proof.
  induction l as [|t l IH]; intros bc acc bc2 reset; simpl.
  - intros [= <- _]. constructor.
  - destruct (length _ =? 0)%nat eqn:Elen; [discriminate |].
    destruct (encodeTransferFuncCall _ _) as [input|] eqn:Eenc; [| discriminate].
    destruct (runEvm _ input) as [bc1 [err|]] eqn:Erun; [now destruct est |].
    intros Hrest. econstructor; [| exact Eenc | exact Erun | exact (IH _ _ _ _ Hrest)].
    intros Hnil. rewrite Hnil in Elen. discriminate.
Qed.

(** The first loop of SettleBubble comes to its end when every account of
    the batch has a stored asset. *)
Lemma settleCollect_found bp bubbleID l : forall acc,
  Forall (fun a => exists local,
            GetAccAssetOfBub bp bubbleID (Account a) = (Some local, None)) l ->
  exists news, settleCollect bp bubbleID l acc = (news, None).
Proof.
  induction l as [|a l IH]; intros acc Hall; simpl; [eauto |].
  apply Forall_cons in Hall as [(local & ->) Hall]. apply IH. exact Hall.
Qed.

(** On the zero transaction hash the handling logic answers nil when the
    guards and the transfers pass. *)
Lemma StakingToken_estimate_nil bc bubbleID stakingAsset basics st bc2 :
  TxHash (StateDB (Evm bc)) = ZeroHash ->
  CallerAddress (Contract bc) = Account stakingAsset ->
  GetBubBasics (Plugin bc) bubbleID = (Some basics, None) ->
  GetBubStatus (Plugin bc) bubbleID = (Some st, None) ->
  State st <> ReleasedStatus ->
  (NativeAmount stakingAsset <= GetBalance (StateDB (Evm bc)) (CallerAddress (Contract bc)))%Z ->
  transfersPass enterToken BubbleContractAddr
    (moveNative bc (CallerAddress (Contract bc)) BubbleContractAddr
       (NativeAmount stakingAsset))
    (TokenAssets stakingAsset) bc2 ->
  StakingToken bc bubbleID stakingAsset = (bc2, RNil).
Proof.
  intros Hzero Hfrom Hb Hs Hrel Hbal Hpass. unfold StakingToken.
  rewrite Hb, Hs.
  replace (CallerAddress (Contract bc) =? Account stakingAsset)%N with true
    by (symmetry; now apply N.eqb_eq).
  simpl negb. cbv iota.
  destruct (decide _); [contradiction |].
  replace (_ <? _)%Z with false by (symmetry; apply Z.ltb_ge; exact Hbal).
  rewrite moveNative_TxHash, Hzero. simpl (ZeroHash =? ZeroHash)%N.
  now rewrite (stakingTransfers_pass true _ _ _ Hpass).
Qed.

Lemma WithdrewToken_estimate_nil bc bubbleID basics st accAsset bc2 :
  TxHash (StateDB (Evm bc)) = ZeroHash ->
  GetBubBasics (Plugin bc) bubbleID = (Some basics, None) ->
  GetBubStatus (Plugin bc) bubbleID = (Some st, None) ->
  State st = ReleasedStatus ->
  GetAccAssetOfBub (Plugin bc) bubbleID (CallerAddress (Contract bc))
  = (Some accAsset, None) ->
  transfersPass enterTokenAsCustody (CallerAddress (Contract bc))
    (moveNative bc BubbleContractAddr (CallerAddress (Contract bc)) (NativeAmount accAsset))
    (TokenAssets accAsset) bc2 ->
  WithdrewToken bc bubbleID = (bc2, RNil).
Proof.
  intros Hzero Hb Hs Hrel Ha Hpass. unfold WithdrewToken.
  rewrite Hb, Hs. destruct (decide _); [contradiction |].
  rewrite Ha, moveNative_TxHash, Hzero. simpl (ZeroHash =? ZeroHash)%N.
  now rewrite (withdrewTransfers_pass true _ _ _ _ Hpass).
Qed.

Lemma SettleBubble_estimate_nil bc L2SettleTxHash bubbleID settlementInfo basics st opL2 rest :
  TxHash (StateDB (Evm bc)) = ZeroHash ->
  GetBubBasics (Plugin bc) bubbleID = (Some basics, None) ->
  GetBubStatus (Plugin bc) bubbleID = (Some st, None) ->
  State st <> ReleasedStatus ->
  OperatorsL2 basics = opL2 :: rest ->
  CallerAddress (Contract bc) = OpAddr opL2 ->
  length (fst (GetAccListOfBub (Plugin bc) bubbleID)) = length (AccAssets settlementInfo) ->
  Forall (fun a => exists local,
            GetAccAssetOfBub (Plugin bc) bubbleID (Account a) = (Some local, None))
    (AccAssets settlementInfo) ->
  SettleBubble bc L2SettleTxHash bubbleID settlementInfo = (bc, RNil).
Proof.
  intros Hzero Hb Hs Hrel Hops Hfrom Hlen Hall. unfold SettleBubble.
  rewrite Hb, Hs. destruct (decide _); [contradiction |].
  rewrite Hops, Hfrom, N.eqb_refl. simpl negb. cbv iota.
  destruct (GetAccListOfBub _ _) as [accList e]. simpl in Hlen.
  rewrite Hlen, Nat.eqb_refl. simpl negb. cbv iota.
  destruct (settleCollect_found _ _ _ [] Hall) as (news & ->).
  now rewrite Hzero.
Qed.

(** C1, as the code has it.  A mutating operation called with the zero
    transaction hash leaves the bubble store as it was (no account asset,
    account list, hash history, hash mapping, contract record or cached
    code changes and no task is posted) and never answers with a success
    receipt.  settleBubble, remoteDeploy and remoteCall change no balance
    either: only the gas of the call is charged.  stakingToken and
    withdrewToken answer nil only after one transfer call into the virtual
    machine per token of the asset.  And the answer is nil whenever the
    guards of the operation pass and, for stakingToken and withdrewToken,
    every transfer passes in the virtual machine. *)
Theorem estimate_mode_frame (bc : BubbleContract) :
  TxHash (StateDB (Evm bc)) = ZeroHash ->
  (forall bubbleID stakingAsset,
     let out := stakingToken bc bubbleID stakingAsset in
     Plugin (fst out) = Plugin bc
     /\ ~ isSuccess (snd out)
     /\ (snd out = RNil ->
         exists calls, vmTrace (fst out) = vmTrace bc ++ calls
                       /\ Forall2 (isTransferCall BubbleContractAddr) calls
                            (TokenAssets stakingAsset)))
  /\ (forall bubbleID,
        let out := withdrewToken bc bubbleID in
        let from := CallerAddress (Contract bc) in
        Plugin (fst out) = Plugin bc
        /\ ~ isSuccess (snd out)
        /\ (forall accAsset,
              snd out = RNil ->
              GetAccAssetOfBub (Plugin bc) bubbleID from = (Some accAsset, None) ->
              exists calls, vmTrace (fst out) = vmTrace bc ++ calls
                            /\ Forall2 (isTransferCall from) calls (TokenAssets accAsset)))
  /\ (forall L2SettleTxHash bubbleID settlementInfo,
        let out := settleBubble bc L2SettleTxHash bubbleID settlementInfo in
        Plugin (fst out) = Plugin bc /\ Evm (fst out) = Evm bc /\ ~ isSuccess (snd out))
  /\ (forall bubbleID address amount data,
        let out := remoteDeploy bc bubbleID address amount data in
        Plugin (fst out) = Plugin bc /\ Evm (fst out) = Evm bc /\ ~ isSuccess (snd out))
  /\ (forall bubbleID contract data,
        let out := remoteCall bc bubbleID contract data in
        Plugin (fst out) = Plugin bc /\ Evm (fst out) = Evm bc /\ ~ isSuccess (snd out))
  /\ (forall bubbleID stakingAsset basics st bc2,
        let from := CallerAddress (Contract bc) in
        (StakingTokenGas <= Gas (Contract bc))%N ->
        from = Account stakingAsset ->
        GetBubBasics (Plugin bc) bubbleID = (Some basics, None) ->
        GetBubStatus (Plugin bc) bubbleID = (Some st, None) ->
        State st <> ReleasedStatus ->
        (NativeAmount stakingAsset <= GetBalance (StateDB (Evm bc)) from)%Z ->
        transfersPass enterToken BubbleContractAddr
          (moveNative (chargeGas bc StakingTokenGas) from BubbleContractAddr
             (NativeAmount stakingAsset))
          (TokenAssets stakingAsset) bc2 ->
        stakingToken bc bubbleID stakingAsset = (bc2, RNil))
  /\ (forall bubbleID basics st accAsset bc2,
        let from := CallerAddress (Contract bc) in
        (WithdrewTokenGas <= Gas (Contract bc))%N ->
        GetBubBasics (Plugin bc) bubbleID = (Some basics, None) ->
        GetBubStatus (Plugin bc) bubbleID = (Some st, None) ->
        State st = ReleasedStatus ->
        GetAccAssetOfBub (Plugin bc) bubbleID from = (Some accAsset, None) ->
        transfersPass enterTokenAsCustody from
          (moveNative (chargeGas bc WithdrewTokenGas) BubbleContractAddr from
             (NativeAmount accAsset))
          (TokenAssets accAsset) bc2 ->
        withdrewToken bc bubbleID = (bc2, RNil))
  /\ (forall L2SettleTxHash bubbleID settlementInfo basics st opL2 rest,
        (SettleBubbleGas <= Gas (Contract bc))%N ->
        GetBubBasics (Plugin bc) bubbleID = (Some basics, None) ->
        GetBubStatus (Plugin bc) bubbleID = (Some st, None) ->
        State st <> ReleasedStatus ->
        OperatorsL2 basics = opL2 :: rest ->
        CallerAddress (Contract bc) = OpAddr opL2 ->
        length (fst (GetAccListOfBub (Plugin bc) bubbleID))
        = length (AccAssets settlementInfo) ->
        Forall (fun a => exists local,
                  GetAccAssetOfBub (Plugin bc) bubbleID (Account a) = (Some local, None))
          (AccAssets settlementInfo) ->
        settleBubble bc L2SettleTxHash bubbleID settlementInfo
        = (chargeGas bc SettleBubbleGas, RNil))
  /\ (forall bubbleID address amount data bub config,
        (RemoteDeployGas <= Gas (Contract bc))%N ->
        GetBubbleInfo (Plugin bc) bubbleID = (Some bub, None) ->
        GetSizeConfig (Size (Basics bub)) = inr config ->
        (MinStakingAmount config <= amount
         <= GetBalance (StateDB (Evm bc)) (CallerAddress (Contract bc)))%Z ->
        (ordinal (BState bub) < ordinal PreReleaseStatus)%N ->
        deployedCode bc address <> [] ->
        GetBubContract (Plugin bc) bubbleID address = (None, None) ->
        remoteDeploy bc bubbleID address amount data
        = (chargeGas bc RemoteDeployGas, RNil))
  /\ (forall bubbleID contract data bub contractInfo,
        (RemoteCallGas <= Gas (Contract bc))%N ->
        GetBubbleInfo (Plugin bc) bubbleID = (bub, None) ->
        GetBubContract (Plugin bc) bubbleID contract = (Some contractInfo, None) ->
        remoteCall bc bubbleID contract data = (chargeGas bc RemoteCallGas, RNil)).
Proof.
  intros Hzero.
  assert (Hno : forall fncode e, ~ isSuccess (RVal (Failure fncode e))).
  { intros ? ? (? & ? & ?). discriminate. }
  assert (HnoE : forall e, ~ isSuccess (RErr e)).
  { intros ? (? & ? & ?). discriminate. }
  assert (HnoN : ~ isSuccess RNil).
  { intros (? & ? & ?). discriminate. }
  assert (HnoP : forall m, ~ isSuccess (RPanic m)).
  { intros ? (? & ? & ?). discriminate. }
  repeat apply conj.
  - intros bubbleID stakingAsset. unfold stakingToken.
    destruct (UseGas _ _) as [c []]; [| simpl; repeat split; auto; discriminate].
    set (bc0 := chargeGas bc StakingTokenGas).
    destruct (StakingToken_estimate bc0 bubbleID stakingAsset Hzero) as (Hp & Hv & Hc).
    destruct (StakingToken bc0 bubbleID stakingAsset) as [bc' r]; simpl in *.
    repeat split; [exact Hp | |].
    + intros Hs. apply finish_isSuccess in Hs as [v ->]. now apply (Hv v).
    + intros Hr. apply finish_RNil in Hr. exact (Hc Hr).
  - intros bubbleID. unfold withdrewToken.
    destruct (UseGas _ _) as [c []]; [| simpl; repeat split; auto; discriminate].
    pose proof (WithdrewToken_estimate (chargeGas bc WithdrewTokenGas) bubbleID Hzero)
      as Hest.
    cbv zeta in Hest. rewrite chargeGas_CallerAddress in Hest.
    destruct Hest as (Hp & Hv & Hc).
    destruct (WithdrewToken _ bubbleID) as [bc' r]; simpl in *.
    repeat split; [exact Hp | |].
    + intros Hs. apply finish_isSuccess in Hs as [v ->]. now apply (Hv v).
    + intros accAsset Hr Hread. apply finish_RNil in Hr. exact (Hc _ Hr Hread).
  - intros L2SettleTxHash bubbleID settlementInfo. unfold settleBubble.
    destruct (UseGas _ _) as [c []]; [| simpl; repeat split; auto; discriminate].
    set (bc0 := chargeGas bc SettleBubbleGas).
    destruct (SettleBubble_estimate bc0 L2SettleTxHash bubbleID settlementInfo Hzero)
      as (Hsame & Hv).
    destruct (SettleBubble bc0 _ _ _) as [bc' r]; simpl in *. subst bc'.
    repeat split.
    intros Hs. apply finish_isSuccess in Hs as [v ->]. now apply (Hv v).
  - intros bubbleID address amount data. unfold remoteDeploy.
    rewrite Hzero. simpl (ZeroHash =? ZeroHash)%N.
    unfold txResultHandler.
    repeat case_match; simpl; repeat split; auto.
  - intros bubbleID contract data. unfold remoteCall.
    rewrite Hzero. simpl (ZeroHash =? ZeroHash)%N.
    unfold txResultHandler.
    repeat case_match; simpl; repeat split; auto.
  - intros bubbleID stakingAsset basics st bc2 from Hgas Hfrom Hb Hs Hrel Hbal Hpass.
    unfold stakingToken. rewrite (UseGas_split _ _ Hgas).
    rewrite (StakingToken_estimate_nil (chargeGas bc StakingTokenGas) bubbleID stakingAsset
               basics st bc2); try assumption; try reflexivity;
      rewrite ?chargeGas_CallerAddress; assumption.
  - intros bubbleID basics st accAsset bc2 from Hgas Hb Hs Hrel Ha Hpass.
    unfold withdrewToken. rewrite (UseGas_split _ _ Hgas).
    rewrite (WithdrewToken_estimate_nil (chargeGas bc WithdrewTokenGas) bubbleID
               basics st accAsset bc2); try assumption; try reflexivity;
      rewrite ?chargeGas_CallerAddress; assumption.
  - intros L2SettleTxHash bubbleID settlementInfo basics st opL2 rest
      Hgas Hb Hs Hrel Hops Hfrom Hlen Hall.
    unfold settleBubble. rewrite (UseGas_split _ _ Hgas).
    rewrite (SettleBubble_estimate_nil (chargeGas bc SettleBubbleGas) L2SettleTxHash
               bubbleID settlementInfo basics st opL2 rest); try assumption;
      try reflexivity.
    now rewrite chargeGas_CallerAddress.
  - intros bubbleID address amount data bub config Hgas Hinfo Hcfg [Hmin Hbal] Hst Hcode Hc.
    unfold remoteDeploy. fold (deployedCode (chargeGas bc RemoteDeployGas) address).
    change (deployedCode (chargeGas bc RemoteDeployGas) address)
      with (deployedCode bc address).
    rewrite (UseGas_split _ _ Hgas), chargeGas_Plugin, chargeGas_Evm, Hinfo, Hcfg.
    replace (amount <? MinStakingAmount config)%Z with false
      by (symmetry; apply Z.ltb_ge; exact Hmin).
    replace (GetBalance (StateDB (Evm bc)) (CallerAddress (Contract bc)) <? amount)%Z
      with false by (symmetry; apply Z.ltb_ge; exact Hbal).
    replace (ordinal PreReleaseStatus <=? ordinal (BState bub))%N with false
      by (symmetry; apply N.leb_gt; exact Hst).
    replace (length (deployedCode bc address) =? 0)%nat with false
      by (destruct (deployedCode bc address); [congruence | reflexivity]).
    rewrite Hc, Hzero. reflexivity.
  - intros bubbleID contract data bub contractInfo Hgas Hinfo Hc.
    unfold remoteCall.
    rewrite (UseGas_split _ _ Hgas), chargeGas_Plugin, Hinfo, Hc, Hzero. reflexivity.
Qed.

(** *** Native balances *)

Lemma GetBalance_setBalance s a v b :
  GetBalance (setBalance s a v) b = if decide (a = b) then v else GetBalance s b.
Proof.
  unfold GetBalance, setBalance. simpl. rewrite lookup_insert.
  now destruct (decide (a = b)).
Qed.


(** A virtual machine that leaves a balance alone does so in every token
    contract. *)
Lemma vmKeepsBalance_tokens x l : vmKeepsBalance x -> tokensKeepBalance l x.
Proof.
  intros Hvm. apply Forall_forall. intros t _ evm c input _. apply Hvm.
Qed.




(** *** Settlement *)

Lemma dbRead_Some {A} op (v : option A) x e :
  dbRead op v = (Some x, e) -> v = Some x /\ e = None.
Proof. unfold dbRead. destruct (dbFault op); now intros [= -> <-]. Qed.

(** The first loop stops with the business error for a missing account as
    soon as a submitted account has no stored asset. *)
Lemma settleCollect_missing bp bubbleID l : forall acc,
  (exists a, In a l /\ fst (GetAccAssetOfBub bp bubbleID (Account a)) = None) ->
  snd (settleCollect bp bubbleID l acc) = Some (Biz ErrSettleAccNoExist).
Proof.
  induction l as [|x l IH]; intros acc (a & Hin & Hnone); [destruct Hin |].
  simpl. destruct (GetAccAssetOfBub bp bubbleID (Account x)) as [[local|] [e|]] eqn:E;
    try reflexivity.
  destruct Hin as [-> | Hin].
  - rewrite E in Hnone. discriminate.
  - apply IH. eauto.
Qed.

(** C4. A settlement whose batch has another length than the account list
    read for the bubble, or names an account for which the read of the
    stored asset hands back no record, is rejected with a business error
    and the receiver is handed back as it was: no asset is overwritten, no
    hash is mapped, nothing is appended to the history.  (The bubble, where
    it exists, has an L2 operator to check the sender against.) *)
Theorem settle_rejects_bad_batch (bc : BubbleContract) (L2SettleTxHash : Hash)
  (bubbleID : Z) (settlementInfo : SettlementInfo) :
  (forall basics, basicsDB (Plugin bc) !! bubbleID = Some basics ->
                  OperatorsL2 basics <> []) ->
  (length (fst (GetAccListOfBub (Plugin bc) bubbleID)) <> length (AccAssets settlementInfo)
   \/ exists a, In a (AccAssets settlementInfo)
                /\ fst (GetAccAssetOfBub (Plugin bc) bubbleID (Account a)) = None) ->
  rejected bc (SettleBubble bc L2SettleTxHash bubbleID settlementInfo)
  /\ ((SettleBubbleGas <= Gas (Contract bc))%N ->
      rejectedReceipt bc SettleBubbleGas
        (settleBubble bc L2SettleTxHash bubbleID settlementInfo)).
Proof.
  intros Hops Hbad.
  assert (Hin : forall b, Plugin b = Plugin bc ->
                  rejected b (SettleBubble b L2SettleTxHash bubbleID settlementInfo)).
  { intros b Hp. unfold rejected, SettleBubble. rewrite Hp.
    destruct (GetBubBasics _ _) as [[basics|] [e|]] eqn:Eb; eauto.
    apply dbRead_Some in Eb as [Eb _].
    destruct (GetBubStatus _ _) as [[st|] [e|]]; eauto.
    destruct (decide _); eauto.
    destruct (OperatorsL2 basics) as [|opL2 others] eqn:Eo;
      [exfalso; exact (Hops _ Eb Eo) |].
    destruct (negb (_ =? _)%N); eauto.
    destruct (GetAccListOfBub _ _) as [accList e] eqn:El. simpl in Hbad.
    destruct (length accList =? _)%nat eqn:Elen; simpl; eauto.
    destruct Hbad as [Hlen | Hmiss].
    - apply Nat.eqb_eq in Elen. contradiction.
    - pose proof (settleCollect_missing _ _ _ [] Hmiss) as Hc.
      destruct (settleCollect _ _ _ _) as [news [err|]]; simpl in Hc; [| discriminate].
      injection Hc as ->. eauto. }
  split; [now apply Hin |].
  intros Hgas. unfold rejectedReceipt, settleBubble. rewrite (UseGas_split _ _ Hgas).
  destruct (Hin (chargeGas bc SettleBubbleGas) (chargeGas_Plugin _ _)) as [e ->].
  simpl. unfold txResultHandler. eauto.
Qed.

(** *** Withdrawal *)

(** C7. A withdrewToken that succeeds has stored, for the caller, the
    zeroed asset (native amount zero, and balance zero for each token of
    the asset it withdrew) and then the transaction hash under the
    withdrawals of the bubble: the store is left by these two writes, a
    read of the caller's asset hands back the zeroed asset afterwards, and
    the withdrawal history is the one before followed by the hash. *)
Theorem withdraw_zeroes_asset (bc bc' : BubbleContract) (bubbleID : Z) (r : ret Receipt) :
  withdrewToken bc bubbleID = (bc', r) ->
  isSuccess r ->
  let from := CallerAddress (Contract bc) in
  exists accAsset,
    GetAccAssetOfBub (Plugin bc) bubbleID from = (Some accAsset, None)
    /\ r = RVal (Success TxWithdrewToken [ResBig bubbleID; ResAsset accAsset])
    /\ (exists p,
          StoreAccAssetToBub (Plugin bc) bubbleID
            (mkAsset from 0 (map (fun t => mkToken (TokenAddr t) 0) (TokenAssets accAsset)))
          = (p, None)
          /\ StoreTxHashToBub p bubbleID (TxHash (StateDB (Evm bc'))) bubble.WithdrewToken
             = (Plugin bc', None))
    /\ GetAccAssetOfBub (Plugin bc') bubbleID from
       = (Some (mkAsset from 0
                  (map (fun t => mkToken (TokenAddr t) 0) (TokenAssets accAsset))),
          None)
    /\ GetTxHashListByBub (Plugin bc') bubbleID bubble.WithdrewToken
       = GetTxHashListByBub (Plugin bc) bubbleID bubble.WithdrewToken
         ++ [TxHash (StateDB (Evm bc'))].
Proof.
  unfold withdrewToken. destruct (UseGas _ _) as [c []].
  2:{ intros [= <- <-] (? & ? & ?). discriminate. }
  destruct (WithdrewToken _ _) as [bc1 r1] eqn:Ew.
  intros [= <- <-] Hs. set (from := CallerAddress (Contract bc)).
  apply finish_isSuccess in Hs as [accAsset ->].
  exists accAsset. revert Ew. unfold WithdrewToken.
  rewrite chargeGas_Plugin, chargeGas_CallerAddress. fold from.
  destruct (GetBubBasics _ _) as [[basics|] [e|]]; try discriminate.
  destruct (GetBubStatus _ _) as [[st|] [e|]]; try discriminate.
  destruct (decide _); [discriminate |].
  destruct (GetAccAssetOfBub _ _ _) as [[stored|] [e|]] eqn:Eread; try discriminate.
  set (bc2 := moveNative _ _ _ _).
  pose proof (withdrewTransfers_Plugin (TxHash (StateDB (Evm bc2)) =? ZeroHash)%N from
                (TokenAssets stored) bc2 []) as Hp.
  destruct (withdrewTransfers _ from bc2 _ _) as [[bc3 reset] [err|]] eqn:Eloop;
    [discriminate |].
  apply withdrewTransfers_calls in Eloop as [-> _]. simpl in Hp.
  unfold bc2 in Hp. rewrite moveNative_Plugin, chargeGas_Plugin in Hp.
  destruct (_ =? ZeroHash)%N; [discriminate |].
  unfold StoreAccAssetToBub, StoreTxHashToBub, dbWrite.
  destruct (dbFault OpStoreAccAssetToBub); [discriminate |].
  destruct (dbFault OpStoreTxHashToBub); [discriminate |].
  intros [= <- <-].
  assert (Hok : dbFault OpGetAccAssetOfBub = false).
  { revert Eread. unfold GetAccAssetOfBub, dbRead.
    now destruct (dbFault OpGetAccAssetOfBub). }
  split; [reflexivity |]. split; [reflexivity |]. split; [| split].
  - eexists. split; [reflexivity |]. simpl. now rewrite Hp.
  - unfold GetAccAssetOfBub, dbRead. rewrite Hok. simpl.
    now rewrite lookup_insert_eq.
  - unfold GetTxHashListByBub. simpl. rewrite lookup_insert_eq. simpl.
    now rewrite Hp.
Qed.

(** *** Failures of the virtual machine *)

Lemma stakingTransfers_app est l1 l2 : forall bc bc1,
  stakingTransfers est bc l1 = (bc1, None) ->
  stakingTransfers est bc (l1 ++ l2) = stakingTransfers est bc1 l2.
Proof.
  induction l1 as [|t l1 IH]; intros bc bc1; simpl; [now intros [= <-] |].
  destruct (length _ =? 0)%nat; [discriminate |].
  destruct (encodeTransferFuncCall _ _) as [input|]; [| discriminate].
  destruct (runEvm _ input) as [bc' [err|]]; [now destruct est | apply IH].
Qed.

Lemma withdrewTransfers_app est from l1 l2 : forall bc acc bc1 reset,
  withdrewTransfers est from bc l1 acc = (bc1, reset, None) ->
  withdrewTransfers est from bc (l1 ++ l2) acc = withdrewTransfers est from bc1 l2 reset.
Proof.
  induction l1 as [|t l1 IH]; intros bc acc bc1 reset; simpl; [now intros [= <- <-] |].
  destruct (length _ =? 0)%nat; [discriminate |].
  destruct (encodeTransferFuncCall _ _) as [input|]; [| discriminate].
  destruct (runEvm _ input) as [bc' [err|]]; [now destruct est | apply IH].
Qed.

Lemma length_eqb_0 {A} (l : list A) : l <> [] -> (length l =? 0)%nat = false.
Proof. now destruct l. Qed.

(** C8. A failure of the virtual machine is a business error in a real
    transaction and another error on the zero transaction hash: in
    StakingToken and WithdrewToken, for the first token transfer that
    fails, and in remoteCallExecutor, for the forwarded call.  The entry
    points stakingToken and withdrewToken turn the business error into a
    failure receipt and pass the other error on as it is. *)
Theorem vm_failure_by_mode :
  (forall bc bubbleID stakingAsset basics st pre t post bc1 bc2 err,
     let from := CallerAddress (Contract bc) in
     let isEstimateGas := (TxHash (StateDB (Evm bc)) =? ZeroHash)%N in
     from = Account stakingAsset ->
     GetBubBasics (Plugin bc) bubbleID = (Some basics, None) ->
     GetBubStatus (Plugin bc) bubbleID = (Some st, None) ->
     State st <> ReleasedStatus ->
     (NativeAmount stakingAsset <= GetBalance (StateDB (Evm bc)) from)%Z ->
     TokenAssets stakingAsset = pre ++ t :: post ->
     stakingTransfers isEstimateGas
       (moveNative bc from BubbleContractAddr (NativeAmount stakingAsset)) pre
     = (bc1, None) ->
     vmFailsAt enterToken BubbleContractAddr bc1 t bc2 err ->
     StakingToken bc bubbleID stakingAsset
     = (bc2, RErr (if isEstimateGas
                   then Plain ("Failed to Staking ERC20 Token, error:" ++ err)
                   else Biz ErrEVMExecERC20)))
  /\ (forall bc bubbleID accAsset basics st pre t post bc1 reset bc2 err,
        let from := CallerAddress (Contract bc) in
        let isEstimateGas := (TxHash (StateDB (Evm bc)) =? ZeroHash)%N in
        GetBubBasics (Plugin bc) bubbleID = (Some basics, None) ->
        GetBubStatus (Plugin bc) bubbleID = (Some st, None) ->
        State st = ReleasedStatus ->
        GetAccAssetOfBub (Plugin bc) bubbleID from = (Some accAsset, None) ->
        TokenAssets accAsset = pre ++ t :: post ->
        withdrewTransfers isEstimateGas from
          (moveNative bc BubbleContractAddr from (NativeAmount accAsset)) pre []
        = (bc1, reset, None) ->
        vmFailsAt enterTokenAsCustody from bc1 t bc2 err ->
        WithdrewToken bc bubbleID
        = (bc2, RErr (if isEstimateGas
                      then Plain ("Failed to Withdrew ERC20 Token, error:" ++ err)
                      else Biz ErrEVMExecERC20)))
  /\ (forall bc caller_ remoteTxHash bubbleID contract data bub op others bc2 err,
        let isEstimateGas := (TxHash (StateDB (Evm bc)) =? ZeroHash)%N in
        (RemoteCallExecutorGas <= Gas (Contract bc))%N ->
        GetBubbleInfo (Plugin bc) bubbleID = (Some bub, None) ->
        OperatorsL2 (Basics bub) = op :: others ->
        CallerAddress (Contract bc) = OpAddr op ->
        GetCode (StateDB (Evm bc)) contract <> [] ->
        runEvm (enterCallee (chargeGas bc RemoteCallExecutorGas) caller_ contract) data
        = (bc2, Some err) ->
        remoteCallExecutor bc caller_ remoteTxHash bubbleID contract data
        = (bc2, if isEstimateGas
                then RErr (Plain ("call contract error: " ++ err))
                else RVal (Failure TxRemoteCallExecutor (Wrap ErrContractReturns err))))
  /\ (forall (A : Type) fncode (res : A -> list ResItem) (e : BizError) msg,
        finish fncode res (RErr (Biz e)) = RVal (Failure fncode e)
        /\ finish fncode res (RErr (Plain msg)) = RErr (Plain msg)).
Proof.
  repeat apply conj.
  - intros bc bubbleID stakingAsset basics st pre t post bc1 bc2 err from isEstimateGas
      Hfrom Hb Hs Hrel Hbal Htok Hpre (Hcode & input & Henc & Hrun).
    unfold StakingToken. fold from. rewrite Hfrom, N.eqb_refl, Hb, Hs. simpl negb. cbv iota.
    destruct (decide _); [contradiction |].
    rewrite <- Hfrom. apply Z.ltb_ge in Hbal. rewrite Hbal.
    rewrite moveNative_TxHash. fold isEstimateGas.
    rewrite Htok, (stakingTransfers_app _ _ _ _ _ Hpre). simpl.
    rewrite (length_eqb_0 _ Hcode), Henc, Hrun.
    now destruct isEstimateGas.
  - intros bc bubbleID accAsset basics st pre t post bc1 reset bc2 err from isEstimateGas
      Hb Hs Hrel Hread Htok Hpre (Hcode & input & Henc & Hrun).
    unfold WithdrewToken. fold from. rewrite Hb, Hs, Hread.
    destruct (decide _); [contradiction |].
    rewrite moveNative_TxHash. fold isEstimateGas.
    rewrite Htok, (withdrewTransfers_app _ _ _ _ _ _ _ _ Hpre). simpl.
    rewrite (length_eqb_0 _ Hcode), Henc, Hrun.
    now destruct isEstimateGas.
  - intros bc caller_ remoteTxHash bubbleID contract data bub op others bc2 err
      isEstimateGas Hgas Hinfo Hops Hfrom Hcode Hrun.
    unfold remoteCallExecutor.
    rewrite (UseGas_split _ _ Hgas), chargeGas_Plugin, Hinfo, Hops, Hfrom, N.eqb_refl.
    simpl negb. cbv iota. rewrite chargeGas_Evm, (length_eqb_0 _ Hcode), Hrun.
    fold isEstimateGas. now destruct isEstimateGas.
  - intros. split; reflexivity.
Qed.

End Properties.

(** ** Further properties of the contract *)

Section Relay.

Context `{Host}.

Lemma setPosted_same p : setPosted p (posted p) = p.
Proof. now destruct p. Qed.

(** Posting to the local node appends the task once per operator entry
    that is the local node, and touches nothing else of the store. *)
Lemma postToLocal_posts op task operators : forall bp bp' e,
  postToLocal (postTask op) bp operators task = (bp', e) ->
  exists n, bp' = setPosted bp (posted bp ++ replicate n task)
            /\ (e = None -> n = localEntries (NodeID bp) operators).
Proof.
  induction operators as [|o operators IH]; intros bp bp' e; simpl.
  - intros [= <- <-]. exists 0%nat. simpl. now rewrite app_nil_r, setPosted_same.
  - unfold localEntries. simpl.
    destruct (NodeId o =? NodeID bp)%N eqn:E; [| apply IH].
    unfold postTask at 1, dbWrite. destruct (dbFault op).
    + intros [= <- <-]. exists 0%nat. simpl. rewrite app_nil_r, setPosted_same.
      split; [reflexivity | discriminate].
    + intros Hrest. apply IH in Hrest as (n & -> & Hn). simpl in *.
      exists (S n). split.
      * simpl. now rewrite <- app_assoc.
      * intros He. simpl. f_equal. exact (Hn He).
Qed.

(** remoteCall moves no funds and runs no code: whatever it answers, the
    EVM and the trace are as they were, and the store differs only by
    copies of the call task appended to the posted tasks. *)
Theorem remoteCall_only_posts (bc : BubbleContract) (bubbleID : Z) (contract : Address)
  (data : bytes) :
  let out := remoteCall bc bubbleID contract data in
  Evm (fst out) = Evm bc
  /\ vmTrace (fst out) = vmTrace bc
  /\ exists n rpc opAddr,
       Plugin (fst out)
       = setPosted (Plugin bc)
           (posted (Plugin bc)
            ++ replicate n (RemoteCallTask (TxHash (StateDB (Evm bc))) (Origin (Evm bc))
                              bubbleID contract data rpc opAddr)).
Proof.
  assert (Hsame : forall b : BubbleContract,
            exists n rpc opAddr,
              Plugin b
              = setPosted (Plugin b)
                  (posted (Plugin b)
                   ++ replicate n (RemoteCallTask (TxHash (StateDB (Evm bc))) (Origin (Evm bc))
                                     bubbleID contract data rpc opAddr))).
  { intros b. exists 0%nat, EmptyString, 0%N. simpl.
    now rewrite app_nil_r, setPosted_same. }
  cbv zeta. unfold remoteCall.
  destruct (UseGas _ _) as [c []]; [| repeat split; apply (Hsame bc)].
  rewrite chargeGas_Plugin.
  destruct (GetBubbleInfo _ _) as [bub [e|]]; [repeat split; apply (Hsame bc) |].
  destruct (GetBubContract _ _ _) as [[ci|] [e|]]; try (repeat split; apply (Hsame bc)).
  destruct (_ =? ZeroHash)%N; [repeat split; apply (Hsame bc) |].
  destruct bub as [bub|]; [| repeat split; apply (Hsame bc)].
  destruct (OperatorsL2 (Basics bub)) as [|opL2 o2]; [repeat split; apply (Hsame bc) |].
  destruct (OperatorsL1 (Basics bub)) as [|opL1 o1] eqn:E1; [repeat split; apply (Hsame bc) |].
  rewrite <- E1.
  destruct (postToLocal _ _ _ _) as [p e] eqn:Ep.
  apply postToLocal_posts in Ep as (n & -> & _).
  destruct e; simpl; repeat split; exists n, (RPC opL2), (OpAddr opL1); reflexivity.
Qed.

(** A remoteCall that succeeds was made on an existing bubble, to a
    contract registered in it, in a real transaction; it has charged its
    gas once and posted the call task once per L1 operator entry that is
    the local node (none when the node is no L1 operator). *)
Theorem remoteCall_success (bc bc' : BubbleContract) (bubbleID : Z) (contract : Address)
  (data : bytes) (r : ret Receipt) :
  remoteCall bc bubbleID contract data = (bc', r) ->
  isSuccess r ->
  exists bub contractInfo opL2 opL1,
    GetBubbleInfo (Plugin bc) bubbleID = (Some bub, None)
    /\ GetBubContract (Plugin bc) bubbleID contract = (Some contractInfo, None)
    /\ TxHash (StateDB (Evm bc)) <> ZeroHash
    /\ head (OperatorsL2 (Basics bub)) = Some opL2
    /\ head (OperatorsL1 (Basics bub)) = Some opL1
    /\ Gas (Contract bc') = (Gas (Contract bc) - RemoteCallGas)%N
    /\ (RemoteCallGas <= Gas (Contract bc))%N
    /\ posted (Plugin bc')
       = posted (Plugin bc)
         ++ replicate (localEntries (NodeID (Plugin bc)) (OperatorsL1 (Basics bub)))
              (RemoteCallTask (TxHash (StateDB (Evm bc))) (Origin (Evm bc))
                 bubbleID contract data (RPC opL2) (OpAddr opL1)).
Proof.
  assert (Hno : forall b fncode e,
            (b, txResultHandler fncode e) = (bc', r) -> ~ isSuccess r).
  { intros b fncode e [= <- <-] (? & ? & ?). discriminate. }
  assert (HnoE : forall b e, (b, @RErr Receipt e) = (bc', r) -> ~ isSuccess r).
  { intros b e [= <- <-] (? & ? & ?). discriminate. }
  assert (HnoN : forall b, (b, @RNil Receipt) = (bc', r) -> ~ isSuccess r).
  { intros b [= <- <-] (? & ? & ?). discriminate. }
  assert (HnoP : forall b m, (b, @RPanic Receipt m) = (bc', r) -> ~ isSuccess r).
  { intros b m [= <- <-] (? & ? & ?). discriminate. }
  unfold remoteCall.
  destruct (UseGas _ _) as [c []] eqn:Egas; [| intros Hr Hs; now apply HnoE in Hr].
  rewrite chargeGas_Plugin.
  destruct (GetBubbleInfo _ _) as [bub [e|]] eqn:Einfo;
    [intros Hr Hs; now apply Hno in Hr |].
  destruct (GetBubContract _ _ _) as [[ci|] [e|]] eqn:Ec;
    try (intros Hr Hs; now apply Hno in Hr).
  destruct (_ =? ZeroHash)%N eqn:Ez; [intros Hr Hs; now apply HnoN in Hr |].
  destruct bub as [bub|]; [| intros Hr Hs; now apply HnoP in Hr].
  destruct (OperatorsL2 (Basics bub)) as [|opL2 o2] eqn:E2;
    [intros Hr Hs; now apply HnoP in Hr |].
  destruct (OperatorsL1 (Basics bub)) as [|opL1 o1] eqn:E1;
    [intros Hr Hs; now apply HnoP in Hr |].
  rewrite <- E1.
  destruct (postToLocal _ _ _ _) as [p [e|]] eqn:Ep;
    [intros Hr Hs; now apply HnoE in Hr |].
  apply postToLocal_posts in Ep as (n & -> & Hn). specialize (Hn eq_refl). subst n.
  intros [= <- <-] _.
  exists bub, ci, opL2, opL1.
  assert (Hg : (RemoteCallGas <= Gas (Contract bc))%N /\
               Gas c = (Gas (Contract bc) - RemoteCallGas)%N).
  { revert Egas. unfold UseGas.
    destruct (Gas (Contract bc) <? RemoteCallGas)%N eqn:El; [discriminate |].
    intros [= <-]. apply N.ltb_ge in El. now split. }
  split; [reflexivity |]. split; [reflexivity |].
  split; [apply N.eqb_neq; exact Ez |].
  split; [now rewrite E2 |]. split; [now rewrite E1 |].
  split; [simpl; unfold chargeGas; rewrite Egas; simpl; apply Hg |].
  split; [apply Hg |]. reflexivity.
Qed.

Lemma GetBalance_transfer s a b v x :
  GetBalance (AddBalance (SubBalance s a v) b v) x
  = (GetBalance s x + (if decide (x = b) then v else 0)
     - (if decide (x = a) then v else 0))%Z.
Proof.
  unfold AddBalance, SubBalance. rewrite !GetBalance_setBalance.
  repeat case_decide; subst; try congruence; lia.
Qed.

Lemma dbRead_no_fault {A} op (v r : option A) :
  dbRead op v = (r, None) -> dbFault op = false /\ r = v.
Proof. unfold dbRead. destruct (dbFault op); [discriminate |]. now intros [= <-]. Qed.

(** What a remoteDeploy that succeeds has gone through. *)
Lemma remoteDeploy_passed (bc bc' : BubbleContract) (bubbleID : Z) (address : Address)
  (amount : Z) (data : bytes) (r : ret Receipt) :
  remoteDeploy bc bubbleID address amount data = (bc', r) ->
  isSuccess r ->
  let from := CallerAddress (Contract bc) in
  exists bub config opL2 opL1,
    GetBubbleInfo (Plugin bc) bubbleID = (Some bub, None)
    /\ GetSizeConfig (Size (Basics bub)) = inr config
    /\ (MinStakingAmount config <= amount <= GetBalance (StateDB (Evm bc)) from)%Z
    /\ (ordinal (BState bub) < ordinal PreReleaseStatus)%N
    /\ deployedCode bc address <> []
    /\ GetBubContract (Plugin bc) bubbleID address = (None, None)
    /\ TxHash (StateDB (Evm bc)) <> ZeroHash
    /\ head (OperatorsL2 (Basics bub)) = Some opL2
    /\ head (OperatorsL1 (Basics bub)) = Some opL1
    /\ StateDB (Evm bc')
       = AddBalance (SubBalance (StateDB (Evm bc)) from amount) BubbleContractAddr amount
    /\ Contract bc' = fst (UseGas (Contract bc) RemoteDeployGas)
    /\ byteCodeDB (Plugin bc') !! address = Some (deployedCode bc address)
    /\ GetBubContract (Plugin bc') bubbleID address
       = (Some (mkContractInfo from address amount), None)
    /\ posted (Plugin bc')
       = posted (Plugin bc)
         ++ replicate (localEntries (NodeID (Plugin bc)) (OperatorsL1 (Basics bub)))
              (RemoteDeployTask (TxHash (StateDB (Evm bc))) (BlockHash (Evm bc))
                 bubbleID address data (RPC opL2) (OpAddr opL1)).
Proof.
  assert (Hno : forall b fncode e,
            (b, txResultHandler fncode e) = (bc', r) -> ~ isSuccess r).
  { intros b fncode e [= <- <-] (? & ? & ?). discriminate. }
  assert (HnoE : forall b e, (b, @RErr Receipt e) = (bc', r) -> ~ isSuccess r).
  { intros b e [= <- <-] (? & ? & ?). discriminate. }
  assert (HnoN : forall b, (b, @RNil Receipt) = (bc', r) -> ~ isSuccess r).
  { intros b [= <- <-] (? & ? & ?). discriminate. }
  assert (HnoP : forall b m, (b, @RPanic Receipt m) = (bc', r) -> ~ isSuccess r).
  { intros b m [= <- <-] (? & ? & ?). discriminate. }
  unfold remoteDeploy. fold (deployedCode (chargeGas bc RemoteDeployGas) address).
  change (deployedCode (chargeGas bc RemoteDeployGas) address)
    with (deployedCode bc address).
  destruct (UseGas _ _) as [c []] eqn:Egas; [| intros Hr Hs; now apply HnoE in Hr].
  rewrite chargeGas_Plugin, chargeGas_Evm.
  destruct (GetBubbleInfo _ _) as [[bub|] [e|]] eqn:Einfo;
    try (intros Hr Hs; now apply Hno in Hr); [| intros Hr Hs; now apply HnoP in Hr].
  destruct (GetSizeConfig _) as [e|config] eqn:Ecfg; [intros Hr Hs; now apply HnoE in Hr |].
  destruct (amount <? _)%Z eqn:Emin; [intros Hr Hs; now apply Hno in Hr |].
  destruct (_ <? amount)%Z eqn:Ebal; [intros Hr Hs; now apply HnoE in Hr |].
  destruct (_ <=? _)%N eqn:Est; [intros Hr Hs; now apply Hno in Hr |].
  destruct (length (deployedCode bc address) =? 0)%nat eqn:Ecode;
    [intros Hr Hs; now apply Hno in Hr |].
  destruct (GetBubContract _ _ _) as [[ci|] [e|]] eqn:Ec;
    try (intros Hr Hs; now apply Hno in Hr); try (intros Hr Hs; now apply HnoE in Hr).
  destruct (_ =? ZeroHash)%N eqn:Ez; [intros Hr Hs; now apply HnoN in Hr |].
  unfold StoreBubContract, dbWrite. simpl CAddress.
  destruct (dbFault OpStoreBubContract); [intros Hr Hs; now apply HnoE in Hr |].
  cbn [setPlugin Plugin fst snd].
  destruct (OperatorsL2 (Basics bub)) as [|opL2 o2] eqn:E2;
    [intros Hr Hs; now apply HnoP in Hr |].
  destruct (OperatorsL1 (Basics bub)) as [|opL1 o1] eqn:E1;
    [intros Hr Hs; now apply HnoP in Hr |].
  rewrite <- E1.
  destruct (postToLocal _ _ _ _) as [p [e|]] eqn:Ep;
    [intros Hr Hs; now apply HnoE in Hr |].
  apply postToLocal_posts in Ep as (n & -> & Hn). specialize (Hn eq_refl). subst n.
  intros [= <- <-] _.
  apply dbRead_no_fault in Ec as Hf. destruct Hf as [Hf _].
  exists bub, config, opL2, opL1.
  split; [reflexivity |]. split; [exact Ecfg |].
  split; [apply Z.ltb_ge in Emin, Ebal; split; assumption |].
  split; [apply N.leb_gt in Est; exact Est |].
  split; [intros Hnil; rewrite Hnil in Ecode; discriminate |].
  split; [reflexivity |].
  split; [apply N.eqb_neq; exact Ez |].
  split; [now rewrite E2 |]. split; [now rewrite E1 |].
  split; [reflexivity |].
  split; [simpl; unfold chargeGas; now rewrite Egas |].
  split; [simpl; apply lookup_insert_eq |].
  split; [| reflexivity].
  unfold GetBubContract, dbRead. rewrite Hf. simpl. now rewrite lookup_insert_eq.
Qed.

(** A remoteDeploy that succeeds has passed every guard: the bubble
    exists and is not yet in pre-release, the amount is at least the minimum
    of its size class and at most the caller's balance, there is code to
    deploy, no contract is registered at the address, and the transaction is
    a real one.  It has moved the amount from the caller to the custody
    address, cached the code, registered the contract for the caller with
    the amount in escrow, and posted the deploy task once per L1 operator
    entry that is the local node. *)
Theorem remoteDeploy_success (bc bc' : BubbleContract) (bubbleID : Z) (address : Address)
  (amount : Z) (data : bytes) (r : ret Receipt) :
  remoteDeploy bc bubbleID address amount data = (bc', r) ->
  isSuccess r ->
  let from := CallerAddress (Contract bc) in
  exists bub config opL2 opL1,
    GetBubbleInfo (Plugin bc) bubbleID = (Some bub, None)
    /\ GetSizeConfig (Size (Basics bub)) = inr config
    /\ (MinStakingAmount config <= amount <= GetBalance (StateDB (Evm bc)) from)%Z
    /\ (ordinal (BState bub) < ordinal PreReleaseStatus)%N
    /\ deployedCode bc address <> []
    /\ GetBubContract (Plugin bc) bubbleID address = (None, None)
    /\ TxHash (StateDB (Evm bc)) <> ZeroHash
    /\ head (OperatorsL2 (Basics bub)) = Some opL2
    /\ head (OperatorsL1 (Basics bub)) = Some opL1
    /\ StateDB (Evm bc')
       = AddBalance (SubBalance (StateDB (Evm bc)) from amount) BubbleContractAddr amount
    /\ Contract bc' = fst (UseGas (Contract bc) RemoteDeployGas)
    /\ byteCodeDB (Plugin bc') !! address = Some (deployedCode bc address)
    /\ GetBubContract (Plugin bc') bubbleID address
       = (Some (mkContractInfo from address amount), None)
    /\ posted (Plugin bc')
       = posted (Plugin bc)
         ++ replicate (localEntries (NodeID (Plugin bc)) (OperatorsL1 (Basics bub)))
              (RemoteDeployTask (TxHash (StateDB (Evm bc))) (BlockHash (Evm bc))
                 bubbleID address data (RPC opL2) (OpAddr opL1)).
Proof.
  exact (remoteDeploy_passed bc bc' bubbleID address amount data r).
Qed.

(** A remoteClear that succeeds was called by the creator of a registered
    contract in a real transaction.  It has charged no gas, removed the
    contract record and paid the escrowed amount from the custody address
    to the caller. *)
Theorem remoteClear_success (bc bc' : BubbleContract) (bubbleID : Z) (address : Address)
  (r : ret Receipt) :
  remoteClear bc bubbleID address = (bc', r) ->
  isSuccess r ->
  exists contractInfo,
    GetBubContract (Plugin bc) bubbleID address = (Some contractInfo, None)
    /\ CallerAddress (Contract bc) = Creator contractInfo
    /\ TxHash (StateDB (Evm bc)) <> ZeroHash
    /\ Contract bc' = Contract bc
    /\ StateDB (Evm bc')
       = AddBalance (SubBalance (StateDB (Evm bc)) BubbleContractAddr (Amount contractInfo))
           (CallerAddress (Contract bc)) (Amount contractInfo)
    /\ DelBubContract (Plugin bc) bubbleID address = (Plugin bc', None)
    /\ GetBubContract (Plugin bc') bubbleID address = (None, None).
Proof.
  unfold remoteClear.
  destruct (GetBubContract _ _ _) as [[ci|] [e|]] eqn:Ec;
    try (intros [= <- <-] (? & ? & ?); discriminate).
  destruct (negb _) eqn:Efrom; [intros [= <- <-] (? & ? & ?); discriminate |].
  destruct (_ =? ZeroHash)%N eqn:Ez; [intros [= <- <-] (? & ? & ?); discriminate |].
  destruct (DelBubContract _ _ _) as [p [e|]] eqn:Ed;
    [intros [= <- <-] (? & ? & ?); discriminate |].
  intros [= <- <-] _. exists ci.
  apply dbRead_no_fault in Ec as [Hf _].
  split; [reflexivity |].
  split; [apply negb_false_iff, N.eqb_eq in Efrom; exact Efrom |].
  split; [apply N.eqb_neq; exact Ez |].
  split; [reflexivity |]. split; [reflexivity |]. split; [reflexivity |].
  revert Ed. unfold DelBubContract, dbWrite.
  destruct (dbFault OpDelBubContract); [discriminate |]. intros [= <-].
  unfold GetBubContract, dbRead. rewrite Hf. simpl. now rewrite lookup_delete_eq.
Qed.

(** remoteClear on the zero transaction hash, or by another sender than
    the creator, hands the receiver back as it was. *)
Lemma remoteClear_refusals (bc : BubbleContract) (bubbleID : Z) (address : Address)
  (contractInfo : ContractInfo) :
  GetBubContract (Plugin bc) bubbleID address = (Some contractInfo, None) ->
  (CallerAddress (Contract bc) <> Creator contractInfo ->
   remoteClear bc bubbleID address
   = (bc, RVal (Failure TxRemoteDeploy ErrSenderIsNotCreator)))
  /\ (CallerAddress (Contract bc) = Creator contractInfo ->
      TxHash (StateDB (Evm bc)) = ZeroHash ->
      remoteClear bc bubbleID address = (bc, RNil)).
Proof.
  intros Hc. unfold remoteClear. rewrite Hc. split.
  - intros Hne. apply N.eqb_neq in Hne. now rewrite Hne.
  - intros -> ->. now rewrite N.eqb_refl.
Qed.

(** Deploy and clear undo each other: after a remoteDeploy that succeeds,
    a remoteClear of the same contract by the same caller succeeds, every
    native balance is what it was before the deploy, and the contract is
    registered no more. *)
Theorem deploy_then_clear (bc bc1 : BubbleContract) (bubbleID : Z) (address : Address)
  (amount : Z) (data : bytes) (r : ret Receipt) :
  remoteDeploy bc bubbleID address amount data = (bc1, r) ->
  isSuccess r ->
  dbFault OpDelBubContract = false ->
  exists bc2,
    remoteClear bc1 bubbleID address = (bc2, RVal (Success TxRemoteDeploy []))
    /\ sameBalances (StateDB (Evm bc2)) (StateDB (Evm bc))
    /\ GetBubContract (Plugin bc2) bubbleID address = (None, None).
Proof.
  intros Hd Hs Hdel.
  destruct (remoteDeploy_passed _ _ _ _ _ _ _ Hd Hs)
    as (bub & config & opL2 & opL1 & _ & _ & _ & _ & _ & Hread & Hz & _ & _
        & Hst & Hc & _ & Hreg & _).
  assert (Hfrom : CallerAddress (Contract bc1) = CallerAddress (Contract bc)).
  { rewrite Hc. unfold UseGas. now destruct (_ <? _)%N. }
  assert (Htx : TxHash (StateDB (Evm bc1)) = TxHash (StateDB (Evm bc)))
    by now rewrite Hst.
  apply dbRead_no_fault in Hread as [Hf _].
  unfold remoteClear. rewrite Hreg, Hfrom, Htx. simpl Creator. rewrite N.eqb_refl.
  apply N.eqb_neq in Hz. rewrite Hz. simpl negb. cbv iota.
  unfold DelBubContract, dbWrite. rewrite Hdel.
  eexists. split; [reflexivity |]. split.
  - intros x. simpl. rewrite Hst, !GetBalance_transfer. simpl Amount.
    repeat case_decide; lia.
  - simpl. unfold GetBubContract, dbRead. rewrite Hf. simpl.
    now rewrite lookup_delete_eq.
Qed.

(** remoteCallExecutor keeps no record: whatever it answers, the store is
    as it was (the remote transaction hash is written nowhere), and the
    virtual machine has been entered at most once, as [caller_] calling
    [contract] with [data]. *)
Theorem remoteCallExecutor_keeps_no_record (bc : BubbleContract) (caller_ : Address)
  (remoteTxHash : Hash) (bubbleID : Z) (contract : Address) (data : bytes) :
  let out := remoteCallExecutor bc caller_ remoteTxHash bubbleID contract data in
  Plugin (fst out) = Plugin bc
  /\ (vmTrace (fst out) = vmTrace bc
      \/ vmTrace (fst out) = vmTrace bc ++ [mkVmCall caller_ contract data]).
Proof.
  cbv zeta. unfold remoteCallExecutor.
  destruct (UseGas _ _) as [c []]; [| now split; [| left]].
  destruct (GetBubbleInfo _ _) as [[bub|] [e|]]; try (now split; [| left]).
  destruct (OperatorsL2 (Basics bub)) as [|opL2 o2]; [now split; [| left] |].
  destruct (negb _); [now split; [| left] |].
  destruct (length _ =? 0)%nat; [now split; [| left] |].
  set (b := enterCallee _ _ _).
  pose proof (runEvm_Plugin b data) as Hp.
  pose proof (runEvm_vmTrace b data) as Ht.
  destruct (runEvm b data) as [b' [err|]]; simpl in Hp, Ht.
  - destruct (_ =? ZeroHash)%N; simpl; (split; [exact Hp | right; exact Ht]).
  - simpl. split; [exact Hp | right; exact Ht].
Qed.

(** Every entry point that meters gas answers out-of-gas, with the
    receiver untouched, when the call object holds less than its cost; and
    the three that run no code (settleBubble, remoteDeploy, remoteCall)
    otherwise charge exactly their cost, whatever they answer. *)
Theorem gas_is_charged_up_front (bc : BubbleContract) :
  ((Gas (Contract bc) < StakingTokenGas)%N ->
   forall bubbleID stakingAsset,
     stakingToken bc bubbleID stakingAsset = (bc, RErr ErrOutOfGas))
  /\ ((Gas (Contract bc) < WithdrewTokenGas)%N ->
      forall bubbleID, withdrewToken bc bubbleID = (bc, RErr ErrOutOfGas))
  /\ ((Gas (Contract bc) < RemoteCallExecutorGas)%N ->
      forall caller_ remoteTxHash bubbleID contract data,
        remoteCallExecutor bc caller_ remoteTxHash bubbleID contract data
        = (bc, RErr ErrOutOfGas))
  /\ (forall L2SettleTxHash bubbleID settlementInfo,
        let out := settleBubble bc L2SettleTxHash bubbleID settlementInfo in
        if (Gas (Contract bc) <? SettleBubbleGas)%N
        then out = (bc, RErr ErrOutOfGas)
        else Gas (Contract (fst out)) = (Gas (Contract bc) - SettleBubbleGas)%N)
  /\ (forall bubbleID address amount data,
        let out := remoteDeploy bc bubbleID address amount data in
        if (Gas (Contract bc) <? RemoteDeployGas)%N
        then out = (bc, RErr ErrOutOfGas)
        else Gas (Contract (fst out)) = (Gas (Contract bc) - RemoteDeployGas)%N)
  /\ (forall bubbleID contract data,
        let out := remoteCall bc bubbleID contract data in
        if (Gas (Contract bc) <? RemoteCallGas)%N
        then out = (bc, RErr ErrOutOfGas)
        else Gas (Contract (fst out)) = (Gas (Contract bc) - RemoteCallGas)%N).
Proof.
  assert (Hlow : forall gas, (Gas (Contract bc) < gas)%N ->
                   UseGas (Contract bc) gas = (Contract bc, false)).
  { intros gas Hg. unfold UseGas. apply N.ltb_lt in Hg. now rewrite Hg. }
  repeat apply conj.
  - intros Hg ? ?. unfold stakingToken. now rewrite (Hlow _ Hg).
  - intros Hg ?. unfold withdrewToken. now rewrite (Hlow _ Hg).
  - intros Hg ? ? ? ? ?. unfold remoteCallExecutor. now rewrite (Hlow _ Hg).
  - intros L2SettleTxHash bubbleID settlementInfo. cbv zeta. unfold settleBubble, chargeGas, UseGas.
    destruct (_ <? _)%N; [reflexivity |].
    set (b := setContract bc _).
    assert (Hs : Contract (fst (SettleBubble b L2SettleTxHash bubbleID settlementInfo))
                 = Contract b).
    { unfold SettleBubble. repeat case_match; reflexivity. }
    destruct (SettleBubble b _ _ _) as [b' r]. simpl in *. now rewrite Hs.
  - intros bubbleID address amount data. cbv zeta. unfold remoteDeploy, chargeGas, UseGas.
    destruct (_ <? _)%N; [reflexivity |].
    repeat case_match; reflexivity.
  - intros bubbleID contract data. cbv zeta. unfold remoteCall, chargeGas, UseGas.
    destruct (_ <? _)%N; [reflexivity |].
    repeat case_match; reflexivity.
Qed.

(** *** Staking and withdrawal *)

Lemma moveNative_transfer bc from to amount x :
  (0 <= amount)%Z ->
  GetBalance (StateDB (Evm (moveNative bc from to amount))) x
  = (GetBalance (StateDB (Evm bc)) x
     + (if decide (x = to) then amount else 0)
     - (if decide (x = from) then amount else 0))%Z.
Proof.
  intros Hpos. unfold moveNative, Big0. destruct (amount >? 0)%Z eqn:E.
  - simpl. apply GetBalance_transfer.
  - assert (amount = 0%Z) as -> by (rewrite Z.gtb_ltb in E; apply Z.ltb_ge in E; lia).
    repeat case_decide; lia.
Qed.

(** The withdrawal loop leaves alone the native balance that the token
    contracts of its tokens leave alone, however it ends. *)
Lemma withdrewTransfers_balance x est from l : forall bc acc,
  tokensKeepBalance l x ->
  GetBalance (StateDB (Evm (fst (fst (withdrewTransfers est from bc l acc))))) x
  = GetBalance (StateDB (Evm bc)) x.
Proof.
  induction l as [|t l IH]; intros bc acc Hall; simpl; [reflexivity |].
  apply Forall_cons in Hall as [Ht Hall].
  destruct (length _ =? 0)%nat; [reflexivity |].
  destruct (encodeTransferFuncCall _ _) as [input|]; [| reflexivity].
  pose proof (runEvm_Evm (enterTokenAsCustody bc (TokenAddr t)
                            (GetCode (StateDB (Evm bc)) (TokenAddr t))) input) as Hrun.
  destruct (runEvm _ input) as [bc1 [err|]]; simpl in Hrun.
  - destruct est; simpl; rewrite Hrun; now apply Ht.
  - rewrite IH by exact Hall. rewrite Hrun. now apply Ht.
Qed.

(** A withdrewToken that succeeds has paid the stored native amount, and
    nothing else, from the custody address to the caller: the native
    balance of an account has changed by that amount and no more, provided
    the token contracts of the stored tokens move no native coin of that
    account. *)
Theorem withdraw_moves_native (bc bc' : BubbleContract) (bubbleID : Z) (r : ret Receipt) :
  withdrewToken bc bubbleID = (bc', r) ->
  isSuccess r ->
  let from := CallerAddress (Contract bc) in
  exists accAsset,
    GetAccAssetOfBub (Plugin bc) bubbleID from = (Some accAsset, None)
    /\ forall x,
         (0 <= NativeAmount accAsset)%Z ->
         tokensKeepBalance (TokenAssets accAsset) x ->
         GetBalance (StateDB (Evm bc')) x
         = (GetBalance (StateDB (Evm bc)) x
            + (if decide (x = from) then NativeAmount accAsset else 0)
            - (if decide (x = BubbleContractAddr) then NativeAmount accAsset else 0))%Z.
Proof.
  unfold withdrewToken. destruct (UseGas _ _) as [c []].
  2:{ intros [= <- <-] (? & ? & ?). discriminate. }
  destruct (WithdrewToken _ _) as [bc1 r1] eqn:Ew.
  intros [= <- <-] Hs. apply finish_isSuccess in Hs as [accAsset ->].
  exists accAsset. revert Ew. unfold WithdrewToken.
  rewrite chargeGas_Plugin, chargeGas_CallerAddress.
  set (from := CallerAddress (Contract bc)).
  destruct (GetBubBasics _ _) as [[basics|] [e|]]; try discriminate.
  destruct (GetBubStatus _ _) as [[st|] [e|]]; try discriminate.
  destruct (decide _); [discriminate |].
  destruct (GetAccAssetOfBub _ _ _) as [[stored|] [e|]] eqn:Eread; try discriminate.
  set (bc2 := moveNative _ _ _ _).
  destruct (withdrewTransfers _ from bc2 _ _) as [[bc3 reset] [err|]] eqn:Eloop;
    [discriminate |].
  destruct (_ =? ZeroHash)%N; [discriminate |].
  intros Hres.
  assert (Hst : stored = accAsset /\ Evm bc1 = Evm bc3).
  { revert Hres. repeat case_match; intros [= <- <-]; now split. }
  destruct Hst as [-> Hevm]. split; [reflexivity |].
  intros x Hpos Hvm. rewrite Hevm.
  pose proof (withdrewTransfers_balance x false from
                (TokenAssets accAsset) bc2 [] Hvm) as Hloop.
  rewrite Eloop in Hloop. simpl in Hloop. rewrite Hloop.
  unfold bc2. rewrite moveNative_transfer by exact Hpos. now rewrite chargeGas_Evm.
Qed.


Lemma AddAccAssetToBub_frame p bubbleID a p' :
  AddAccAssetToBub p bubbleID a = (p', None) ->
  basicsDB p' = basicsDB p /\ statusDB p' = statusDB p
  /\ posted p' = posted p /\ NodeID p' = NodeID p.
Proof.
  unfold AddAccAssetToBub, dbWrite. destruct (dbFault _); [discriminate |].
  intros [= <-]. now destruct (accAssetDB p !! _).
Qed.

Lemma StoreTxHashToBub_frame p bubbleID h t p' :
  StoreTxHashToBub p bubbleID h t = (p', None) ->
  basicsDB p' = basicsDB p /\ statusDB p' = statusDB p
  /\ posted p' = posted p /\ NodeID p' = NodeID p.
Proof.
  unfold StoreTxHashToBub, dbWrite. destruct (dbFault _); [discriminate |].
  now intros [= <-].
Qed.

Lemma postTask_frame op p t p' :
  postTask op p t = (p', None) ->
  basicsDB p' = basicsDB p /\ statusDB p' = statusDB p
  /\ posted p' = posted p ++ [t].
Proof.
  unfold postTask, dbWrite. destruct (dbFault _); [discriminate |].
  now intros [= <-].
Qed.

(** What a StakingToken that returns a value has gone through. *)
Lemma StakingToken_value bc bubbleID stakingAsset bc1 v :
  StakingToken bc bubbleID stakingAsset = (bc1, RVal v) ->
  let from := CallerAddress (Contract bc) in
  exists basics st bc2 p1 p2 opL1,
    from = Account stakingAsset
    /\ GetBubBasics (Plugin bc) bubbleID = (Some basics, None)
    /\ GetBubStatus (Plugin bc) bubbleID = (Some st, None)
    /\ State st <> ReleasedStatus
    /\ (NativeAmount stakingAsset <= GetBalance (StateDB (Evm bc)) from)%Z
    /\ TxHash (StateDB (Evm bc)) <> ZeroHash
    /\ stakingTransfers false
         (moveNative bc from BubbleContractAddr (NativeAmount stakingAsset))
         (TokenAssets stakingAsset) = (bc2, None)
    /\ AddAccAssetToBub (Plugin bc) bubbleID stakingAsset = (p1, None)
    /\ StoreTxHashToBub p1 bubbleID (TxHash (StateDB (Evm bc2))) bubble.StakingToken
       = (p2, None)
    /\ head (OperatorsL1 basics) = Some opL1
    /\ Evm bc1 = Evm bc2
    /\ (if (NodeID (Plugin bc) =? NodeId opL1)%N
        then exists opL2,
               head (OperatorsL2 basics) = Some opL2
               /\ PostMintTokenEvent p2
                    (MintTokenTask bubbleID (TxHash (StateDB (Evm bc2))) (RPC opL2)
                       (OpAddr opL1) stakingAsset)
                  = (Plugin bc1, None)
        else Plugin bc1 = p2).
Proof.
  unfold StakingToken.
  destruct (negb _) eqn:Efrom; [discriminate |].
  destruct (GetBubBasics _ _) as [[basics|] [e|]] eqn:Eb; try discriminate.
  destruct (GetBubStatus _ _) as [[st|] [e|]] eqn:Es; try discriminate.
  destruct (decide _) as [|Hrel]; [discriminate |].
  destruct (_ <? _)%Z eqn:Ebal; [discriminate |].
  rewrite moveNative_TxHash.
  set (bc0 := moveNative _ _ _ _).
  pose proof (stakingTransfers_Plugin (TxHash (StateDB (Evm bc)) =? ZeroHash)%N
                (TokenAssets stakingAsset) bc0) as Hp.
  destruct (stakingTransfers _ bc0 _) as [bc2 [err|]] eqn:Eloop; [discriminate |].
  simpl in Hp. unfold bc0 in Hp. rewrite moveNative_Plugin in Hp.
  destruct (_ =? ZeroHash)%N eqn:Ez; [discriminate |].
  rewrite Hp.
  destruct (AddAccAssetToBub _ _ _) as [p1 [e|]] eqn:Ea; [discriminate |].
  cbn [setPlugin Plugin Evm].
  destruct (StoreTxHashToBub _ _ _ _) as [p2 [e|]] eqn:Et; [discriminate |].
  destruct (OperatorsL1 basics) as [|opL1 o1] eqn:E1; [discriminate |].
  destruct (AddAccAssetToBub_frame _ _ _ _ Ea) as (_ & _ & _ & Hn1).
  destruct (StoreTxHashToBub_frame _ _ _ _ _ Et) as (_ & _ & _ & Hn2).
  rewrite Hn2, Hn1.
  intros Hres. exists basics, st, bc2, p1, p2, opL1.
  split; [apply negb_false_iff, N.eqb_eq in Efrom; exact Efrom |].
  split; [reflexivity |]. split; [reflexivity |]. split; [exact Hrel |].
  split; [apply Z.ltb_ge in Ebal; exact Ebal |].
  split; [apply N.eqb_neq; exact Ez |].
  split; [exact Eloop |]. split; [first [reflexivity | exact Ea] |].
  split; [exact Et |]. split; [first [reflexivity | now rewrite E1] |].
  revert Hres. destruct (_ =? NodeId opL1)%N.
  - destruct (OperatorsL2 basics) as [|opL2 o2]; [discriminate |].
    destruct (PostMintTokenEvent _ _) as [p3 [e|]] eqn:Epost; [discriminate |].
    intros [= <- _]. split; [reflexivity |]. exists opL2. now split.
  - intros [= <- _]. now split.
Qed.

(** Stake, then withdraw at once, fails: after a stakingToken that
    succeeds on a bubble, a withdrewToken on that bubble, by whomever, is
    rejected because the bubble is not released. *)
Theorem stake_then_withdraw_fails (bc bc1 : BubbleContract) (bubbleID : Z)
  (stakingAsset : AccountAsset) (r : ret Receipt) :
  stakingToken bc bubbleID stakingAsset = (bc1, r) ->
  isSuccess r ->
  forall b, Plugin b = Plugin bc1 ->
    WithdrewToken b bubbleID = (b, RErr (Biz ErrBubbleIsNotRelease))
    /\ ((WithdrewTokenGas <= Gas (Contract b))%N ->
        withdrewToken b bubbleID
        = (chargeGas b WithdrewTokenGas,
           RVal (Failure TxWithdrewToken ErrBubbleIsNotRelease))).
Proof.
  unfold stakingToken. destruct (UseGas _ _) as [c []].
  2:{ intros [= <- <-] (? & ? & ?). discriminate. }
  destruct (StakingToken _ _ _) as [bc' r1] eqn:Est.
  intros [= <- <-] Hs. apply finish_isSuccess in Hs as [v ->].
  apply StakingToken_value in Est
    as (basics & st & bc2 & p1 & p2 & opL1 & _ & Hb & Hst & Hrel & _ & _ & _
        & Ha & Ht & _ & _ & Hpost).
  rewrite chargeGas_Plugin in Hb, Hst, Ha, Hpost.
  apply dbRead_no_fault in Hb as [Hfb Hb]. apply dbRead_no_fault in Hst as [Hfs Hst].
  destruct (AddAccAssetToBub_frame _ _ _ _ Ha) as (Hb1 & Hs1 & _).
  destruct (StoreTxHashToBub_frame _ _ _ _ _ Ht) as (Hb2 & Hs2 & _).
  assert (Hfinal : basicsDB (Plugin bc') = basicsDB (Plugin bc)
                   /\ statusDB (Plugin bc') = statusDB (Plugin bc)).
  { destruct (_ =? NodeId opL1)%N.
    - destruct Hpost as (opL2 & _ & Hpost).
      apply postTask_frame in Hpost as (Hb3 & Hs3 & _).
      split; congruence.
    - subst p2. split; congruence. }
  destruct Hfinal as [Hbf Hsf].
  assert (Hin : forall b, Plugin b = Plugin bc' ->
                  WithdrewToken b bubbleID = (b, RErr (Biz ErrBubbleIsNotRelease))).
  { intros b Hp. unfold WithdrewToken, GetBubBasics, GetBubStatus, dbRead.
    rewrite Hp, Hfb, Hfs, Hbf, Hsf, <- Hb, <- Hst.
    destruct (decide _); [reflexivity | contradiction]. }
  intros b Hp. split; [now apply Hin |].
  intros Hgas. unfold withdrewToken. rewrite (UseGas_split _ _ Hgas).
  rewrite (Hin (chargeGas b WithdrewTokenGas)); [reflexivity | exact Hp].
Qed.

(** A stakingToken that succeeds was called by the owner of the asset on a
    bubble that is not released, in a real transaction.  It has posted the
    mint task, once, if the local node is the first L1 operator of the
    bubble, and no task otherwise. *)
Theorem stake_posts_mint_task (bc bc1 : BubbleContract) (bubbleID : Z)
  (stakingAsset : AccountAsset) (r : ret Receipt) :
  stakingToken bc bubbleID stakingAsset = (bc1, r) ->
  isSuccess r ->
  exists basics st opL1,
    CallerAddress (Contract bc) = Account stakingAsset
    /\ GetBubBasics (Plugin bc) bubbleID = (Some basics, None)
    /\ GetBubStatus (Plugin bc) bubbleID = (Some st, None)
    /\ State st <> ReleasedStatus
    /\ TxHash (StateDB (Evm bc)) <> ZeroHash
    /\ head (OperatorsL1 basics) = Some opL1
    /\ (if (NodeID (Plugin bc) =? NodeId opL1)%N
        then exists opL2,
               head (OperatorsL2 basics) = Some opL2
               /\ posted (Plugin bc1)
                  = posted (Plugin bc)
                    ++ [MintTokenTask bubbleID (TxHash (StateDB (Evm bc1))) (RPC opL2)
                          (OpAddr opL1) stakingAsset]
        else posted (Plugin bc1) = posted (Plugin bc)).
Proof.
  unfold stakingToken. destruct (UseGas _ _) as [c []].
  2:{ intros [= <- <-] (? & ? & ?). discriminate. }
  destruct (StakingToken _ _ _) as [bc' r1] eqn:Est.
  intros [= <- <-] Hs. apply finish_isSuccess in Hs as [v ->].
  apply StakingToken_value in Est
    as (basics & st & bc2 & p1 & p2 & opL1 & Hfrom & Hb & Hst & Hrel & _ & Hz & _
        & Ha & Ht & H1 & Hevm & Hpost).
  rewrite chargeGas_Plugin in Hb, Hst, Ha, Hpost.
  rewrite chargeGas_CallerAddress in Hfrom. rewrite chargeGas_Evm in Hz.
  destruct (AddAccAssetToBub_frame _ _ _ _ Ha) as (_ & _ & Hp1 & _).
  destruct (StoreTxHashToBub_frame _ _ _ _ _ Ht) as (_ & _ & Hp2 & _).
  exists basics, st, opL1. repeat (split; [assumption |]).
  destruct (_ =? NodeId opL1)%N.
  - destruct Hpost as (opL2 & H2 & Hpost). exists opL2. split; [exact H2 |].
    apply postTask_frame in Hpost as (_ & _ & Hp3).
    rewrite Hp3, Hp2, Hp1, Hevm. reflexivity.
  - subst p2. congruence.
Qed.

(** *** Settlement *)

Lemma copyTokens_same (l : list AccTokenAsset) : forall acc,
  fold_left (fun acc tokenAsset =>
               acc ++ [mkToken (TokenAddr tokenAsset) (Balance tokenAsset)]) l acc
  = acc ++ l.
Proof.
  induction l as [|t l IH]; intros acc; simpl; [now rewrite app_nil_r |].
  rewrite IH, <- app_assoc. now destruct t.
Qed.

(** The first loop of SettleBubble hands the batch back as it is, when
    every account of the batch has a stored asset. *)
Lemma settleCollect_copy bp bubbleID l : forall acc news,
  settleCollect bp bubbleID l acc = (news, None) ->
  news = acc ++ l
  /\ Forall (fun a => exists local,
               GetAccAssetOfBub bp bubbleID (Account a) = (Some local, None)) l.
Proof.
  induction l as [|a l IH]; intros acc news; simpl.
  - intros [= <-]. now rewrite app_nil_r.
  - destruct (GetAccAssetOfBub _ _ _) as [[local|] [e|]] eqn:E; try discriminate.
    rewrite copyTokens_same. simpl. intros Hrest.
    apply IH in Hrest as [-> Hall]. split.
    + rewrite <- app_assoc. now destruct a.
    + constructor; [now exists local | exact Hall].
Qed.

Lemma lastFor_cons x a l :
  lastFor x (a :: l)
  = match lastFor x l with
    | Some b => Some b
    | None => if (Account a =? x)%N then Some a else None
    end.
Proof.
  unfold lastFor. simpl. destruct (Account a =? x)%N.
  - apply last_cons.
  - now destruct (last _).
Qed.

(** The second loop stores, for each account, the last snapshot the batch
    holds for it, and leaves every other asset and every other record
    alone. *)
Lemma settleStore_stores bubbleID l : forall bp bp',
  settleStore bp bubbleID l = (bp', None) ->
  (forall b x, accAssetDB bp' !! (b, x)
               = if decide (b = bubbleID)
                 then match lastFor x l with
                      | Some a => Some a
                      | None => accAssetDB bp !! (b, x)
                      end
                 else accAssetDB bp !! (b, x))
  /\ setAccAssetDB bp' (accAssetDB bp) = bp.
Proof.
  induction l as [|a l IH]; intros bp bp'; simpl.
  - intros [= <-]. split; [| now destruct bp].
    intros b x. unfold lastFor. simpl. now case_decide.
  - unfold StoreAccAssetToBub at 1, dbWrite. destruct (dbFault _); [discriminate |].
    intros Hrest. apply IH in Hrest as [Hlook Hframe]. split.
    + intros b x. rewrite Hlook, lastFor_cons. simpl.
      case_decide; [| rewrite lookup_insert_ne by congruence; reflexivity]. subst b.
      destruct (lastFor x l); [reflexivity |].
      rewrite lookup_insert. destruct (Account a =? x)%N eqn:E.
      * apply N.eqb_eq in E. subst x. now rewrite decide_True.
      * apply N.eqb_neq in E. rewrite decide_False; [reflexivity | congruence].
    + destruct bp, bp'. unfold setAccAssetDB in *. simpl in *. congruence.
Qed.

(** What a SettleBubble that returns a value has gone through. *)
Lemma SettleBubble_value (bc bc' : BubbleContract) (L2SettleTxHash : Hash) (bubbleID : Z)
  (settlementInfo : SettlementInfo) (v : bytes) :
  SettleBubble bc L2SettleTxHash bubbleID settlementInfo = (bc', RVal v) ->
  let txHash := TxHash (StateDB (Evm bc)) in
  exists basics st opL2 p1 p2,
    GetBubBasics (Plugin bc) bubbleID = (Some basics, None)
    /\ GetBubStatus (Plugin bc) bubbleID = (Some st, None)
    /\ State st <> ReleasedStatus
    /\ head (OperatorsL2 basics) = Some opL2
    /\ CallerAddress (Contract bc) = OpAddr opL2
    /\ length (fst (GetAccListOfBub (Plugin bc) bubbleID))
       = length (AccAssets settlementInfo)
    /\ Forall (fun a => exists local,
                 GetAccAssetOfBub (Plugin bc) bubbleID (Account a) = (Some local, None))
         (AccAssets settlementInfo)
    /\ txHash <> ZeroHash
    /\ settleStore (Plugin bc) bubbleID (AccAssets settlementInfo) = (p1, None)
    /\ StoreL2HashToL1Hash p1 bubbleID txHash L2SettleTxHash = (p2, None)
    /\ StoreTxHashToBub p2 bubbleID txHash bubble.SettleBubble = (Plugin bc', None)
    /\ Evm bc' = Evm bc /\ Contract bc' = Contract bc /\ vmTrace bc' = vmTrace bc.
Proof.
  unfold SettleBubble.
  destruct (GetBubBasics _ _) as [[basics|] [e|]] eqn:Eb; try discriminate.
  destruct (GetBubStatus _ _) as [[st|] [e|]] eqn:Es; try discriminate.
  destruct (decide _) as [|Hrel]; [discriminate |].
  destruct (OperatorsL2 basics) as [|opL2 o2] eqn:E2; [discriminate |].
  destruct (negb (_ =? _)%N) eqn:Efrom; [discriminate |].
  destruct (GetAccListOfBub _ _) as [accList e] eqn:El.
  destruct (negb (_ =? _)%nat) eqn:Elen; [discriminate |].
  destruct (settleCollect _ _ _ _) as [news [err|]] eqn:Ecol; [discriminate |].
  apply settleCollect_copy in Ecol as [-> Hall]. simpl app.
  destruct (_ =? ZeroHash)%N eqn:Ez; [discriminate |].
  destruct (settleStore _ _ _) as [p1 [err|]] eqn:Est; [discriminate |].
  cbn [setPlugin Plugin Evm].
  destruct (StoreL2HashToL1Hash _ _ _ _) as [p2 [err|]] eqn:Em; [discriminate |].
  destruct (StoreTxHashToBub _ _ _ _) as [p3 [err|]] eqn:Et; [discriminate |].
  intros [= <- _]. exists basics, st, opL2, p1, p2.
  split; [reflexivity |]. split; [reflexivity |]. split; [exact Hrel |].
  split; [now rewrite E2 |].
  split; [apply negb_false_iff, N.eqb_eq in Efrom; exact Efrom |].
  split; [apply negb_false_iff, Nat.eqb_eq in Elen; exact Elen |].
  split; [exact Hall |].
  split; [apply N.eqb_neq; exact Ez |].
  split; [first [reflexivity | exact Est] |].
  split; [exact Em |]. split; [exact Et |]. now repeat split.
Qed.


(** After a settleBubble that succeeds, the stored asset of an account of
    the bubble is the last snapshot the batch holds for it, or, for an
    account the batch does not name, what it was; the assets of other
    bubbles are what they were. *)
Theorem settle_stores_last_snapshot (bc bc' : BubbleContract) (L2SettleTxHash : Hash)
  (bubbleID : Z) (settlementInfo : SettlementInfo) (r : ret Receipt) :
  settleBubble bc L2SettleTxHash bubbleID settlementInfo = (bc', r) ->
  isSuccess r ->
  forall b x,
    accAssetDB (Plugin bc') !! (b, x)
    = if decide (b = bubbleID)
      then match lastFor x (AccAssets settlementInfo) with
           | Some a => Some a
           | None => accAssetDB (Plugin bc) !! (b, x)
           end
      else accAssetDB (Plugin bc) !! (b, x).
Proof.
  unfold settleBubble. destruct (UseGas _ _) as [c []].
  2:{ intros [= <- <-] (? & ? & ?). discriminate. }
  destruct (SettleBubble _ _ _ _) as [bc1 r1] eqn:Es.
  intros [= <- <-] Hs. apply finish_isSuccess in Hs as [v ->].
  apply SettleBubble_value in Es
    as (basics & st & opL2 & p1 & p2 & _ & _ & _ & _ & _ & _ & _ & _ & Hst & Hm & Ht & _).
  rewrite chargeGas_Plugin in Hst.
  apply settleStore_stores in Hst as [Hlook _].
  revert Hm Ht. unfold StoreL2HashToL1Hash, StoreTxHashToBub, dbWrite.
  destruct (dbFault OpStoreL2HashToL1Hash); [discriminate |]. intros [= <-].
  destruct (dbFault OpStoreTxHashToBub); [discriminate |]. intros [= <-].
  intros b x. simpl. apply Hlook.
Qed.

End Relay.

(** ** Properties of the keys *)

Section KeyProperties.

Context `{Rlp}.

Lemma byteOfN_to_N x : (x < 256)%N -> Byte.to_N (byteOfN x) = x.
Proof.
  intros Hx. unfold byteOfN. destruct (Byte.of_N x) as [b|] eqn:E.
  - now apply Byte.to_of_N.
  - apply Byte.of_N_None_iff in E. lia.
Qed.

Lemma bytesLE_length n : forall x, length (bytesLE n x) = n.
Proof. induction n as [|n IH]; intros x; simpl; [reflexivity | now rewrite IH]. Qed.

Lemma bytesLE_inj n : forall x y,
  bytesLE n x = bytesLE n y -> (x mod 256 ^ N.of_nat n = y mod 256 ^ N.of_nat n)%N.
Proof.
  induction n as [|n IH]; intros x y; simpl bytesLE.
  - intros _. simpl. now rewrite !N.mod_1_r.
  - intros [= Hb Hrest]. apply IH in Hrest.
    assert (Hlow : (x mod 256 = y mod 256)%N).
    { rewrite <- (byteOfN_to_N (x mod 256)), <- (byteOfN_to_N (y mod 256)), Hb;
        [reflexivity | apply N.mod_lt; lia | apply N.mod_lt; lia]. }
    rewrite Nat2N.inj_succ, N.pow_succ_r'.
    rewrite !N.Div0.mod_mul_r. now rewrite Hlow, Hrest.
Qed.

Lemma AddressBytes_length a : length (AddressBytes a) = 20%nat.
Proof. unfold AddressBytes. now rewrite length_rev, bytesLE_length. Qed.

Lemma HashBytes_length h : length (HashBytes h) = 32%nat.
Proof. unfold HashBytes. now rewrite length_rev, bytesLE_length. Qed.

Lemma AddressBytes_inj a b :
  (a < 2 ^ 160)%N -> (b < 2 ^ 160)%N -> AddressBytes a = AddressBytes b -> a = b.
Proof.
  intros Ha Hb Heq. unfold AddressBytes in Heq.
  apply (f_equal (@rev _)) in Heq. rewrite !rev_involutive in Heq.
  apply bytesLE_inj in Heq.
  change (256 ^ N.of_nat 20)%N with (2 ^ 160)%N in Heq.
  now rewrite !N.mod_small in Heq.
Qed.

Lemma HashBytes_inj a b :
  (a < 2 ^ 256)%N -> (b < 2 ^ 256)%N -> HashBytes a = HashBytes b -> a = b.
Proof.
  intros Ha Hb Heq. unfold HashBytes in Heq.
  apply (f_equal (@rev _)) in Heq. rewrite !rev_involutive in Heq.
  apply bytesLE_inj in Heq.
  change (256 ^ N.of_nat 32)%N with (2 ^ 256)%N in Heq.
  now rewrite !N.mod_small in Heq.
Qed.

(** The four kinds of key are apart: a key that is made (not the nil of
    an encoding error) is the key of no other kind, whatever the bubbles,
    accounts and hashes. *)
Theorem keys_of_different_kinds_differ (i j : Z) (a : Address) (h : Hash) :
  (GetBubbleKey i <> [] -> GetBubbleKey i <> AccListByBubKey j)
  /\ (GetBubbleKey i <> [] -> GetBubbleKey i <> AccAssetByBubKey j a)
  /\ (GetBubbleKey i <> [] -> GetBubbleKey i <> TxHashByBubKey j h)
  /\ (AccListByBubKey i <> [] -> AccListByBubKey i <> AccAssetByBubKey j a)
  /\ (AccListByBubKey i <> [] -> AccListByBubKey i <> TxHashByBubKey j h)
  /\ (AccAssetByBubKey i a <> [] -> AccAssetByBubKey i a <> TxHashByBubKey j h).
Proof.
  unfold GetBubbleKey, AccListByBubKey, AccAssetByBubKey, TxHashByBubKey.
  destruct (EncodeToBytes i) as [bi|], (EncodeToBytes j) as [bj|];
    repeat apply conj; intros Hne; try contradiction; try exact Hne;
    try discriminate.
Qed.

(** Within a kind the key tells the bubble and the account (or the hash):
    two keys that are made and equal come from the same bubble, given an
    encoder that tells bubbles apart, and from the same account (hash). *)
Theorem keys_tell_bubble_and_account (i j : Z) :
  encoderInjective ->
  (GetBubbleKey i <> [] -> GetBubbleKey i = GetBubbleKey j -> i = j)
  /\ (AccListByBubKey i <> [] -> AccListByBubKey i = AccListByBubKey j -> i = j)
  /\ (forall a b, (a < 2 ^ 160)%N -> (b < 2 ^ 160)%N ->
        AccAssetByBubKey i a <> [] ->
        AccAssetByBubKey i a = AccAssetByBubKey j b -> i = j /\ a = b)
  /\ (forall a b, (a < 2 ^ 256)%N -> (b < 2 ^ 256)%N ->
        TxHashByBubKey i a <> [] ->
        TxHashByBubKey i a = TxHashByBubKey j b -> i = j /\ a = b).
Proof.
  intros Hinj.
  unfold GetBubbleKey, AccListByBubKey, AccAssetByBubKey, TxHashByBubKey.
  destruct (EncodeToBytes i) as [bi|] eqn:Ei, (EncodeToBytes j) as [bj|] eqn:Ej;
    repeat apply conj; intros; try contradiction; try discriminate.
  - apply app_inv_head in H1. subst bj. exact (Hinj _ _ _ Ei Ej).
  - apply app_inv_head in H1. subst bj. exact (Hinj _ _ _ Ei Ej).
  - cbv zeta in H3. apply app_inj_2 in H3 as [Hk Hs];
      [| now rewrite !AddressBytes_length].
    apply app_inv_head in Hk. subst bj.
    split; [exact (Hinj _ _ _ Ei Ej) | now apply AddressBytes_inj].
  - cbv zeta in H3. apply app_inj_2 in H3 as [Hk Hs];
      [| now rewrite !HashBytes_length].
    apply app_inv_head in Hk. subst bj.
    split; [exact (Hinj _ _ _ Ei Ej) | now apply HashBytes_inj].
Qed.

End KeyProperties.

(** ** Properties of the answers to a peer *)

Section AnswerProperties.

Import eth.

Context `{Backend}.

Lemma headersBody_step hashMode query st st' :
  headersBody hashMode query st = Some st' ->
  lookups st' = (lookups st + 1)%Z
  /\ hbytes st' = (hbytes st + estHeaderSize)%Z
  /\ exists origin, headers st' = headers st ++ [origin].
Proof.
  unfold headersBody.
  repeat case_match; intros; simplify_eq; simpl; eauto.
Qed.

Lemma headersCond_lookups query st :
  (2 * maxHeadersServe <= lookups st)%Z -> headersCond query st = false.
Proof.
  intros Hl. unfold headersCond.
  replace (lookups st <? 2 * maxHeadersServe)%Z with false
    by (symmetry; apply Z.ltb_ge; lia).
  apply andb_false_r.
Qed.

(** The turns given to the loop are enough: more turns change nothing. *)
Lemma headersLoop_turns hashMode query : forall t1 t2 st,
  (2 * maxHeadersServe - lookups st <= Z.of_nat t1)%Z ->
  (2 * maxHeadersServe - lookups st <= Z.of_nat t2)%Z ->
  headersLoop t1 hashMode query st = headersLoop t2 hashMode query st.
Proof.
  induction t1 as [|t1 IH]; intros t2 st H1 H2.
  - simpl. destruct t2; [reflexivity |]. simpl.
    rewrite headersCond_lookups by lia. reflexivity.
  - destruct t2.
    + simpl. rewrite headersCond_lookups by lia. reflexivity.
    + simpl. destruct (headersCond query st); [| reflexivity].
      destruct (headersBody hashMode query st) as [st'|] eqn:Eb; [| reflexivity].
      apply headersBody_step in Eb as (Hl & _). apply IH; lia.
Qed.

(** What the loop returns extends what it holds, within the limits. *)
Lemma headersLoop_limits hashMode query : forall turns st,
  exists extra,
    headersLoop turns hashMode query st = headers st ++ extra
    /\ (extra = []
        \/ ((Z.of_nat (length (headers st ++ extra)) <= intOfUint64 (Amount query))%Z
            /\ (Z.of_nat (length (headers st ++ extra)) <= maxHeadersServe)%Z
            /\ (hbytes st + estHeaderSize * (Z.of_nat (length extra) - 1)
                < softResponseLimit)%Z)).
Proof.
  induction turns as [|turns IH]; intros st; simpl.
  - exists []. now rewrite app_nil_r; split; [| left].
  - destruct (headersCond query st) eqn:Ec.
    2:{ exists []. now rewrite app_nil_r; split; [| left]. }
    destruct (headersBody hashMode query st) as [st'|] eqn:Eb.
    2:{ exists []. now rewrite app_nil_r; split; [| left]. }
    apply headersBody_step in Eb as (_ & Hb & origin & Hh).
    destruct (IH st') as (extra & Hr & Hlim).
    exists (origin :: extra). rewrite Hr, Hh, <- app_assoc. split; [reflexivity |].
    right. unfold headersCond in Ec.
    apply andb_prop in Ec as [Ec _]. apply andb_prop in Ec as [Ec Hmax].
    apply andb_prop in Ec as [Ec Hsoft]. apply andb_prop in Ec as [_ Hamt].
    apply Z.ltb_lt in Hmax, Hsoft, Hamt.
    destruct Hlim as [-> | (Ha & Hm & Hs)].
    + rewrite length_app. simpl. split; [lia |]. split; [lia |]. lia.
    + rewrite Hh, <- app_assoc in Ha, Hm. simpl in Ha, Hm.
      split; [exact Ha |]. split; [exact Hm |].
      rewrite Hb in Hs. simpl length. lia.
Qed.

(** The headers served for a query are never more than the query asks for,
    never more than [maxHeadersServe], and all but the last fit under the
    soft limit of a response, at [estHeaderSize] each.  An amount that is
    zero, or negative once read as an [int] (2^63 and above), is served
    nothing. *)
Theorem headers_within_limits (query : GetBlockHeadersPacket) :
  let served := answerGetBlockHeadersQuery query in
  (served = []
   \/ ((Z.of_nat (length served) <= intOfUint64 (Amount query))%Z
       /\ (Z.of_nat (length served) <= maxHeadersServe)%Z
       /\ (estHeaderSize * (Z.of_nat (length served) - 1) < softResponseLimit)%Z))
  /\ ((Amount query = 0 \/ 2 ^ 63 <= Amount query < 2 ^ 64)%N -> served = []).
Proof.
  cbv zeta. unfold answerGetBlockHeadersQuery.
  destruct (headersLoop_limits (negb (OriginHash query =? ZeroHash)%N) query
              (Z.to_nat (2 * maxHeadersServe))
              (mkHeadersState (OriginHash query) (OriginNumber query) true 100 0 [] false 0))
    as (extra & -> & Hlim).
  simpl in *. split.
  - destruct Hlim as [-> | Hlim]; [now left | right; exact Hlim].
  - intros Hamt. destruct Hlim as [-> | (Ha & _)]; [reflexivity |].
    destruct extra; [reflexivity | exfalso].
    unfold intOfUint64 in Ha. simpl length in Ha.
    destruct (_ <? _)%N eqn:E; [apply N.ltb_lt in E | lia].
    destruct Hamt as [Hz | ?]; [rewrite Hz in Ha; simpl in Ha |]; lia.
Qed.

Lemma headersLoop_unknown hashMode query turns st :
  unknown st = true -> headersLoop turns hashMode query st = headers st.
Proof.
  intros Hu. destruct turns; simpl; [reflexivity |].
  unfold headersCond. rewrite Hu. reflexivity.
Qed.

(** Where the loop counts one lookup and one estimate per header, its
    condition is [headersAllowed]. *)
Lemma headersCond_allowed query st :
  unknown st = false ->
  hbytes st = (Z.of_nat (length (headers st)) * estHeaderSize)%Z ->
  lookups st = Z.of_nat (length (headers st)) ->
  headersCond query st = headersAllowed query (length (headers st)).
Proof.
  intros Hu Hb Hl. unfold headersCond, headersAllowed. rewrite Hu, Hb, Hl. simpl.
  destruct (Z.of_nat (length (headers st)) <? maxHeadersServe)%Z eqn:Em;
    [| now rewrite !andb_false_r].
  apply Z.ltb_lt in Em.
  replace (Z.of_nat (length (headers st)) <? 2 * maxHeadersServe)%Z with true
    by (symmetry; apply Z.ltb_lt; lia).
  now rewrite !andb_true_r.
Qed.

Lemma headersAllowed_turns query n :
  headersAllowed query n = true -> (Z.of_nat n < maxHeadersServe)%Z.
Proof.
  unfold headersAllowed. intros Ha. apply andb_prop in Ha as [_ Ha].
  now apply Z.ltb_lt in Ha.
Qed.

Lemma numberUp_next query n :
  Uint64 (numberUp query n + (Skip query + 1)) = numberUp query (S n).
Proof.
  unfold numberUp, Uint64. rewrite N.Div0.add_mod_idemp_l. f_equal. lia.
Qed.

Lemma headersLoop_up query : forall turns st,
  Reverse query = false ->
  unknown st = false ->
  hbytes st = (Z.of_nat (length (headers st)) * estHeaderSize)%Z ->
  lookups st = Z.of_nat (length (headers st)) ->
  qNumber st = numberUp query (length (headers st)) ->
  (2 * maxHeadersServe - lookups st <= Z.of_nat turns)%Z ->
  exists extra,
    headersLoop turns false query st = headers st ++ extra
    /\ (forall k header, extra !! k = Some header ->
          GetHeaderByNumber (numberUp query (length (headers st) + k)) = Some header)
    /\ (headersAllowed query (length (headers st ++ extra)) = false
        \/ GetHeaderByNumber (numberUp query (length (headers st ++ extra))) = None).
Proof.
  induction turns as [|turns IH]; intros st Hrev Hu Hb Hl Hq Ht.
  - exists []. rewrite app_nil_r. simpl. split; [reflexivity |]. split; [easy |].
    left. destruct (headersAllowed query (length (headers st))) eqn:Ea; [| reflexivity].
    apply headersAllowed_turns in Ea. simpl in Ht. lia.
  - simpl. rewrite headersCond_allowed by assumption.
    destruct (headersAllowed query (length (headers st))) eqn:Ea.
    2:{ exists []. rewrite app_nil_r. split; [reflexivity |]. split; [easy | now left]. }
    unfold headersBody. simpl. rewrite Hrev. simpl.
    destruct (GetHeaderByNumber (qNumber st)) as [origin|] eqn:Eo.
    2:{ exists []. rewrite app_nil_r. split; [reflexivity |]. split; [easy |].
        right. now rewrite <- Hq. }
    match goal with |- context [headersLoop turns false query ?s] => set (st' := s) end.
    assert (Hlen : length (headers st') = S (length (headers st))).
    { subst st'. simpl. rewrite length_app. simpl. lia. }
    assert (Hb' : hbytes st' = (Z.of_nat (length (headers st')) * estHeaderSize)%Z).
    { rewrite Hlen. subst st'. simpl. rewrite Hb. lia. }
    assert (Hl' : lookups st' = Z.of_nat (length (headers st'))).
    { rewrite Hlen. subst st'. simpl. rewrite Hl. lia. }
    assert (Hq' : qNumber st' = numberUp query (length (headers st'))).
    { rewrite Hlen. subst st'. simpl. rewrite Hq. apply numberUp_next. }
    assert (Ht' : (2 * maxHeadersServe - lookups st' <= Z.of_nat turns)%Z).
    { subst st'. simpl. lia. }
    destruct (IH st' Hrev Hu Hb' Hl' Hq' Ht') as (extra & Hr & Hk & Hend).
    clear Hb' Hl' Hq' Ht'.
    + exists (origin :: extra). rewrite Hr.
      replace (headers st') with (headers st ++ [origin]) in * by reflexivity.
      rewrite <- app_assoc in *. simpl in *. split; [reflexivity |]. split; [| exact Hend].
      intros [|k] header Hin; simpl in Hin.
      * injection Hin as <-. rewrite Nat.add_0_r, <- Hq. exact Eo.
      * apply Hk in Hin. rewrite length_app in Hin. simpl in Hin.
        replace (length (headers st) + S k)%nat with (length (headers st) + 1 + k)%nat by lia.
        exact Hin.
Qed.

(** A query by number towards the leaf block is served the headers the chain
    has at the origin and then every [Skip+1] blocks, the numbers wrapping
    around at 2^64; it ends where the chain has no such header, or where the
    limits leave no room for one more. *)
Theorem headers_by_number_towards_leaf (query : GetBlockHeadersPacket) :
  OriginHash query = ZeroHash ->
  Reverse query = false ->
  (OriginNumber query < 2 ^ 64)%N ->
  let served := answerGetBlockHeadersQuery query in
  (forall k header, served !! k = Some header ->
     GetHeaderByNumber (numberUp query k) = Some header)
  /\ (headersAllowed query (length served) = false
      \/ GetHeaderByNumber (numberUp query (length served)) = None).
Proof.
  intros Hzero Hrev Hnum. cbv zeta. unfold answerGetBlockHeadersQuery.
  rewrite Hzero. simpl negb.
  destruct (headersLoop_up query (Z.to_nat (2 * maxHeadersServe))
              (mkHeadersState ZeroHash (OriginNumber query) true 100 0 [] false 0))
    as (extra & -> & Hk & Hend); try reflexivity; try assumption.
  - simpl. unfold numberUp, Uint64. rewrite N.mul_0_l, N.add_0_r.
    symmetry. now apply N.mod_small.
  - simpl. lia.
  - simpl in *. split; assumption.
Qed.

Lemma headersLoop_down query : forall turns st,
  Reverse query = true ->
  unknown st = false ->
  hbytes st = (Z.of_nat (length (headers st)) * estHeaderSize)%Z ->
  lookups st = Z.of_nat (length (headers st)) ->
  qNumber st = numberDown query (length (headers st)) ->
  (N.of_nat (length (headers st)) * Uint64 (Skip query + 1) <= OriginNumber query)%N ->
  (2 * maxHeadersServe - lookups st <= Z.of_nat turns)%Z ->
  exists extra,
    headersLoop turns false query st = headers st ++ extra
    /\ (forall k header, extra !! k = Some header ->
          (N.of_nat (length (headers st) + k) * Uint64 (Skip query + 1)
           <= OriginNumber query)%N
          /\ GetHeaderByNumber (numberDown query (length (headers st) + k)) = Some header)
    /\ (headersAllowed query (length (headers st ++ extra)) = false
        \/ GetHeaderByNumber (numberDown query (length (headers st ++ extra))) = None
        \/ (OriginNumber query
            < N.of_nat (length (headers st ++ extra)) * Uint64 (Skip query + 1))%N).
Proof.
  induction turns as [|turns IH]; intros st Hrev Hu Hb Hl Hq Hge Ht.
  - exists []. rewrite app_nil_r. simpl. split; [reflexivity |]. split; [easy |].
    left. destruct (headersAllowed query (length (headers st))) eqn:Ea; [| reflexivity].
    apply headersAllowed_turns in Ea. simpl in Ht. lia.
  - simpl. rewrite headersCond_allowed by assumption.
    destruct (headersAllowed query (length (headers st))) eqn:Ea.
    2:{ exists []. rewrite app_nil_r. split; [reflexivity |]. split; [easy | now left]. }
    unfold headersBody. simpl. rewrite Hrev. simpl.
    destruct (GetHeaderByNumber (qNumber st)) as [origin|] eqn:Eo.
    2:{ exists []. rewrite app_nil_r. split; [reflexivity |]. split; [easy |].
        right. left. now rewrite <- Hq. }
    assert (Hfirst : forall k header, [origin] !! k = Some header ->
              (N.of_nat (length (headers st) + k) * Uint64 (Skip query + 1)
               <= OriginNumber query)%N
              /\ GetHeaderByNumber (numberDown query (length (headers st) + k))
                 = Some header).
    { intros [|k] header Hin; simpl in Hin; [| discriminate].
      injection Hin as <-. rewrite Nat.add_0_r, <- Hq. split; assumption. }
    destruct (Uint64 (Skip query + 1) <=? qNumber st)%N eqn:Ed.
    + apply N.leb_le in Ed.
      match goal with |- context [headersLoop turns false query ?s] => set (st' := s) end.
      assert (Hlen : length (headers st') = S (length (headers st))).
      { subst st'. simpl. rewrite length_app. simpl. lia. }
      assert (Hge' : (N.of_nat (S (length (headers st))) * Uint64 (Skip query + 1)
                      <= OriginNumber query)%N).
      { rewrite Hq in Ed. unfold numberDown in Ed. lia. }
      assert (Hb' : hbytes st' = (Z.of_nat (length (headers st')) * estHeaderSize)%Z).
      { rewrite Hlen. subst st'. simpl. rewrite Hb. lia. }
      assert (Hl' : lookups st' = Z.of_nat (length (headers st'))).
      { rewrite Hlen. subst st'. simpl. rewrite Hl. lia. }
      assert (Hq' : qNumber st' = numberDown query (length (headers st'))).
      { rewrite Hlen. subst st'. simpl. rewrite Hq. unfold numberDown. lia. }
      assert (Ht' : (2 * maxHeadersServe - lookups st' <= Z.of_nat turns)%Z).
      { subst st'. simpl. lia. }
      rewrite <- Hlen in Hge'.
      destruct (IH st' Hrev Hu Hb' Hl' Hq' Hge' Ht') as (extra & Hr & Hk & Hend).
      clear Hb' Hl' Hq' Ht' Hge'.
      * exists (origin :: extra). rewrite Hr.
        replace (headers st') with (headers st ++ [origin]) in * by reflexivity.
        rewrite <- app_assoc in *. simpl in *. split; [reflexivity |]. split; [| exact Hend].
        intros [|k] header Hin; [apply Hfirst; exact Hin |]. simpl in Hin.
        apply Hk in Hin. rewrite length_app in Hin. simpl in Hin.
        replace (length (headers st) + S k)%nat with (length (headers st) + 1 + k)%nat by lia.
        exact Hin.
    + apply N.leb_gt in Ed. rewrite headersLoop_unknown by reflexivity. simpl.
      exists [origin]. split; [reflexivity |]. split; [exact Hfirst |].
      right. right. rewrite length_app. simpl.
      rewrite Hq in Ed. unfold numberDown in Ed. lia.
Qed.

(** A query by number towards the genesis block is served the headers the
    chain has at the origin and then every [Skip+1] blocks below it, the
    step being taken modulo 2^64; the numbers never pass below the genesis
    block.  It ends where the chain has no such header, where the limits
    leave no room for one more, or where the next step would pass the
    genesis block. *)
Theorem headers_by_number_towards_genesis (query : GetBlockHeadersPacket) :
  OriginHash query = ZeroHash ->
  Reverse query = true ->
  let served := answerGetBlockHeadersQuery query in
  (forall k header, served !! k = Some header ->
     (N.of_nat k * Uint64 (Skip query + 1) <= OriginNumber query)%N
     /\ GetHeaderByNumber (numberDown query k) = Some header)
  /\ (headersAllowed query (length served) = false
      \/ GetHeaderByNumber (numberDown query (length served)) = None
      \/ (OriginNumber query < N.of_nat (length served) * Uint64 (Skip query + 1))%N).
Proof.
  intros Hzero Hrev. cbv zeta. unfold answerGetBlockHeadersQuery.
  rewrite Hzero. simpl negb.
  destruct (headersLoop_down query (Z.to_nat (2 * maxHeadersServe))
              (mkHeadersState ZeroHash (OriginNumber query) true 100 0 [] false 0))
    as (extra & -> & Hk & Hend); try reflexivity; try assumption.
  - simpl. unfold numberDown. lia.
  - simpl. lia.
  - simpl. lia.
  - simpl in *. split; assumption.
Qed.

Lemma headersLoop_extends hashMode query turns st :
  exists extra, headersLoop turns hashMode query st = headers st ++ extra.
Proof.
  destruct (headersLoop_limits hashMode query turns st) as (extra & Hr & _).
  exists extra. exact Hr.
Qed.

(** A query by hash whose origin the chain does not know is served nothing.
    Where the chain knows the origin and the limits leave room for a
    header, the origin comes first; and it is the only header served when
    the step of the query overflows: towards the leaf block when the next
    number wraps around to the current one or below, towards the genesis
    block when [Skip+1] wraps around to zero. *)
Theorem headers_by_hash (query : GetBlockHeadersPacket) :
  OriginHash query <> ZeroHash ->
  let served := answerGetBlockHeadersQuery query in
  (GetHeaderByHash (OriginHash query) = None -> served = [])
  /\ (forall origin,
        GetHeaderByHash (OriginHash query) = Some origin ->
        headersAllowed query 0 = true ->
        served !! 0%nat = Some origin
        /\ ((Reverse query = false
             /\ (Uint64 (Uint64 (Number origin) + Skip query + 1)
                 <= Uint64 (Number origin))%N)
            \/ (Reverse query = true /\ Uint64 (Skip query + 1) = 0%N) ->
            served = [origin])).
Proof.
  intros Hhash. cbv zeta. unfold answerGetBlockHeadersQuery.
  apply N.eqb_neq in Hhash. rewrite Hhash. simpl negb.
  set (st0 := mkHeadersState (OriginHash query) (OriginNumber query) true 100 0 [] false 0).
  split.
  - intros Hnone. destruct (Z.to_nat (2 * maxHeadersServe)); simpl; [reflexivity |].
    destruct (headersCond query st0); [| reflexivity].
    unfold headersBody. simpl. rewrite Hnone. reflexivity.
  - intros origin Hsome Ha.
    pose proof (headersAllowed_turns _ _ Ha) as Hmax. simpl in Hmax.
    destruct (Z.to_nat (2 * maxHeadersServe)) as [|turns] eqn:Et; [lia |].
    simpl. rewrite headersCond_allowed by reflexivity. simpl length. rewrite Ha.
    unfold headersBody. simpl. rewrite Hsome.
    split.
    + destruct (Reverse query); simpl.
      * destruct (Uint64 (Skip query + 1) =? 0)%N.
        -- rewrite headersLoop_unknown by reflexivity. reflexivity.
        -- destruct (GetAncestor _ _ _ _) as [[h n] m].
           match goal with |- context [headersLoop turns true query ?s] =>
             destruct (headersLoop_extends true query turns s) as (extra & ->) end.
           reflexivity.
      * destruct (_ <=? _)%N.
        -- rewrite headersLoop_unknown by reflexivity. reflexivity.
        -- destruct (GetHeaderByNumber _) as [header|].
           ++ destruct (GetAncestor _ _ _ _) as [[h n] m].
              destruct (h =? OriginHash query)%N.
              ** match goal with |- context [headersLoop turns true query ?s] =>
                   destruct (headersLoop_extends true query turns s) as (extra & ->) end.
                 reflexivity.
              ** rewrite headersLoop_unknown by reflexivity. reflexivity.
           ++ rewrite headersLoop_unknown by reflexivity. reflexivity.
    + intros [(Hrev & Hover) | (Hrev & Hover)]; rewrite Hrev; simpl.
      * apply N.leb_le in Hover. rewrite Hover.
        rewrite headersLoop_unknown by reflexivity. reflexivity.
      * rewrite Hover. simpl.
        rewrite headersLoop_unknown by reflexivity. reflexivity.
Qed.

(** *** The answers by hash *)

Lemma bodiesLoop_serveLoop : forall query lookups nbytes bodies,
  bodiesLoop query lookups nbytes bodies
  = serveLoop bodyData maxBodiesServe query lookups nbytes bodies.
Proof.
  induction query as [|hash rest IH]; intros; simpl; [reflexivity |].
  destruct (_ || _); [reflexivity |]. unfold bodyData.
  destruct (negb _); apply IH.
Qed.

Lemma nodeDataLoop_serveLoop : forall query lookups nbytes nodes,
  nodeDataLoop query lookups nbytes nodes
  = serveLoop nodeData maxNodeDataServe query lookups nbytes nodes.
Proof.
  induction query as [|hash rest IH]; intros; simpl; [reflexivity |].
  destruct (_ || _); [reflexivity |].
  destruct (nodeData hash); apply IH.
Qed.

Lemma receiptsLoop_serveLoop : forall query lookups nbytes receipts,
  receiptsLoop query lookups nbytes receipts
  = serveLoop receiptsData maxReceiptsServe query lookups nbytes receipts.
Proof.
  induction query as [|hash rest IH]; intros; simpl; [reflexivity |].
  destruct (_ || _); [reflexivity |].
  destruct (receiptsData hash); apply IH.
Qed.

Lemma totalSize_nonneg items : (0 <= totalSize items)%Z.
Proof. induction items; simpl; lia. Qed.

Section ServeLoop.

Variable find : Hash -> option bytes.
Variable maxServe : Z.

(** The loop serves the hashes in the order of the query, and leaves none
    out before the hash it stops at. *)
Lemma serveLoop_prefix : forall query lookups nbytes items,
  exists n, serveLoop find maxServe query lookups nbytes items
            = items ++ served find (take n query).
Proof.
  induction query as [|hash rest IH]; intros lk nb items; simpl.
  - exists 0%nat. now rewrite app_nil_r.
  - destruct (_ || _).
    + exists 0%nat. simpl. now rewrite app_nil_r.
    + destruct (find hash) as [item|] eqn:Ef.
      * destruct (IH (lk + 1)%Z (nb + Z.of_nat (length item))%Z (items ++ [item]))
          as (n & ->).
        exists (S n). unfold served. simpl. rewrite Ef, <- app_assoc. reflexivity.
      * destruct (IH (lk + 1)%Z nb items) as (n & ->).
        exists (S n). unfold served. simpl. rewrite Ef. reflexivity.
Qed.

(** The count stays within [maxServe], and what was gathered before the
    last item was below the soft limit. *)
Lemma serveLoop_limits : forall query lookups nbytes items,
  exists extra,
    serveLoop find maxServe query lookups nbytes items = items ++ extra
    /\ (extra = []
        \/ ((Z.of_nat (length (items ++ extra)) <= maxServe)%Z
            /\ (nbytes + totalSize (removelast extra) < softResponseLimit)%Z)).
Proof.
  induction query as [|hash rest IH]; intros lk nb items; simpl.
  - exists []. rewrite app_nil_r. split; [reflexivity | now left].
  - destruct (_ || _) eqn:Ec.
    + exists []. rewrite app_nil_r. split; [reflexivity | now left].
    + apply orb_false_elim in Ec as [Ec _]. apply orb_false_elim in Ec as [Es Em].
      apply Z.leb_gt in Es, Em.
      destruct (find hash) as [item|] eqn:Ef; [| apply IH].
      destruct (IH (lk + 1)%Z (nb + Z.of_nat (length item))%Z (items ++ [item]))
        as (extra & -> & Hlim).
      exists (item :: extra). rewrite <- app_assoc. split; [reflexivity |].
      right. destruct Hlim as [-> | (Hm & Hs)].
      * rewrite length_app. simpl. lia.
      * rewrite <- app_assoc in Hm. split; [exact Hm |].
        destruct extra as [|e extra]; [simpl in *; lia |].
        change (removelast (item :: e :: extra)) with (item :: removelast (e :: extra)).
        change (totalSize (item :: removelast (e :: extra)))
          with (Z.of_nat (length item) + totalSize (removelast (e :: extra)))%Z.
        lia.
Qed.

(** Below the limits the whole query is served. *)
Lemma serveLoop_complete : forall query lookups nbytes items,
  (lookups + Z.of_nat (length query) <= 2 * maxServe)%Z ->
  (Z.of_nat (length items) + Z.of_nat (length (served find query)) <= maxServe)%Z ->
  (nbytes + totalSize (served find query) < softResponseLimit)%Z ->
  serveLoop find maxServe query lookups nbytes items = items ++ served find query.
Proof.
  induction query as [|hash rest IH]; intros lk nb items Hl Hm Hs; simpl.
  - now rewrite app_nil_r.
  - pose proof (totalSize_nonneg (served find (hash :: rest))) as Hpos.
    simpl length in Hl.
    replace (softResponseLimit <=? nb)%Z with false by (symmetry; apply Z.leb_gt; lia).
    replace (2 * maxServe <=? lk)%Z with false by (symmetry; apply Z.leb_gt; lia).
    rewrite orb_false_r. simpl.
    unfold served in *. cbn [omap list_omap] in *.
    destruct (find hash) as [item|] eqn:Ef.
    + cbn [length totalSize fold_right] in *. rewrite Nat2Z.inj_succ in Hm.
      replace (maxServe <=? Z.of_nat (length items))%Z with false
        by (symmetry; apply Z.leb_gt; lia).
      rewrite IH; [now rewrite <- app_assoc | lia | |].
      * rewrite length_app, Nat2Z.inj_add. simpl length. lia.
      * unfold totalSize. lia.
    + destruct (maxServe <=? Z.of_nat (length items))%Z eqn:Em.
      * apply Z.leb_le in Em.
        destruct (omap find rest); [now rewrite app_nil_r |].
        cbn [length] in Hm. rewrite Nat2Z.inj_succ in Hm. lia.
      * apply IH; lia.
Qed.

End ServeLoop.

Lemma served_In find query item :
  In item (served find query) -> exists hash, In hash query /\ find hash = Some item.
Proof.
  unfold served. induction query as [|hash rest IH]; simpl; [easy |].
  destruct (find hash) as [item'|] eqn:Ef.
  - intros [<- | Hin]; [exists hash; auto |].
    destruct (IH Hin) as (h & ? & ?). exists h; auto.
  - intros Hin. destruct (IH Hin) as (h & ? & ?). exists h; auto.
Qed.

Lemma served_length find query :
  (Z.of_nat (length (served find query)) <= Z.of_nat (length query))%Z.
Proof.
  unfold served. induction query as [|hash rest IH]; [simpl; lia |].
  change (omap find (hash :: rest))
    with (match find hash with Some x => x :: omap find rest | None => omap find rest end).
  destruct (find hash); cbn [length]; rewrite ?Nat2Z.inj_succ; lia.
Qed.

Lemma In_take {A} (x : A) n l : In x (take n l) -> In x l.
Proof.
  revert n. induction l as [|y l IH]; intros [|n]; simpl; try easy.
  intros [-> | Hin]; [now left | right; eauto].
Qed.

(** The bodies served for a query are the non-empty bodies of a first part
    of the query, in its order; they are at most [maxBodiesServe], all but
    the last fit under the soft limit, and below the limits every hash of
    the query is served. *)
Theorem bodies_answer (query : list Hash) :
  let bodies := answerGetBlockBodiesQuery query in
  (exists n, bodies = served bodyData (take n query))
  /\ (forall body, In body bodies ->
        body <> [] /\ exists hash, In hash query /\ GetBodyRLP hash = body)
  /\ (bodies = []
      \/ ((Z.of_nat (length bodies) <= maxBodiesServe)%Z
          /\ (totalSize (removelast bodies) < softResponseLimit)%Z))
  /\ ((Z.of_nat (length query) <= maxBodiesServe)%Z ->
      (totalSize (served bodyData query) < softResponseLimit)%Z ->
      bodies = served bodyData query).
Proof.
  cbv zeta. unfold answerGetBlockBodiesQuery. rewrite bodiesLoop_serveLoop.
  split; [| split; [| split]].
  - destruct (serveLoop_prefix bodyData maxBodiesServe query 0 0 []) as (n & ->).
    exists n. reflexivity.
  - destruct (serveLoop_prefix bodyData maxBodiesServe query 0 0 []) as (n & ->).
    simpl. intros body Hin. apply served_In in Hin as (hash & Hin & Hf).
    apply In_take in Hin. unfold bodyData in Hf.
    destruct (length (GetBodyRLP hash) =? 0)%nat eqn:El; simpl in Hf; [discriminate |].
    injection Hf as <-. split; [| exists hash; auto].
    intros Hnil. rewrite Hnil in El. discriminate.
  - destruct (serveLoop_limits bodyData maxBodiesServe query 0 0 []) as (extra & -> & Hlim).
    simpl in *. destruct Hlim as [-> | Hlim]; [now left | right; exact Hlim].
  - intros Hl Hs.
    rewrite serveLoop_complete; [reflexivity | lia | | simpl; lia].
    simpl. pose proof (served_length bodyData query). lia.
Qed.

(** The node data served for a query are the entries of a first part of the
    query, in its order: for a hash the bloom does not rule out, the trie
    node, or the contract code where the trie node is empty or fails.  No
    empty entry is served; the entries are at most [maxNodeDataServe], all
    but the last fit under the soft limit, and below the limits every hash
    of the query is looked up. *)
Theorem node_data_answer (query : list Hash) :
  let nodes := answerGetNodeDataQuery query in
  (exists n, nodes = served nodeData (take n query))
  /\ (forall entry, In entry nodes ->
        entry <> []
        /\ exists hash, In hash query
             /\ (forall contains, StateBloom = Some contains -> contains hash = true)
             /\ (TrieNode hash = (entry, false)
                 \/ ContractCodeWithPrefix hash = (entry, false)))
  /\ (nodes = []
      \/ ((Z.of_nat (length nodes) <= maxNodeDataServe)%Z
          /\ (totalSize (removelast nodes) < softResponseLimit)%Z))
  /\ ((Z.of_nat (length query) <= maxNodeDataServe)%Z ->
      (totalSize (served nodeData query) < softResponseLimit)%Z ->
      nodes = served nodeData query).
Proof.
  cbv zeta. unfold answerGetNodeDataQuery. rewrite nodeDataLoop_serveLoop.
  split; [| split; [| split]].
  - destruct (serveLoop_prefix nodeData maxNodeDataServe query 0 0 []) as (n & ->).
    exists n. reflexivity.
  - destruct (serveLoop_prefix nodeData maxNodeDataServe query 0 0 []) as (n & ->).
    simpl. intros entry Hin. apply served_In in Hin as (hash & Hin & Hf).
    apply In_take in Hin. unfold nodeData in Hf.
    destruct (match StateBloom with Some c => negb (c hash) | None => false end) eqn:Eb;
      [discriminate |].
    destruct (TrieNode hash) as [e1 err1] eqn:Et.
    destruct (ContractCodeWithPrefix hash) as [e2 err2] eqn:Ec.
    assert (Hbloom : forall contains, StateBloom = Some contains -> contains hash = true).
    { intros c Hc. rewrite Hc in Eb. now apply negb_false_iff in Eb. }
    destruct ((length e1 =? 0)%nat || err1) eqn:E1.
    + destruct (negb err2 && (0 <? length e2)%nat) eqn:E2; [| discriminate].
      injection Hf as <-. apply andb_prop in E2 as [He Hn].
      apply negb_true_iff in He. subst err2. split.
      * intros ->. discriminate.
      * exists hash. auto.
    + destruct (negb err1 && (0 <? length e1)%nat) eqn:E2; [| discriminate].
      injection Hf as <-. apply andb_prop in E2 as [He Hn].
      apply negb_true_iff in He. subst err1. split.
      * intros ->. discriminate.
      * exists hash. auto.
  - destruct (serveLoop_limits nodeData maxNodeDataServe query 0 0 []) as (extra & -> & Hlim).
    simpl in *. destruct Hlim as [-> | Hlim]; [now left | right; exact Hlim].
  - intros Hl Hs.
    rewrite serveLoop_complete; [reflexivity | lia | | simpl; lia].
    simpl. pose proof (served_length nodeData query). lia.
Qed.

(** The receipts served for a query are the encoded receipts of a first
    part of the query, in its order; a block whose receipts are not known
    is served the encoding of no receipts when its header is known and has
    the empty receipt root, and is left out otherwise.  The answers are at
    most [maxReceiptsServe], all but the last fit under the soft limit, and
    below the limits every hash of the query is looked up. *)
Theorem receipts_answer (query : list Hash) :
  let receipts := answerGetReceiptsQuery query in
  (exists n, receipts = served receiptsData (take n query))
  /\ (forall encoded, In encoded receipts ->
        exists hash, In hash query
          /\ ((exists results, GetReceiptsByHash hash = Some results
                 /\ EncodeReceipts results = Some encoded)
              \/ (GetReceiptsByHash hash = None
                  /\ (exists header, GetHeaderByHash hash = Some header
                        /\ ReceiptHash header = EmptyRootHash)
                  /\ EncodeReceipts [] = Some encoded)))
  /\ (receipts = []
      \/ ((Z.of_nat (length receipts) <= maxReceiptsServe)%Z
          /\ (totalSize (removelast receipts) < softResponseLimit)%Z))
  /\ ((Z.of_nat (length query) <= maxReceiptsServe)%Z ->
      (totalSize (served receiptsData query) < softResponseLimit)%Z ->
      receipts = served receiptsData query).
Proof.
  cbv zeta. unfold answerGetReceiptsQuery. rewrite receiptsLoop_serveLoop.
  split; [| split; [| split]].
  - destruct (serveLoop_prefix receiptsData maxReceiptsServe query 0 0 []) as (n & ->).
    exists n. reflexivity.
  - destruct (serveLoop_prefix receiptsData maxReceiptsServe query 0 0 []) as (n & ->).
    simpl. intros encoded Hin. apply served_In in Hin as (hash & Hin & Hf).
    apply In_take in Hin. exists hash. split; [exact Hin |].
    unfold receiptsData in Hf.
    destruct (GetReceiptsByHash hash) as [results|] eqn:Er.
    + left. exists results. auto.
    + right. destruct (GetHeaderByHash hash) as [header|] eqn:Eh; [| discriminate].
      destruct (ReceiptHash header =? EmptyRootHash)%N eqn:Ee; simpl in Hf; [| discriminate].
      apply N.eqb_eq in Ee. split; [reflexivity |]. split; [exists header; auto | exact Hf].
  - destruct (serveLoop_limits receiptsData maxReceiptsServe query 0 0 [])
      as (extra & -> & Hlim).
    simpl in *. destruct Hlim as [-> | Hlim]; [now left | right; exact Hlim].
  - intros Hl Hs.
    rewrite serveLoop_complete; [reflexivity | lia | | simpl; lia].
    simpl. pose proof (served_length receiptsData query). lia.
Qed.

Lemma known_served find query :
  Forall2 (fun hash item => find hash = Some item) (known find query) (served find query).
Proof.
  unfold known, served. induction query as [|hash rest IH]; [constructor |].
  change (omap find (hash :: rest))
    with (match find hash with Some x => x :: omap find rest | None => omap find rest end).
  simpl. destruct (find hash) eqn:Ef; [constructor |]; assumption.
Qed.

Lemma pooledLoop_prefix : forall query nb hashes txs,
  exists n,
    pooledLoop query nb hashes txs
    = (hashes ++ known pooledData (take n query), txs ++ served pooledData (take n query))
    /\ (served pooledData (take n query) = []
        \/ (nb + totalSize (removelast (served pooledData (take n query)))
            < softResponseLimit)%Z).
Proof.
  induction query as [|hash rest IH]; intros nb hashes txs; simpl.
  - exists 0%nat. simpl. rewrite !app_nil_r. split; [reflexivity | now left].
  - destruct (softResponseLimit <=? nb)%Z eqn:Es.
    + exists 0%nat. simpl. rewrite !app_nil_r. split; [reflexivity | now left].
    + apply Z.leb_gt in Es.
      assert (Hnone : pooledData hash = None ->
                exists n, pooledLoop rest nb hashes txs
                  = (hashes ++ known pooledData (take n (hash :: rest)),
                     txs ++ served pooledData (take n (hash :: rest)))
                  /\ (served pooledData (take n (hash :: rest)) = []
                      \/ (nb + totalSize (removelast (served pooledData
                                                        (take n (hash :: rest))))
                          < softResponseLimit)%Z)).
      { intros Hp. destruct (IH nb hashes txs) as (n & Hr & Hlim).
        exists (S n). unfold known, served in *. simpl. rewrite Hp. auto. }
      destruct (TxPoolGet hash) as [tx|] eqn:Eg;
        [| apply Hnone; unfold pooledData; now rewrite Eg].
      destruct (EncodeTransaction tx) as [encoded|] eqn:Ee;
        [| apply Hnone; unfold pooledData; now rewrite Eg].
      assert (Hp : pooledData hash = Some encoded)
        by (unfold pooledData; now rewrite Eg).
      destruct (IH (nb + Z.of_nat (length encoded))%Z (hashes ++ [hash]) (txs ++ [encoded]))
        as (n & Hr & Hlim).
      exists (S n). rewrite Hr.
      assert (Hk : known pooledData (take (S n) (hash :: rest))
                   = hash :: known pooledData (take n rest))
        by (unfold known; simpl; now rewrite Hp).
      assert (Hsv : served pooledData (take (S n) (hash :: rest))
                    = encoded :: served pooledData (take n rest))
        by (unfold served; simpl; now rewrite Hp).
      rewrite Hk, Hsv, <- !app_assoc. split; [reflexivity |]. right.
      destruct (served pooledData (take n rest)) as [|e items];
        [unfold totalSize; simpl; lia |].
      destruct Hlim as [? | Hlim]; [discriminate |].
      change (removelast (encoded :: e :: items)) with (encoded :: removelast (e :: items)).
      change (totalSize (encoded :: removelast (e :: items)))
        with (Z.of_nat (length encoded) + totalSize (removelast (e :: items)))%Z.
      lia.
Qed.

Lemma pooledLoop_complete : forall query nb hashes txs,
  (nb + totalSize (served pooledData query) < softResponseLimit)%Z ->
  pooledLoop query nb hashes txs
  = (hashes ++ known pooledData query, txs ++ served pooledData query).
Proof.
  induction query as [|hash rest IH]; intros nb hashes txs Hs.
  - simpl. now rewrite !app_nil_r.
  - pose proof (totalSize_nonneg (served pooledData (hash :: rest))) as Hpos.
    assert (Hsome : forall item, pooledData hash = Some item ->
              known pooledData (hash :: rest) = hash :: known pooledData rest
              /\ served pooledData (hash :: rest) = item :: served pooledData rest).
    { intros item Hp. unfold known, served. simpl. now rewrite Hp. }
    assert (Hnone : pooledData hash = None ->
              known pooledData (hash :: rest) = known pooledData rest
              /\ served pooledData (hash :: rest) = served pooledData rest).
    { intros Hp. unfold known, served. simpl. now rewrite Hp. }
    cbn [pooledLoop].
    replace (softResponseLimit <=? nb)%Z with false by (symmetry; apply Z.leb_gt; lia).
    destruct (TxPoolGet hash) as [tx|] eqn:Eg.
    + destruct (EncodeTransaction tx) as [encoded|] eqn:Ee.
      * destruct (Hsome encoded) as [-> Hsv]; [unfold pooledData; now rewrite Eg |].
        rewrite Hsv in *. rewrite IH; [now rewrite <- !app_assoc |].
        change (totalSize (encoded :: served pooledData rest))
          with (Z.of_nat (length encoded) + totalSize (served pooledData rest))%Z in Hs.
        lia.
      * destruct Hnone as [-> Hsv]; [unfold pooledData; now rewrite Eg |].
        rewrite Hsv in *. apply IH. exact Hs.
    + destruct Hnone as [-> Hsv]; [unfold pooledData; now rewrite Eg |].
      rewrite Hsv in *. apply IH. exact Hs.
Qed.

(** The hashes and the transactions served for a query of the pool go in
    pairs: each transaction is the encoding of what the pool holds for the
    hash at its place.  They are those of a first part of the query the
    pool knows and can encode, in its order; all but the last fit under the
    soft limit, and no other limit holds: a query whose answers fit is
    served whole. *)
Theorem pooled_answer (query : list Hash) :
  let answer := answerGetPooledTransactions query in
  Forall2 (fun hash encoded =>
             exists tx, TxPoolGet hash = Some tx /\ EncodeTransaction tx = Some encoded)
    (fst answer) (snd answer)
  /\ (exists n, answer = (known pooledData (take n query), served pooledData (take n query)))
  /\ (snd answer = [] \/ (totalSize (removelast (snd answer)) < softResponseLimit)%Z)
  /\ ((totalSize (served pooledData query) < softResponseLimit)%Z ->
      answer = (known pooledData query, served pooledData query)).
Proof.
  cbv zeta. unfold answerGetPooledTransactions.
  destruct (pooledLoop_prefix query 0 [] []) as (n & Hr & Hlim).
  simpl in Hr. split; [| split; [| split]].
  - rewrite Hr. simpl.
    eapply Forall2_impl; [apply known_served |].
    intros hash encoded Hp. unfold pooledData in Hp.
    destruct (TxPoolGet hash) as [tx|]; [| discriminate]. exists tx. auto.
  - exists n. exact Hr.
  - rewrite Hr. simpl. exact Hlim.
  - intros Hs. rewrite pooledLoop_complete by (simpl; lia). reflexivity.
Qed.

End AnswerProperties.

(** ** The properties on the concrete chain *)

#[local] Existing Instance ledgerHost.

(** The ledger moves tokens only. *)
Lemma ledger_keeps_balance (x : Address) : vmKeepsBalance x.
Proof.
  intros evm c input. simpl. unfold ledgerRun.
  repeat case_match; reflexivity.
Defined.

(** The token contracts of the ledger move no native coin. *)
Lemma ledger_tokens_keep_balance (l : list AccTokenAsset) (x : Address) :
  tokensKeepBalance l x.
Proof. apply vmKeepsBalance_tokens, ledger_keeps_balance. Defined.

(** C1 as it is stated fails: a stakingToken and a withdrewToken on
    the zero transaction hash return nil and have moved native balance
    between the caller and the custody account. *)
Lemma estimate_moves_balance :
  TxHash (StateDB (Evm (chain0 alice ZeroHash))) = ZeroHash
  /\ snd (stakingToken (chain0 alice ZeroHash) 1 stake3) = RNil
  /\ GetBalance (StateDB (Evm (fst (stakingToken (chain0 alice ZeroHash) 1 stake3)))) alice
     <> GetBalance (StateDB (Evm (chain0 alice ZeroHash))) alice
  /\ snd (withdrewToken (chain0 alice ZeroHash) 2) = RNil
  /\ GetBalance (StateDB (Evm (fst (withdrewToken (chain0 alice ZeroHash) 2)))) custody
     <> GetBalance (StateDB (Evm (chain0 alice ZeroHash))) custody.
Proof.
  repeat split; try reflexivity; vm_compute; discriminate.
Qed.

(** [estimate_mode_frame] on calls of Alice and of the L2 operator with the
    zero transaction hash: the store is as it was, and the answer is nil
    where the guards and the transfers pass. *)
Lemma estimate_mode_frame_witness :
  TxHash (StateDB (Evm (chain0 alice ZeroHash))) = ZeroHash
  /\ Plugin (fst (stakingToken (chain0 alice ZeroHash) 1 stake3)) = plugin0
  /\ snd (stakingToken (chain0 alice ZeroHash) 1 stake3) = RNil
  /\ (exists calls,
        vmTrace (fst (stakingToken (chain0 alice ZeroHash) 1 stake3)) = [] ++ calls
        /\ Forall2 (isTransferCall custody) calls [mkToken token 3])
  /\ Plugin (fst (withdrewToken (chain0 alice ZeroHash) 2)) = plugin0
  /\ fst (settleBubble (chain0 31 ZeroHash) 55 1 (mkSettle [mkAsset alice 7 []]))
     = chargeGas (chain0 31 ZeroHash) 10
  /\ Plugin (fst (remoteDeploy (chain0 alice ZeroHash) 1 token 50 [])) = plugin0
  /\ Evm (fst (remoteCall (chain0 alice ZeroHash) 1 150 [])) = Evm (chain0 alice ZeroHash)
  /\ snd (withdrewToken (chain0 alice ZeroHash) 2) = RNil
  /\ settleBubble (chain0 31 ZeroHash) 55 1 (mkSettle [mkAsset alice 7 []])
     = (chargeGas (chain0 31 ZeroHash) SettleBubbleGas, RNil)
  /\ remoteDeploy (chain0 alice ZeroHash) 1 token 50 []
     = (chargeGas (chain0 alice ZeroHash) RemoteDeployGas, RNil)
  /\ remoteCall (chain0 alice ZeroHash) 1 150 []
     = (chargeGas (chain0 alice ZeroHash) RemoteCallGas, RNil).
Proof.
  assert (Hzero : forall a, TxHash (StateDB (Evm (chain0 a ZeroHash))) = ZeroHash)
    by reflexivity.
  assert (Hgas : forall a, (10 <= Gas (Contract (chain0 a ZeroHash)))%N)
    by (intros a; vm_compute; discriminate).
  assert (Hb : forall a, GetBubBasics (Plugin (chain0 a ZeroHash)) 1 = (Some basics1, None))
    by (intros a; vm_compute; reflexivity).
  assert (Hs : forall a, GetBubStatus (Plugin (chain0 a ZeroHash)) 1
                         = (Some (mkStatus ActiveStatus), None))
    by (intros a; vm_compute; reflexivity).
  assert (Hb2 : GetBubBasics (Plugin (chain0 alice ZeroHash)) 2 = (Some basics2, None))
    by (vm_compute; reflexivity).
  assert (Hs2 : GetBubStatus (Plugin (chain0 alice ZeroHash)) 2
                = (Some (mkStatus ReleasedStatus), None))
    by (vm_compute; reflexivity).
  assert (Ha2 : GetAccAssetOfBub (Plugin (chain0 alice ZeroHash)) 2
                  (CallerAddress (Contract (chain0 alice ZeroHash)))
                = (Some aliceIn2, None))
    by (vm_compute; reflexivity).
  assert (Hinfo : GetBubbleInfo (Plugin (chain0 alice ZeroHash)) 1
                  = (Some (mkBubble basics1 ActiveStatus), None))
    by (vm_compute; reflexivity).
  split; [reflexivity |].
  destruct (estimate_mode_frame (chain0 alice ZeroHash) (Hzero alice))
    as (Hstake & Hwithdraw & _ & Hdeploy & Hcall & Nstake & Nwithdraw & _ & Ndeploy & Ncall).
  destruct (estimate_mode_frame (chain0 31 ZeroHash) (Hzero 31%N))
    as (_ & _ & _ & _ & _ & _ & _ & Nsettle & _).
  destruct (Hstake 1%Z stake3) as (Hp & _ & Hcalls).
  assert (Hnil : stakingToken (chain0 alice ZeroHash) 1 stake3
                 = (fst (stakingToken (chain0 alice ZeroHash) 1 stake3), RNil)).
  { apply (Nstake 1%Z stake3 basics1 (mkStatus ActiveStatus) _ (Hgas alice) eq_refl
             (Hb alice) (Hs alice)); [discriminate | vm_compute; discriminate |].
    apply (stakingTransfers_passed true). vm_compute. reflexivity. }
  assert (Hnil2 : withdrewToken (chain0 alice ZeroHash) 2
                  = (fst (withdrewToken (chain0 alice ZeroHash) 2), RNil)).
  { apply (Nwithdraw 2%Z basics2 (mkStatus ReleasedStatus) aliceIn2 _ (Hgas alice)
             Hb2 Hs2 eq_refl Ha2).
    apply (withdrewTransfers_passed true _ _ _ [] _
             [mkToken token 0]). vm_compute. reflexivity. }
  assert (Hnil3 : settleBubble (chain0 31 ZeroHash) 55 1 (mkSettle [mkAsset alice 7 []])
                  = (chargeGas (chain0 31 ZeroHash) SettleBubbleGas, RNil)).
  { apply (Nsettle 55%N 1%Z (mkSettle [mkAsset alice 7 []]) basics1
             (mkStatus ActiveStatus) operatorL2 [] (Hgas 31%N) (Hb 31%N) (Hs 31%N));
      [discriminate | reflexivity | reflexivity | reflexivity |].
    constructor; [| constructor]. exists (mkAsset alice 0 []). vm_compute. reflexivity. }
  split; [exact Hp |].
  split; [now rewrite Hnil |].
  split; [apply Hcalls; now rewrite Hnil |].
  split; [exact (proj1 (Hwithdraw 2%Z)) |].
  split; [now rewrite Hnil3 |].
  split; [exact (proj1 (Hdeploy 1%Z token 50%Z [])) |].
  split; [exact (proj1 (proj2 (Hcall 1%Z 150%N []))) |].
  split; [now rewrite Hnil2 |].
  split; [exact Hnil3 |].
  split.
  - apply (Ndeploy 1%Z token 50%Z [] (mkBubble basics1 ActiveStatus) (mkSizeConfig 50)
             (Hgas alice) Hinfo eq_refl).
    + vm_compute. split; discriminate.
    + vm_compute. reflexivity.
    + vm_compute. discriminate.
    + vm_compute. reflexivity.
  - apply (Ncall 1%Z 150%N [] (Some (mkBubble basics1 ActiveStatus))
             (mkContractInfo alice 150 60) (Hgas alice) Hinfo).
    vm_compute. reflexivity.
Defined.


(** [lifecycle_guards] on the released bubble 2 and the active bubble 1. *)
Lemma lifecycle_guards_witness :
  GetBubStatus plugin0 2 = (Some (mkStatus ReleasedStatus), None)
  /\ rejected (chain0 alice 9) (StakingToken (chain0 alice 9) 2 stake3)
  /\ rejected (chain0 31 9) (SettleBubble (chain0 31 9) 55 2 (mkSettle [aliceIn2; bobIn2]))
  /\ GetBubStatus plugin0 1 = (Some (mkStatus ActiveStatus), None)
  /\ rejected (chain0 alice 9) (WithdrewToken (chain0 alice 9) 1).
Proof.
  assert (H2 : GetBubStatus plugin0 2 = (Some (mkStatus ReleasedStatus), None))
    by (vm_compute; reflexivity).
  assert (H1 : GetBubStatus plugin0 1 = (Some (mkStatus ActiveStatus), None))
    by (vm_compute; reflexivity).
  destruct (lifecycle_guards (chain0 alice 9) 2 (mkStatus ReleasedStatus) H2) as [Hrel _].
  destruct (lifecycle_guards (chain0 31 9) 2 (mkStatus ReleasedStatus) H2) as [Hrel' _].
  destruct (lifecycle_guards (chain0 alice 9) 1 (mkStatus ActiveStatus) H1) as [_ Hact].
  repeat split; try assumption.
  - exact (proj1 (proj1 (Hrel eq_refl) stake3)).
  - exact (proj1 (proj2 (Hrel' eq_refl) 55%N (mkSettle [aliceIn2; bobIn2]))).
  - apply Hact. discriminate.
Defined.

(** Every bubble of the concrete store has an L2 operator. *)
Lemma plugin0_has_operators (bubbleID : Z) (basics : BubBasics) :
  basicsDB plugin0 !! bubbleID = Some basics -> OperatorsL2 basics <> [].
Proof.
  unfold plugin0. simpl. intros Hb.
  repeat (apply lookup_insert_Some in Hb as [[_ <-] | [_ Hb]]; [discriminate |]).
  apply lookup_singleton_Some in Hb as [_ <-]. discriminate.
Defined.

(** [settle_rejects_bad_batch] on an empty batch and on a batch that names
    Bob, who has no asset in bubble 1. *)
Lemma settle_rejects_bad_batch_witness :
  (length (fst (GetAccListOfBub plugin0 1)) <> length (AccAssets (mkSettle [])))
  /\ rejected (chain0 31 9) (SettleBubble (chain0 31 9) 55 1 (mkSettle []))
  /\ (In (mkAsset bob 1 []) (AccAssets (mkSettle [mkAsset bob 1 []]))
      /\ accAssetDB plugin0 !! (1%Z, bob) = None
      /\ fst (GetAccAssetOfBub plugin0 1 bob) = None)
  /\ rejectedReceipt (chain0 31 9) SettleBubbleGas
       (settleBubble (chain0 31 9) 55 1 (mkSettle [mkAsset bob 1 []])).
Proof.
  assert (Hlen : length (fst (GetAccListOfBub plugin0 1))
                 <> length (AccAssets (mkSettle []))) by (vm_compute; discriminate).
  assert (Hmiss : In (mkAsset bob 1 []) (AccAssets (mkSettle [mkAsset bob 1 []]))
                  /\ accAssetDB plugin0 !! (1%Z, bob) = None
                  /\ fst (GetAccAssetOfBub plugin0 1 bob) = None)
    by (split; [now left | split; reflexivity]).
  split; [exact Hlen |].
  split.
  { exact (proj1 (settle_rejects_bad_batch (chain0 31 9) 55 1 (mkSettle [])
                    (plugin0_has_operators 1) (or_introl Hlen))). }
  split; [exact Hmiss |].
  apply (proj2 (settle_rejects_bad_batch (chain0 31 9) 55 1 (mkSettle [mkAsset bob 1 []])
                  (plugin0_has_operators 1)
                  (or_intror (ex_intro _ (mkAsset bob 1 [])
                                (conj (proj1 Hmiss) (proj2 (proj2 Hmiss))))))).
  vm_compute. discriminate.
Defined.

(** [primary_operator_only] on the senders 30 and 31, the latter being the
    L2 operator's address. *)
Lemma primary_operator_only_witness :
  (basicsDB plugin0 !! 1%Z = Some basics1
   /\ OperatorsL2 basics1 = operatorL2 :: []
   /\ (RemoteCallExecutorGas <= Gas (Contract (chain0 30 9)))%N
   /\ CallerAddress (Contract (chain0 30 9)) <> OpAddr operatorL2
   /\ CallerAddress (Contract (chain0 31 9)) = OpAddr operatorL2)
  /\ rejected (chain0 30 9)
       (SettleBubble (chain0 30 9) 55 1 (mkSettle [mkAsset alice 7 []]))
  /\ rejectedReceipt (chain0 30 9) RemoteCallExecutorGas
       (remoteCallExecutor (chain0 30 9) alice 5 1 token [Byte.x0b; Byte.x03])
  /\ isSuccess (snd (remoteCallExecutor (chain0 31 9) alice 5 1 token [Byte.x0b; Byte.x03])).
Proof.
  assert (Hb : basicsDB plugin0 !! 1%Z = Some basics1) by reflexivity.
  assert (Hops : OperatorsL2 basics1 = operatorL2 :: []) by reflexivity.
  assert (Hgas : forall a, (RemoteCallExecutorGas <= Gas (Contract (chain0 a 9)))%N)
    by (intros a; vm_compute; discriminate).
  assert (Hne : CallerAddress (Contract (chain0 30 9)) <> OpAddr operatorL2)
    by discriminate.
  assert (Heq : CallerAddress (Contract (chain0 31 9)) = OpAddr operatorL2)
    by reflexivity.
  destruct (primary_operator_only (chain0 30 9) 1 basics1 operatorL2 [] Hb Hops (Hgas 30%N))
    as [Hreject _].
  destruct (primary_operator_only (chain0 31 9) 1 basics1 operatorL2 [] Hb Hops (Hgas 31%N))
    as [_ Haccept].
  split; [repeat split; auto |].
  split; [exact (proj1 (Hreject Hne) 55%N (mkSettle [mkAsset alice 7 []])) |].
  split; [exact (proj2 (Hreject Hne) alice 5%N token [Byte.x0b; Byte.x03]) |].
  destruct (Haccept Heq alice 5%N token [Byte.x0b; Byte.x03]) as [_ Hrun].
  rewrite (Hrun (mkBubble basics1 ActiveStatus) _ eq_refl ltac:(discriminate)
             (surjective_pairing _)).
  simpl. unfold isSuccess. eauto.
Defined.

(** [remoteDeploy_minimum_and_status] on the amounts 49 and 50 against the
    minimum 50, and on bubble 3, which is in pre-release. *)
Lemma remoteDeploy_minimum_and_status_witness :
  ((RemoteDeployGas <= Gas (Contract (chain0 alice 9)))%N
   /\ GetBubbleInfo plugin0 1 = (Some (mkBubble basics1 ActiveStatus), None)
   /\ GetBubbleInfo plugin0 3 = (Some (mkBubble basics3 PreReleaseStatus), None)
   /\ GetSizeConfig 1 = inr (mkSizeConfig 50))
  /\ remoteDeploy (chain0 alice 9) 1 token 49 []
     = (chargeGas (chain0 alice 9) RemoteDeployGas,
        RVal (Failure TxAllotBubble ErrStakingAmountTooLow))
  /\ snd (remoteDeploy (chain0 alice 9) 1 token 50 [])
     <> RVal (Failure TxAllotBubble ErrStakingAmountTooLow)
  /\ isSuccess (snd (remoteDeploy (chain0 alice 9) 1 token 50 []))
  /\ fst (remoteDeploy (chain0 alice 9) 3 token 50 [])
     = chargeGas (chain0 alice 9) RemoteDeployGas.
Proof.
  assert (Hgas : (RemoteDeployGas <= Gas (Contract (chain0 alice 9)))%N)
    by (vm_compute; discriminate).
  assert (H1 : GetBubbleInfo plugin0 1 = (Some (mkBubble basics1 ActiveStatus), None))
    by (vm_compute; reflexivity).
  assert (H3 : GetBubbleInfo plugin0 3 = (Some (mkBubble basics3 PreReleaseStatus), None))
    by (vm_compute; reflexivity).
  assert (Hcfg : GetSizeConfig 1 = inr (mkSizeConfig 50)) by reflexivity.
  split; [repeat split; assumption |].
  split.
  { apply (remoteDeploy_minimum_and_status (chain0 alice 9) 1 _ _ token 49 []
             Hgas H1 Hcfg).
    simpl. lia. }
  split.
  { apply (proj1 (proj2 (remoteDeploy_minimum_and_status (chain0 alice 9) 1 _ _ token 50 []
                           Hgas H1 Hcfg)) eq_refl TxAllotBubble ErrStakingAmountTooLow).
    reflexivity. }
  split; [vm_compute; eauto |].
  apply (remoteDeploy_minimum_and_status (chain0 alice 9) 3 _ _ token 50 []
           Hgas H3 Hcfg).
  vm_compute. discriminate.
Defined.

(** [withdraw_zeroes_asset] on Alice's withdrawal from bubble 2 in
    transaction 9. *)
Lemma withdraw_zeroes_asset_witness :
  isSuccess (snd (withdrewToken (chain0 alice 9) 2))
  /\ GetAccAssetOfBub (Plugin (fst (withdrewToken (chain0 alice 9) 2))) 2 alice
     = (Some (mkAsset alice 0 [mkToken token 0]), None)
  /\ GetTxHashListByBub (Plugin (fst (withdrewToken (chain0 alice 9) 2))) 2
       bubble.WithdrewToken
     = [4%N; 9%N].
Proof.
  assert (Hok : isSuccess (snd (withdrewToken (chain0 alice 9) 2)))
    by (vm_compute; eauto).
  split; [exact Hok |].
  destruct (withdraw_zeroes_asset (chain0 alice 9) _ 2 _ (surjective_pairing _) Hok)
    as (accAsset & Hread & _ & _ & Hzero & Hlist).
  assert (accAsset = aliceIn2) as ->.
  { vm_compute in Hread. now injection Hread as <-. }
  split; [exact Hzero | exact Hlist].
Defined.

(** [remoteClear_nil_record] on the address 100, which no contract of
    bubble 1 is registered at. *)
Lemma remoteClear_nil_record_witness :
  (contractDB plugin0 !! (1%Z, token) = None /\ dbFault OpGetBubContract = false)
  /\ GetBubContract plugin0 1 token = (None, None)
  /\ remoteClear (chain0 alice 9) 1 token
     = (chain0 alice 9, RPanic "nil pointer dereference").
Proof.
  split; [split; reflexivity |].
  exact (remoteClear_nil_record (chain0 alice 9) 1 token eq_refl eq_refl).
Defined.

(** [withdraw_without_asset] on Carol, who has no asset in bubble 2. *)
Lemma withdraw_without_asset_witness :
  ((WithdrewTokenGas <= Gas (Contract (chain0 carol 9)))%N
   /\ GetBubBasics plugin0 2 = (Some basics2, None)
   /\ GetBubStatus plugin0 2 = (Some (mkStatus ReleasedStatus), None)
   /\ GetAccAssetOfBub plugin0 2 carol = (None, None))
  /\ WithdrewToken (chain0 carol 9) 2 = (chain0 carol 9, RNil)
  /\ withdrewToken (chain0 carol 9) 2 = (chargeGas (chain0 carol 9) WithdrewTokenGas, RNil).
Proof.
  assert (Hgas : (WithdrewTokenGas <= Gas (Contract (chain0 carol 9)))%N)
    by (vm_compute; discriminate).
  assert (Hb : GetBubBasics plugin0 2 = (Some basics2, None)) by (vm_compute; reflexivity).
  assert (Hs : GetBubStatus plugin0 2 = (Some (mkStatus ReleasedStatus), None))
    by (vm_compute; reflexivity).
  assert (Ha : GetAccAssetOfBub plugin0 2 carol = (None, None)) by (vm_compute; reflexivity).
  split; [repeat split; assumption |].
  exact (withdraw_without_asset (chain0 carol 9) 2 basics2 (mkStatus ReleasedStatus)
           Hgas Hb Hs eq_refl Ha).
Defined.

(** [vm_failure_by_mode] on transfers the ledger refuses: Alice staking 30
    tokens of her 20, Bob withdrawing 9 tokens of the 5 in custody, and a
    forwarded transfer of 3 tokens by Bob, who holds none. *)
Lemma vm_failure_by_mode_witness :
  (vmFailsAt enterToken custody (moveNative (chain0 alice 9) alice custody 5)
     (mkToken token 30)
     (fst (runEvm (enterToken (moveNative (chain0 alice 9) alice custody 5) token
                     [Byte.x60]) [Byte.xc8; Byte.x1e]))
     "transfer amount exceeds balance"
   /\ (RemoteCallExecutorGas <= Gas (Contract (chain0 31 ZeroHash)))%N)
  /\ snd (StakingToken (chain0 alice 9) 1 stake30) = RErr (Biz ErrEVMExecERC20)
  /\ snd (StakingToken (chain0 alice ZeroHash) 1 stake30)
     = RErr (Plain "Failed to Staking ERC20 Token, error:transfer amount exceeds balance")
  /\ snd (WithdrewToken (chain0 bob 9) 2) = RErr (Biz ErrEVMExecERC20)
  /\ snd (WithdrewToken (chain0 bob ZeroHash) 2)
     = RErr (Plain "Failed to Withdrew ERC20 Token, error:transfer amount exceeds balance")
  /\ snd (remoteCallExecutor (chain0 31 9) bob 5 1 token [Byte.x0b; Byte.x03])
     = RVal (Failure TxRemoteCallExecutor
               (Wrap ErrContractReturns "transfer amount exceeds balance"))
  /\ snd (remoteCallExecutor (chain0 31 ZeroHash) bob 5 1 token [Byte.x0b; Byte.x03])
     = RErr (Plain "call contract error: transfer amount exceeds balance").
Proof.
  destruct vm_failure_by_mode as (Hstake & Hwithdraw & Hexec & _).
  assert (Hfail : forall h,
            vmFailsAt enterToken custody (moveNative (chain0 alice h) alice custody 5)
              (mkToken token 30)
              (fst (runEvm (enterToken (moveNative (chain0 alice h) alice custody 5) token
                              [Byte.x60]) [Byte.xc8; Byte.x1e]))
              "transfer amount exceeds balance").
  { intros h. split; [discriminate |]. exists [Byte.xc8; Byte.x1e]. now split. }
  assert (Hfail' : forall h,
            vmFailsAt enterTokenAsCustody bob (moveNative (chain0 bob h) custody bob 0)
              (mkToken token 9)
              (fst (runEvm (enterTokenAsCustody (moveNative (chain0 bob h) custody bob 0)
                              token [Byte.x60]) [Byte.x0b; Byte.x09]))
              "transfer amount exceeds balance").
  { intros h. split; [discriminate |]. exists [Byte.x0b; Byte.x09]. now split. }
  assert (Hgas : forall h, (RemoteCallExecutorGas <= Gas (Contract (chain0 31 h)))%N)
    by (intros h; vm_compute; discriminate).
  assert (Hread : forall a h,
            GetBubBasics (Plugin (chain0 a h)) 1 = (Some basics1, None)
            /\ GetBubStatus (Plugin (chain0 a h)) 1 = (Some (mkStatus ActiveStatus), None)
            /\ GetBubBasics (Plugin (chain0 a h)) 2 = (Some basics2, None)
            /\ GetBubStatus (Plugin (chain0 a h)) 2 = (Some (mkStatus ReleasedStatus), None)
            /\ GetAccAssetOfBub (Plugin (chain0 a h)) 2 bob = (Some bobIn2, None)
            /\ GetBubbleInfo (Plugin (chain0 a h)) 1
               = (Some (mkBubble basics1 ActiveStatus), None))
    by (intros a h; repeat split; vm_compute; reflexivity).
  split; [split; [apply Hfail | apply Hgas] |].
  split.
  { rewrite (Hstake (chain0 alice 9) 1%Z stake30 basics1 (mkStatus ActiveStatus)
               [] (mkToken token 30) [] _ _ _ eq_refl (proj1 (Hread alice 9%N))
               (proj1 (proj2 (Hread alice 9%N)))
               ltac:(discriminate) ltac:(vm_compute; discriminate) eq_refl eq_refl
               (Hfail 9%N)).
    reflexivity. }
  split.
  { rewrite (Hstake (chain0 alice ZeroHash) 1%Z stake30 basics1 (mkStatus ActiveStatus)
               [] (mkToken token 30) [] _ _ _ eq_refl (proj1 (Hread alice ZeroHash))
               (proj1 (proj2 (Hread alice ZeroHash)))
               ltac:(discriminate) ltac:(vm_compute; discriminate) eq_refl eq_refl
               (Hfail ZeroHash)).
    reflexivity. }
  destruct (Hread bob 9%N) as (_ & _ & Hb9 & Hs9 & Ha9 & _).
  destruct (Hread bob ZeroHash) as (_ & _ & Hb0 & Hs0 & Ha0 & _).
  split.
  { rewrite (Hwithdraw (chain0 bob 9) 2%Z bobIn2 basics2 (mkStatus ReleasedStatus)
               [] (mkToken token 9) [] _ [] _ _ Hb9 Hs9 eq_refl Ha9
               eq_refl eq_refl (Hfail' 9%N)).
    reflexivity. }
  split.
  { rewrite (Hwithdraw (chain0 bob ZeroHash) 2%Z bobIn2 basics2 (mkStatus ReleasedStatus)
               [] (mkToken token 9) [] _ [] _ _ Hb0 Hs0 eq_refl Ha0
               eq_refl eq_refl (Hfail' ZeroHash)).
    reflexivity. }
  split.
  { rewrite (Hexec (chain0 31 9) bob 5%N 1%Z token [Byte.x0b; Byte.x03]
               (mkBubble basics1 ActiveStatus) operatorL2 [] _
               "transfer amount exceeds balance" (Hgas 9%N)
               (proj2 (proj2 (proj2 (proj2 (proj2 (Hread 31%N 9%N))))))
               eq_refl eq_refl ltac:(discriminate) (surjective_pairing _)).
    reflexivity. }
  rewrite (Hexec (chain0 31 ZeroHash) bob 5%N 1%Z token [Byte.x0b; Byte.x03]
             (mkBubble basics1 ActiveStatus) operatorL2 [] _
             "transfer amount exceeds balance" (Hgas ZeroHash)
             (proj2 (proj2 (proj2 (proj2 (proj2 (Hread 31%N ZeroHash))))))
             eq_refl eq_refl ltac:(discriminate) (surjective_pairing _)).
  reflexivity.
Defined.

(** *** Runs of a real transaction, for comparison *)

(** Alice stakes 5 coins and 3 tokens into bubble 1 in transaction 9: the
    asset is stored, the hash recorded, the mint task posted. *)
Example stake_in_transaction :
  snd (stakingToken (chain0 alice 9) 1 stake3)
  = RVal (Success TxStakingToken [ResBig 1; ResAsset stake3])
  /\ accAssetDB (Plugin (fst (stakingToken (chain0 alice 9) 1 stake3))) !! (1%Z, alice)
     = Some stake3
  /\ GetTxHashListByBub (Plugin (fst (stakingToken (chain0 alice 9) 1 stake3))) 1
       bubble.StakingToken = [9%N]
  /\ posted (Plugin (fst (stakingToken (chain0 alice 9) 1 stake3)))
     = [MintTokenTask 1 9 "http://l2" 21 stake3]
  /\ storage (StateDB (Evm (fst (stakingToken (chain0 alice 9) 1 stake3)))) !! (token, custody)
     = Some 8%Z.
Proof. repeat split; vm_compute; reflexivity. Qed.

(** The L2 operator settles bubble 1 in transaction 9: Alice's asset is the
    snapshot, and the L2 hash 55 maps to the transaction. *)
Example settle_in_transaction :
  snd (settleBubble (chain0 31 9) 55 1 (mkSettle [mkAsset alice 7 [mkToken token 2]]))
  = RVal (Success TxSettleBubble
            [ResHash 55; ResBig 1; ResSettle (mkSettle [mkAsset alice 7 [mkToken token 2]])])
  /\ accAssetDB (Plugin (fst (settleBubble (chain0 31 9) 55 1
                                (mkSettle [mkAsset alice 7 [mkToken token 2]])))) !! (1%Z, alice)
     = Some (mkAsset alice 7 [mkToken token 2])
  /\ GetL1HashByL2Hash (Plugin (fst (settleBubble (chain0 31 9) 55 1
                                       (mkSettle [mkAsset alice 7 [mkToken token 2]])))) 1 55
     = Some 9%N.
Proof. repeat split; vm_compute; reflexivity. Qed.

(** Alice deploys the contract at 100 into bubble 1 with the minimum
    amount: 50 coins go to custody and the contract is registered. *)
Example deploy_in_transaction :
  snd (remoteDeploy (chain0 alice 9) 1 token 50 [])
  = RVal (Success TxRemoteDeploy [ResBig 1; ResAddr token; ResBytes []])
  /\ GetBalance (StateDB (Evm (fst (remoteDeploy (chain0 alice 9) 1 token 50 [])))) alice
     = 50%Z
  /\ GetBalance (StateDB (Evm (fst (remoteDeploy (chain0 alice 9) 1 token 50 [])))) custody
     = 1050%Z
  /\ contractDB (Plugin (fst (remoteDeploy (chain0 alice 9) 1 token 50 []))) !! (1%Z, token)
     = Some (mkContractInfo alice token 50).
Proof. repeat split; vm_compute; reflexivity. Qed.

(** *** The relay and the accounting on the concrete chain *)

(** [remoteCall_success] on Alice's call of the contract at 150 of bubble
    1 in transaction 9. *)
Lemma remoteCall_success_witness :
  isSuccess (snd (remoteCall (chain0 alice 9) 1 150 []))
  /\ Gas (Contract (fst (remoteCall (chain0 alice 9) 1 150 [])))
     = (Gas (Contract (chain0 alice 9)) - RemoteCallGas)%N
  /\ TxHash (StateDB (Evm (chain0 alice 9))) <> ZeroHash.
Proof.
  assert (Hok : isSuccess (snd (remoteCall (chain0 alice 9) 1 150 [])))
    by (vm_compute; eauto).
  split; [exact Hok |].
  destruct (remoteCall_success (chain0 alice 9) _ 1 150 [] _ (surjective_pairing _) Hok)
    as (bub & contractInfo & opL2 & opL1 & _ & _ & Htx & _ & _ & Hgas & _).
  split; [exact Hgas | exact Htx].
Defined.

(** [remoteDeploy_success] on Alice's deploy of the contract at 100 into
    bubble 1 with 50 coins in transaction 9. *)
Lemma remoteDeploy_success_witness :
  isSuccess (snd (remoteDeploy (chain0 alice 9) 1 token 50 []))
  /\ StateDB (Evm (fst (remoteDeploy (chain0 alice 9) 1 token 50 [])))
     = AddBalance (SubBalance (state0 9) alice 50) custody 50
  /\ GetBubContract (Plugin (fst (remoteDeploy (chain0 alice 9) 1 token 50 []))) 1 token
     = (Some (mkContractInfo alice token 50), None).
Proof.
  assert (Hok : isSuccess (snd (remoteDeploy (chain0 alice 9) 1 token 50 [])))
    by (vm_compute; eauto).
  split; [exact Hok |].
  destruct (remoteDeploy_success (chain0 alice 9) _ 1 token 50 [] _
              (surjective_pairing _) Hok)
    as (bub & config & opL2 & opL1 & _ & _ & _ & _ & _ & _ & _ & _ & _ & Hstate & _ & _
        & Hrecord & _).
  split; [exact Hstate | exact Hrecord].
Defined.

(** [remoteClear_success] on Alice's clearing of the contract at 150 of
    bubble 1, which she created with 60 coins in escrow. *)
Lemma remoteClear_success_witness :
  isSuccess (snd (remoteClear (chain0 alice 9) 1 150))
  /\ Contract (fst (remoteClear (chain0 alice 9) 1 150)) = Contract (chain0 alice 9)
  /\ GetBubContract (Plugin (fst (remoteClear (chain0 alice 9) 1 150))) 1 150
     = (None, None).
Proof.
  assert (Hok : isSuccess (snd (remoteClear (chain0 alice 9) 1 150)))
    by (vm_compute; eauto).
  split; [exact Hok |].
  destruct (remoteClear_success (chain0 alice 9) _ 1 150 _ (surjective_pairing _) Hok)
    as (contractInfo & _ & _ & _ & Hcontract & _ & _ & Hgone).
  split; [exact Hcontract | exact Hgone].
Defined.

(** [deploy_then_clear] on Alice's deploy of the contract at 100 into
    bubble 1. *)
Lemma deploy_then_clear_witness :
  (isSuccess (snd (remoteDeploy (chain0 alice 9) 1 token 50 []))
   /\ dbFault OpDelBubContract = false)
  /\ exists bc2,
       remoteClear (fst (remoteDeploy (chain0 alice 9) 1 token 50 [])) 1 token
       = (bc2, RVal (Success TxRemoteDeploy []))
       /\ sameBalances (StateDB (Evm bc2)) (StateDB (Evm (chain0 alice 9)))
       /\ GetBubContract (Plugin bc2) 1 token = (None, None).
Proof.
  assert (Hok : isSuccess (snd (remoteDeploy (chain0 alice 9) 1 token 50 [])))
    by (vm_compute; eauto).
  split; [split; [exact Hok | reflexivity] |].
  exact (deploy_then_clear (chain0 alice 9) _ 1 token 50 [] _
           (surjective_pairing _) Hok eq_refl).
Defined.

(** [gas_is_charged_up_front] on a receiver with 5 gas, and on one with
    1000. *)
Lemma gas_is_charged_up_front_witness :
  ((Gas (Contract (chainLow alice 9)) < StakingTokenGas)%N
   /\ (Gas (Contract (chainLow alice 9)) < WithdrewTokenGas)%N)
  /\ stakingToken (chainLow alice 9) 1 stake3 = (chainLow alice 9, RErr ErrOutOfGas)
  /\ withdrewToken (chainLow alice 9) 2 = (chainLow alice 9, RErr ErrOutOfGas)
  /\ remoteCall (chainLow alice 9) 1 150 [] = (chainLow alice 9, RErr ErrOutOfGas)
  /\ Gas (Contract (fst (remoteCall (chain0 alice 9) 1 150 [])))
     = (Gas (Contract (chain0 alice 9)) - RemoteCallGas)%N.
Proof.
  assert (Hlow : (Gas (Contract (chainLow alice 9)) < StakingTokenGas)%N
                 /\ (Gas (Contract (chainLow alice 9)) < WithdrewTokenGas)%N)
    by (split; vm_compute; reflexivity).
  split; [exact Hlow |].
  destruct (gas_is_charged_up_front (chainLow alice 9))
    as (Hstake & Hwithdraw & _ & _ & _ & Hcall).
  destruct (gas_is_charged_up_front (chain0 alice 9)) as (_ & _ & _ & _ & _ & Hcall0).
  split; [exact (Hstake (proj1 Hlow) 1%Z stake3) |].
  split; [exact (Hwithdraw (proj2 Hlow) 2%Z) |].
  split; [exact (Hcall 1%Z 150%N []) | exact (Hcall0 1%Z 150%N [])].
Defined.

(** [withdraw_moves_native] on Alice's withdrawal from bubble 2, where
    she holds 40 coins. *)
Lemma withdraw_moves_native_witness :
  isSuccess (snd (withdrewToken (chain0 alice 9) 2))
  /\ GetBalance (StateDB (Evm (fst (withdrewToken (chain0 alice 9) 2)))) alice
     = (GetBalance (state0 9) alice + 40)%Z
  /\ GetBalance (StateDB (Evm (fst (withdrewToken (chain0 alice 9) 2)))) custody
     = (GetBalance (state0 9) custody - 40)%Z.
Proof.
  assert (Hok : isSuccess (snd (withdrewToken (chain0 alice 9) 2)))
    by (vm_compute; eauto).
  split; [exact Hok |].
  destruct (withdraw_moves_native (chain0 alice 9) _ 2 _ (surjective_pairing _) Hok)
    as (accAsset & Hread & Hmove).
  assert (accAsset = aliceIn2) as ->.
  { vm_compute in Hread. now injection Hread as <-. }
  split.
  - rewrite (Hmove alice ltac:(simpl; lia) (ledger_tokens_keep_balance _ alice)).
    reflexivity.
  - rewrite (Hmove custody ltac:(simpl; lia) (ledger_tokens_keep_balance _ custody)).
    reflexivity.
Defined.


(** [stake_then_withdraw_fails] on Alice's stake of 5 coins and 3 tokens
    into bubble 1. *)
Lemma stake_then_withdraw_fails_witness :
  isSuccess (snd (stakingToken (chain0 alice 9) 1 stake3))
  /\ WithdrewToken (fst (stakingToken (chain0 alice 9) 1 stake3)) 1
     = (fst (stakingToken (chain0 alice 9) 1 stake3), RErr (Biz ErrBubbleIsNotRelease)).
Proof.
  assert (Hok : isSuccess (snd (stakingToken (chain0 alice 9) 1 stake3)))
    by (vm_compute; eauto).
  split; [exact Hok |].
  exact (proj1 (stake_then_withdraw_fails (chain0 alice 9) _ 1 stake3 _
                  (surjective_pairing _) Hok _ eq_refl)).
Defined.

(** [stake_posts_mint_task] on Alice's stake into bubble 1, whose first
    L1 operator is the local node. *)
Lemma stake_posts_mint_task_witness :
  isSuccess (snd (stakingToken (chain0 alice 9) 1 stake3))
  /\ posted (Plugin (fst (stakingToken (chain0 alice 9) 1 stake3)))
     = posted plugin0 ++ [MintTokenTask 1 9 "http://l2" 21 stake3].
Proof.
  assert (Hok : isSuccess (snd (stakingToken (chain0 alice 9) 1 stake3)))
    by (vm_compute; eauto).
  split; [exact Hok |].
  destruct (stake_posts_mint_task (chain0 alice 9) _ 1 stake3 _ (surjective_pairing _) Hok)
    as (basics & st & opL1 & _ & Hb & _ & _ & _ & Hl1 & Hpost).
  assert (basics = basics1) as ->.
  { vm_compute in Hb. now injection Hb as <-. }
  assert (opL1 = operatorL1) as ->.
  { simpl in Hl1. now injection Hl1 as <-. }
  destruct Hpost as (opL2 & Hl2 & Hpost).
  assert (opL2 = operatorL2) as ->.
  { simpl in Hl2. now injection Hl2 as <-. }
  exact Hpost.
Defined.


(** [settle_stores_last_snapshot] on a batch that names Alice twice, for
    a bubble of two accounts: the batch passes, Alice's asset is the second
    snapshot and Bob has none as before. *)
Lemma settle_stores_last_snapshot_witness :
  isSuccess (snd (settleBubble (chain1 31 9) 55 1 batchTwice))
  /\ accAssetDB (Plugin (fst (settleBubble (chain1 31 9) 55 1 batchTwice))) !! (1%Z, alice)
     = Some (mkAsset alice 9 [mkToken token 2])
  /\ accAssetDB (Plugin (fst (settleBubble (chain1 31 9) 55 1 batchTwice))) !! (1%Z, bob)
     = None
  /\ accAssetDB (Plugin (fst (settleBubble (chain1 31 9) 55 1 batchTwice))) !! (2%Z, bob)
     = Some bobIn2.
Proof.
  assert (Hok : isSuccess (snd (settleBubble (chain1 31 9) 55 1 batchTwice)))
    by (vm_compute; eauto).
  split; [exact Hok |].
  pose proof (settle_stores_last_snapshot (chain1 31 9) _ 55 1 batchTwice _
                (surjective_pairing _) Hok) as Hstored.
  split; [rewrite (Hstored 1%Z alice); reflexivity |].
  split; [rewrite (Hstored 1%Z bob); reflexivity |].
  rewrite (Hstored 2%Z bob). reflexivity.
Defined.

(** *** The keys under a one-byte encoder *)

#[local] Existing Instance byteRlp.

Lemma byteOfN_inj (x y : N) : (x < 256)%N -> (y < 256)%N -> byteOfN x = byteOfN y -> x = y.
Proof.
  intros Hx Hy Heq. rewrite <- (byteOfN_to_N x Hx), <- (byteOfN_to_N y Hy). now rewrite Heq.
Defined.

(** The one-byte encoder tells the bubbles it encodes apart. *)
Lemma byteRlp_injective : encoderInjective.
Proof.
  intros i j bid. simpl.
  destruct ((0 <=? i) && (i <? 256))%Z eqn:Ei; [| discriminate].
  destruct ((0 <=? j) && (j <? 256))%Z eqn:Ej; [| discriminate].
  intros [= <-] [= Hj].
  apply andb_prop in Ei as [Hi0 Hi1]. apply andb_prop in Ej as [Hj0 Hj1].
  apply Z.leb_le in Hi0, Hj0. apply Z.ltb_lt in Hi1, Hj1.
  apply byteOfN_inj in Hj; lia.
Defined.

(** [keys_of_different_kinds_differ] on the keys of bubble 1. *)
Lemma keys_of_different_kinds_differ_witness :
  (GetBubbleKey 1 <> [] /\ AccListByBubKey 1 <> [] /\ AccAssetByBubKey 1 alice <> [])
  /\ GetBubbleKey 1 <> AccListByBubKey 1
  /\ AccListByBubKey 1 <> AccAssetByBubKey 2 alice
  /\ AccAssetByBubKey 1 alice <> TxHashByBubKey 1 9.
Proof.
  assert (Hmade : GetBubbleKey 1 <> [] /\ AccListByBubKey 1 <> []
                  /\ AccAssetByBubKey 1 alice <> [])
    by (repeat split; discriminate).
  split; [exact Hmade |].
  destruct Hmade as (Hb & Hl & Ha).
  split; [exact (proj1 (keys_of_different_kinds_differ 1 1 alice 9) Hb) |].
  split.
  - exact (proj1 (proj2 (proj2 (proj2 (keys_of_different_kinds_differ 1 2 alice 9)))) Hl).
  - exact (proj2 (proj2 (proj2 (proj2 (proj2
             (keys_of_different_kinds_differ 1 1 alice 9))))) Ha).
Defined.

(** [keys_tell_bubble_and_account] on the keys of the bubbles 1 and 2 and
    of Alice and Bob. *)
Lemma keys_tell_bubble_and_account_witness :
  (encoderInjective /\ GetBubbleKey 1 <> [] /\ AccAssetByBubKey 1 alice <> []
   /\ (alice < 2 ^ 160)%N /\ (bob < 2 ^ 160)%N)
  /\ GetBubbleKey 1 <> GetBubbleKey 2
  /\ AccAssetByBubKey 1 alice <> AccAssetByBubKey 1 bob.
Proof.
  assert (Hb : GetBubbleKey 1 <> []) by discriminate.
  assert (Ha : AccAssetByBubKey 1 alice <> []) by discriminate.
  assert (Halice : (alice < 2 ^ 160)%N) by (vm_compute; reflexivity).
  assert (Hbob : (bob < 2 ^ 160)%N) by (vm_compute; reflexivity).
  split; [repeat split; try assumption; apply byteRlp_injective |].
  split.
  - intros Heq.
    pose proof (proj1 (keys_tell_bubble_and_account 1 2 byteRlp_injective) Hb Heq).
    discriminate.
  - intros Heq.
    destruct (proj1 (proj2 (proj2 (keys_tell_bubble_and_account 1 1 byteRlp_injective)))
                alice bob Halice Hbob Ha Heq) as [_ Hab].
    discriminate.
Defined.

(** *** The answers over the chain of six blocks *)

#[local] Existing Instance demoBackend.

(** [headers_within_limits] on a query for 2^63 headers, which is served
    nothing. *)
Lemma headers_within_limits_witness :
  (2 ^ 63 <= eth.Amount queryHuge < 2 ^ 64)%N
  /\ eth.answerGetBlockHeadersQuery queryHuge = [].
Proof.
  assert (Hamount : (2 ^ 63 <= eth.Amount queryHuge < 2 ^ 64)%N)
    by (vm_compute; split; [discriminate | reflexivity]).
  split; [exact Hamount |].
  exact (proj2 (headers_within_limits queryHuge) (or_intror Hamount)).
Defined.

(** [headers_by_number_towards_leaf] on the query for three headers from
    block 1 on, every second one: the blocks 1, 3 and 5. *)
Lemma headers_by_number_towards_leaf_witness :
  (eth.OriginHash queryUp = ZeroHash /\ eth.Reverse queryUp = false
   /\ (eth.OriginNumber queryUp < 2 ^ 64)%N)
  /\ eth.answerGetBlockHeadersQuery queryUp = [demoHeader 1; demoHeader 3; demoHeader 5]
  /\ eth.GetHeaderByNumber (eth.numberUp queryUp 2) = Some (demoHeader 5)
  /\ (eth.headersAllowed queryUp (length (eth.answerGetBlockHeadersQuery queryUp)) = false
      \/ eth.GetHeaderByNumber
           (eth.numberUp queryUp (length (eth.answerGetBlockHeadersQuery queryUp))) = None).
Proof.
  assert (Hnum : (eth.OriginNumber queryUp < 2 ^ 64)%N) by (vm_compute; reflexivity).
  assert (Hserved : eth.answerGetBlockHeadersQuery queryUp
                    = [demoHeader 1; demoHeader 3; demoHeader 5])
    by (vm_compute; reflexivity).
  split; [repeat split; exact Hnum |].
  split; [exact Hserved |].
  destruct (headers_by_number_towards_leaf queryUp eq_refl eq_refl Hnum) as [Hk Hend].
  split; [| exact Hend].
  apply Hk. rewrite Hserved. reflexivity.
Defined.

(** [headers_by_number_towards_genesis] on the query for five headers from
    block 4 down, every second one: the blocks 4, 2 and 0, where the next
    step would pass the genesis block. *)
Lemma headers_by_number_towards_genesis_witness :
  (eth.OriginHash queryDown = ZeroHash /\ eth.Reverse queryDown = true)
  /\ eth.answerGetBlockHeadersQuery queryDown = [demoHeader 4; demoHeader 2; demoHeader 0]
  /\ eth.GetHeaderByNumber (eth.numberDown queryDown 2) = Some (demoHeader 0)
  /\ (eth.headersAllowed queryDown (length (eth.answerGetBlockHeadersQuery queryDown))
      = false
      \/ eth.GetHeaderByNumber
           (eth.numberDown queryDown (length (eth.answerGetBlockHeadersQuery queryDown)))
         = None
      \/ (eth.OriginNumber queryDown
          < N.of_nat (length (eth.answerGetBlockHeadersQuery queryDown))
            * eth.Uint64 (eth.Skip queryDown + 1))%N).
Proof.
  assert (Hserved : eth.answerGetBlockHeadersQuery queryDown
                    = [demoHeader 4; demoHeader 2; demoHeader 0])
    by (vm_compute; reflexivity).
  split; [split; reflexivity |].
  split; [exact Hserved |].
  destruct (headers_by_number_towards_genesis queryDown eq_refl eq_refl) as [Hk Hend].
  split; [| exact Hend].
  apply (Hk 2%nat). rewrite Hserved. reflexivity.
Defined.

(** [headers_by_hash] on the query from the hash of block 2 down with a
    skip of 2^64-1: block 2 alone is served. *)
Lemma headers_by_hash_witness :
  (eth.OriginHash queryWrap <> ZeroHash
   /\ eth.GetHeaderByHash (eth.OriginHash queryWrap) = Some (demoHeader 2)
   /\ eth.headersAllowed queryWrap 0 = true
   /\ eth.Reverse queryWrap = true
   /\ eth.Uint64 (eth.Skip queryWrap + 1) = 0%N)
  /\ eth.answerGetBlockHeadersQuery queryWrap = [demoHeader 2].
Proof.
  assert (Hhash : eth.OriginHash queryWrap <> ZeroHash) by discriminate.
  assert (Horigin : eth.GetHeaderByHash (eth.OriginHash queryWrap) = Some (demoHeader 2))
    by (vm_compute; reflexivity).
  assert (Hroom : eth.headersAllowed queryWrap 0 = true) by (vm_compute; reflexivity).
  assert (Hwrap : eth.Uint64 (eth.Skip queryWrap + 1) = 0%N) by (vm_compute; reflexivity).
  split; [repeat split; assumption |].
  exact (proj2 (proj2 (headers_by_hash queryWrap Hhash) (demoHeader 2) Horigin Hroom)
           (or_intror (conj eq_refl Hwrap))).
Defined.

(** [bodies_answer] on a query of two known blocks around an unknown
    hash. *)
Lemma bodies_answer_witness :
  ((Z.of_nat (length [1001; 5; 1002]%N) <= eth.maxBodiesServe)%Z
   /\ (eth.totalSize (eth.served eth.bodyData [1001; 5; 1002]%N) < eth.softResponseLimit)%Z)
  /\ eth.answerGetBlockBodiesQuery [1001; 5; 1002]%N
     = eth.served eth.bodyData [1001; 5; 1002]%N.
Proof.
  assert (Hcount : (Z.of_nat (length [1001; 5; 1002]%N) <= eth.maxBodiesServe)%Z)
    by (vm_compute; discriminate).
  assert (Hsize : (eth.totalSize (eth.served eth.bodyData [1001; 5; 1002]%N)
                   < eth.softResponseLimit)%Z) by (vm_compute; reflexivity).
  split; [split; assumption |].
  exact (proj2 (proj2 (proj2 (bodies_answer [1001; 5; 1002]%N))) Hcount Hsize).
Defined.

(** [node_data_answer] on a query of a trie node, a contract code, a hash
    the bloom rules out and a hash the state does not hold. *)
Lemma node_data_answer_witness :
  ((Z.of_nat (length [2000; 2001; 7; 2002]%N) <= eth.maxNodeDataServe)%Z
   /\ (eth.totalSize (eth.served eth.nodeData [2000; 2001; 7; 2002]%N)
       < eth.softResponseLimit)%Z)
  /\ eth.answerGetNodeDataQuery [2000; 2001; 7; 2002]%N
     = eth.served eth.nodeData [2000; 2001; 7; 2002]%N.
Proof.
  assert (Hcount : (Z.of_nat (length [2000; 2001; 7; 2002]%N) <= eth.maxNodeDataServe)%Z)
    by (vm_compute; discriminate).
  assert (Hsize : (eth.totalSize (eth.served eth.nodeData [2000; 2001; 7; 2002]%N)
                   < eth.softResponseLimit)%Z) by (vm_compute; reflexivity).
  split; [split; assumption |].
  exact (proj2 (proj2 (proj2 (node_data_answer [2000; 2001; 7; 2002]%N))) Hcount Hsize).
Defined.

(** [receipts_answer] on a query of block 1, which has a receipt, block 3,
    which has the empty receipt root, and block 2, whose receipts are not
    known. *)
Lemma receipts_answer_witness :
  ((Z.of_nat (length [1001; 1003; 1002]%N) <= eth.maxReceiptsServe)%Z
   /\ (eth.totalSize (eth.served eth.receiptsData [1001; 1003; 1002]%N)
       < eth.softResponseLimit)%Z)
  /\ eth.answerGetReceiptsQuery [1001; 1003; 1002]%N
     = eth.served eth.receiptsData [1001; 1003; 1002]%N.
Proof.
  assert (Hcount : (Z.of_nat (length [1001; 1003; 1002]%N) <= eth.maxReceiptsServe)%Z)
    by (vm_compute; discriminate).
  assert (Hsize : (eth.totalSize (eth.served eth.receiptsData [1001; 1003; 1002]%N)
                   < eth.softResponseLimit)%Z) by (vm_compute; reflexivity).
  split; [split; assumption |].
  exact (proj2 (proj2 (proj2 (receipts_answer [1001; 1003; 1002]%N))) Hcount Hsize).
Defined.

(** [pooled_answer] on a query of a transaction of the pool, one that
    cannot be encoded, one the pool does not hold, and another of the
    pool. *)
Lemma pooled_answer_witness :
  (eth.totalSize (eth.served eth.pooledData [3; 4; 50; 6]%N) < eth.softResponseLimit)%Z
  /\ eth.answerGetPooledTransactions [3; 4; 50; 6]%N
     = (eth.known eth.pooledData [3; 4; 50; 6]%N, eth.served eth.pooledData [3; 4; 50; 6]%N).
Proof.
  assert (Hsize : (eth.totalSize (eth.served eth.pooledData [3; 4; 50; 6]%N)
                   < eth.softResponseLimit)%Z) by (vm_compute; reflexivity).
  split; [exact Hsize |].
  exact (proj2 (proj2 (proj2 (pooled_answer [3; 4; 50; 6]%N))) Hsize).
Defined.
